(** * Kopek: the trading state machine, embedded and verified

    A shallow embedding of the Python sources

      - [trade_manager.py]      (the position ledger),
      - [binance_ws.py]         (the spot-price reference tracker),
      - [polymarket_client.py]  (the venue: order book reads, market
                                 discovery),
      - [strategy.py]           (entry evaluator, exit supervisor, outcome pass),

    followed by the properties of the specification that concern them.

    Conventions of the embedding.
      - A Python [float] is an IEEE-754 binary64 number: Rocq's primitive
        [float], with the same operations and comparisons.
      - A Python [dict] whose iteration order is observable ([self.trades]) is
        an insertion-ordered association list ([PyDict]); the dictionaries of
        the price monitor, which are only read and written by key, are
        [gmap]s; the set of pending outcomes is a [gset].
      - [time.time()] is an explicit argument [now].
      - An exception is a value of [result]; the only one the ledger raises
        is the [KeyError] of [self.trades[trade_id]].
      - The venue (HTTP order book, resolution, order placement) is a record
        of oracles, passed to the code that calls it; [get_best_ask] and
        [get_orderbook_depth] send a request each and have an oracle each.
      - Logging and Telegram notifications do not touch the state and are
        left out; the reason strings, built with f-strings from formatted
        floats, are values of an inductive type carrying the same data. *)

From Stdlib Require Import Floats ZArith NArith PArith Lia Bool Ascii String.
From Stdlib Require Import Decimal DecimalString DecimalN.
From stdpp Require Import base gmap sets list strings.

#[local] Set Warnings "-inexact-float".
#[local] Open Scope string_scope.

(* ===================================================================== *)
(** * Python values *)
(* ===================================================================== *)

(** Float literals and the comparisons of the source, in one place. *)
Module F.
Notation "x <? y" := (PrimFloat.ltb x y) : float_scope.
Notation "x <=? y" := (PrimFloat.leb x y) : float_scope.
Notation "x =? y" := (PrimFloat.eqb x y) : float_scope.

(** [a > b] and [a >= b] are Python's reflected comparisons. *)
Definition gtb (a b : float) : bool := PrimFloat.ltb b a.
Definition geb (a b : float) : bool := PrimFloat.leb b a.

(** [bool(x)] for a float: [x != 0.0]. *)
Definition truthy (x : float) : bool := negb (PrimFloat.eqb x 0%float).

(** [max(a, b)] on two arguments: [b] if [b > a], else [a]. *)
Definition max (a b : float) : float := if gtb b a then b else a.

(** [x] is neither an infinity nor a NaN. *)
Definition finite (x : float) : bool := PrimFloat.is_finite x.
Definition nan (x : float) : bool := PrimFloat.is_nan x.
End F.

(** Exceptions and results. *)
Inductive exn : Type :=
  | KeyError (key : string).

Inductive result (A : Type) : Type :=
  | Ok (a : A)
  | Raise (e : exn).
Arguments Ok {A} a.
Arguments Raise {A} e.

(** An insertion-ordered dictionary with string keys. *)
Module PyDict.
Section Ops.
Context {V : Type}.

(** [d.get(k)] *)
Fixpoint get (d : list (string * V)) (k : string) : option V :=
  match d with
  | [] => None
  | (k', v) :: d' => if String.eqb k' k then Some v else get d' k
  end.

(** [d[k] = v]: an existing key keeps its place, a new one goes last. *)
Fixpoint setitem (d : list (string * V)) (k : string) (v : V)
  : list (string * V) :=
  match d with
  | [] => [(k, v)]
  | (k', v') :: d' =>
      if String.eqb k' k then (k, v) :: d' else (k', v') :: setitem d' k v
  end.

(** [d.pop(k, None)], for its effect on [d] *)
Fixpoint pop (d : list (string * V)) (k : string) : list (string * V) :=
  match d with
  | [] => []
  | (k', v') :: d' =>
      if String.eqb k' k then d' else (k', v') :: pop d' k
  end.

(** [d.keys()], [d.values()] *)
Definition keys (d : list (string * V)) : list string := map fst d.
Definition values (d : list (string * V)) : list V := map snd d.
End Ops.
End PyDict.

(** [f"{n:04d}"]: sign-aware zero padding to width four. *)
Definition digits (n : N) : string := NilEmpty.string_of_uint (N.to_uint n).

Fixpoint zeros (k : nat) : string :=
  match k with
  | O => EmptyString
  | S k' => String "0"%char (zeros k')
  end.

Definition zfill (width : nat) (s : string) : string :=
  zeros (width - String.length s) ++ s.

Definition format_04d (n : Z) : string :=
  if (n <? 0)%Z
  then String "-"%char (zfill 3 (digits (Z.to_N (- n))))
  else zfill 4 (digits (Z.to_N n)).

(** The left inverse of [digits] used to show that ids are not reused. *)
Definition parse_digits (s : string) : option N :=
  option_map N.of_uint (NilEmpty.uint_of_string s).

(* ===================================================================== *)
(** * trade_manager.py *)
(* ===================================================================== *)

Module Trade.
(** [@dataclass class Trade] *)
Record t : Type := mk {
  trade_id : string;
  condition_id : string;
  order_id : string;
  asset : string;
  direction : string;
  market_type : string;
  market_label : string;
  open_time_str : string;
  close_time_str : string;
  buy_price : float;
  shares : float;
  size_usdc : float;
  yes_token_id : string;
  no_token_id : string;
  close_timestamp : float;
  entry_time : float;
  binance_entry_price : float;
  status : string;
  sell_price : option float;
  pnl_usdc : option float;
  resolved_at : option float;
  cutloss_reason : option string
}.

(** The four attribute writes every [resolve_*] makes, and the fifth that
    [resolve_cutloss] adds. *)
Definition close (tr : t) (st : string) (sell pnl at_ : float)
    (reason : option string) : t :=
  {| trade_id := trade_id tr; condition_id := condition_id tr;
     order_id := order_id tr; asset := asset tr; direction := direction tr;
     market_type := market_type tr; market_label := market_label tr;
     open_time_str := open_time_str tr; close_time_str := close_time_str tr;
     buy_price := buy_price tr; shares := shares tr;
     size_usdc := size_usdc tr; yes_token_id := yes_token_id tr;
     no_token_id := no_token_id tr; close_timestamp := close_timestamp tr;
     entry_time := entry_time tr;
     binance_entry_price := binance_entry_price tr;
     status := st; sell_price := Some sell; pnl_usdc := Some pnl;
     resolved_at := Some at_; cutloss_reason := reason |}.

Definition is_open (tr : t) : bool := String.eqb (status tr) "open".
End Trade.

(** The arguments of [open_trade]. *)
Module OpenParams.
Record t : Type := mk {
  condition_id : string;
  order_id : string;
  asset : string;
  direction : string;
  market_type : string;
  market_label : string;
  open_time_str : string;
  close_time_str : string;
  buy_price : float;
  shares : float;
  size_usdc : float;
  yes_token_id : string;
  no_token_id : string;
  close_timestamp : float;
  binance_entry_price : float
}.
End OpenParams.

(** The persisted document [{balance, counter, trades}]; a key may be
    missing, in which case [_load] falls back on its default. *)
Module Document.
Record t : Type := mk {
  balance : option float;
  counter : option Z;
  trades : list Trade.t
}.
End Document.

Module TradeManager.
Record t : Type := mk {
  trades : list (string * Trade.t);
  balance : float;
  _trade_counter : Z
}.

(** [_save]: the document written to [TRADES_FILE]. *)
Definition _save (tm : t) : Document.t :=
  {| Document.balance := Some (balance tm);
     Document.counter := Some (_trade_counter tm);
     Document.trades := PyDict.values (trades tm) |}.

(** [_load]: no file, no change; otherwise balance, counter, and every
    trade of the document keyed by its [trade_id]. *)
Definition _load (file : option Document.t) (tm : t) : t :=
  match file with
  | None => tm
  | Some data =>
      {| balance := default (balance tm) (Document.balance data);
         _trade_counter := default 0%Z (Document.counter data);
         trades :=
           fold_left (fun d tr => PyDict.setitem d (Trade.trade_id tr) tr)
                     (Document.trades data) (trades tm) |}
  end.

(** [__init__] *)
Definition __init__ (starting_balance : float) (file : option Document.t)
  : t :=
  _load file {| trades := []; balance := starting_balance;
                _trade_counter := 0 |}.

(** [_new_id] *)
Definition _new_id (tm : t) : t * string :=
  let c := (_trade_counter tm + 1)%Z in
  ({| trades := trades tm; balance := balance tm; _trade_counter := c |},
   "T" ++ format_04d c).

(** [open_trade] *)
Definition open_trade (now : float) (p : OpenParams.t) (tm : t)
  : t * Trade.t :=
  let '(tm1, tid) := _new_id tm in
  let trade :=
    {| Trade.trade_id := tid;
       Trade.condition_id := OpenParams.condition_id p;
       Trade.order_id := OpenParams.order_id p;
       Trade.asset := OpenParams.asset p;
       Trade.direction := OpenParams.direction p;
       Trade.market_type := OpenParams.market_type p;
       Trade.market_label := OpenParams.market_label p;
       Trade.open_time_str := OpenParams.open_time_str p;
       Trade.close_time_str := OpenParams.close_time_str p;
       Trade.buy_price := OpenParams.buy_price p;
       Trade.shares := OpenParams.shares p;
       Trade.size_usdc := OpenParams.size_usdc p;
       Trade.yes_token_id := OpenParams.yes_token_id p;
       Trade.no_token_id := OpenParams.no_token_id p;
       Trade.close_timestamp := OpenParams.close_timestamp p;
       Trade.entry_time := now;
       Trade.binance_entry_price := OpenParams.binance_entry_price p;
       Trade.status := "open";
       Trade.sell_price := None; Trade.pnl_usdc := None;
       Trade.resolved_at := None; Trade.cutloss_reason := None |} in
  ({| balance := (balance tm1 - OpenParams.size_usdc p)%float;
      trades := PyDict.setitem (trades tm1) tid trade;
      _trade_counter := _trade_counter tm1 |},
   trade).

(** [resolve_win] *)
Definition resolve_win (now : float) (trade_id : string) (tm : t)
  : result (t * Trade.t) :=
  match PyDict.get (trades tm) trade_id with
  | None => Raise (KeyError trade_id)
  | Some tr =>
      let tr' :=
        Trade.close tr "win" 1%float
          (Trade.shares tr * (1 - Trade.buy_price tr))%float now
          (Trade.cutloss_reason tr) in
      Ok ({| balance := (balance tm + Trade.shares tr)%float;
             trades := PyDict.setitem (trades tm) trade_id tr';
             _trade_counter := _trade_counter tm |},
          tr')
  end.

(** [resolve_loss] *)
Definition resolve_loss (now : float) (trade_id : string) (tm : t)
  : result (t * Trade.t) :=
  match PyDict.get (trades tm) trade_id with
  | None => Raise (KeyError trade_id)
  | Some tr =>
      let tr' :=
        Trade.close tr "loss" 0%float (- Trade.size_usdc tr)%float now
          (Trade.cutloss_reason tr) in
      Ok ({| balance := balance tm;
             trades := PyDict.setitem (trades tm) trade_id tr';
             _trade_counter := _trade_counter tm |},
          tr')
  end.

(** [resolve_cutloss] *)
Definition resolve_cutloss (now : float) (trade_id : string)
    (sell_price : float) (reason : string) (tm : t)
  : result (t * Trade.t) :=
  match PyDict.get (trades tm) trade_id with
  | None => Raise (KeyError trade_id)
  | Some tr =>
      let payout := (Trade.shares tr * sell_price)%float in
      let tr' :=
        Trade.close tr "cutloss" sell_price
          (payout - Trade.size_usdc tr)%float now (Some reason) in
      Ok ({| balance := (balance tm + payout)%float;
             trades := PyDict.setitem (trades tm) trade_id tr';
             _trade_counter := _trade_counter tm |},
          tr')
  end.

(** [get_open_trades] *)
Definition get_open_trades (tm : t) : list Trade.t :=
  filter (fun tr => Trade.is_open tr = true) (PyDict.values (trades tm)).

(** [already_traded] *)
Definition already_traded (condition_id : string) (tm : t) : bool :=
  existsb (fun tr => String.eqb (Trade.condition_id tr) condition_id)
          (PyDict.values (trades tm)).

(** [profit_cents_per_share]: [(trade.sell_price or 0)] is the sell price
    unless it is [None] or zero. *)
Definition profit_cents_per_share (trade : Trade.t) : float :=
  let sell :=
    match Trade.sell_price trade with
    | Some s => if F.truthy s then s else 0%float
    | None => 0%float
    end in
  ((sell - Trade.buy_price trade) * 100)%float.

(** [set_balance] *)
Definition set_balance (b : float) (tm : t) : t :=
  {| balance := b; trades := trades tm;
     _trade_counter := _trade_counter tm |}.

(** [get_open_by_condition]: the first open trade on the market. *)
Definition get_open_by_condition (condition_id : string) (tm : t)
  : option Trade.t :=
  List.find
    (fun tr => String.eqb (Trade.condition_id tr) condition_id
               && Trade.is_open tr)
    (PyDict.values (trades tm)).

(** The dictionary [get_stats] returns. *)
Record Stats : Type := mkStats {
  stat_total_trades : nat;
  stat_open : nat;
  stat_wins : nat;
  stat_losses : nat;
  stat_win_rate : float;
  stat_total_pnl : float;
  stat_balance : float
}.

(** [len(xs)] as the float a true division takes it to. *)
Definition float_of_len (n : nat) : float :=
  PrimFloat.of_uint63 (Uint63.of_Z (Z.of_nat n)).

(** [get_stats].  The builtin [sum] over the profits of the closed trades
    is an argument: how it adds floats depends on the version of the
    interpreter. *)
Definition get_stats (py_sum : list float -> float) (tm : t) : Stats :=
  let closed :=
    filter (fun tr => Trade.is_open tr = false) (PyDict.values (trades tm)) in
  let wins :=
    filter (fun tr => String.eqb (Trade.status tr) "win" = true) closed in
  let total_pnl :=
    py_sum
      (map (fun tr =>
              match Trade.pnl_usdc tr with
              | Some x => if F.truthy x then x else 0%float
              | None => 0%float
              end) closed) in
  let win_rate :=
    match closed with
    | [] => 0%float
    | _ =>
        (float_of_len (List.length wins) / float_of_len (List.length closed)
         * 100)%float
    end in
  {| stat_total_trades := List.length (trades tm);
     stat_open := List.length (get_open_trades tm);
     stat_wins := List.length wins;
     stat_losses :=
       List.length
         (filter (fun tr => String.eqb (Trade.status tr) "loss"
                            || String.eqb (Trade.status tr) "cutloss" = true)
                 closed);
     stat_win_rate := win_rate;
     stat_total_pnl := total_pnl;
     stat_balance := balance tm |}.
End TradeManager.

(* ===================================================================== *)
(** * config.py *)
(* ===================================================================== *)

(** The strategy constants, read from the environment at import time.  The
    two entry windows are Python ints; they are only ever compared with
    floats, which Python does on their exact values, so they are kept as the
    floats they denote. *)
Module Config.
(** The settings the strategy reads.  The two windows are [int]s in
    config.py; they are held as the floats they compare as. *)
Record t : Type := mk {
  BUY_THRESHOLD : float;
  ENTRY_SECONDS_5M : float;
  ENTRY_SECONDS_15M : float;
  TRADE_SIZE_USDC : float;
  CUTLOSS_PM_PRICE : float;
  CUTLOSS_BINANCE_PCT : float
}.

(** The defaults of [os.getenv]. *)
Definition default : t :=
  {| BUY_THRESHOLD := 0.97; ENTRY_SECONDS_5M := 120;
     ENTRY_SECONDS_15M := 300; TRADE_SIZE_USDC := 10.0;
     CUTLOSS_PM_PRICE := 0.80; CUTLOSS_BINANCE_PCT := 0.003 |}%float.
End Config.

(* ===================================================================== *)
(** * binance_ws.py *)
(* ===================================================================== *)

Module BinancePriceMonitor.
Record t : Type := mk {
  prices : gmap string float;
  price_at_buy : gmap string float;
  price_history : gmap string (list (float * float))
}.

Definition __init__ : t :=
  {| prices := ∅; price_at_buy := ∅; price_history := ∅ |}.

(** [get_price] *)
Definition get_price (asset : string) (mon : t) : option float :=
  prices mon !! asset.

(** [set_reference_price]: nothing happens without a spot price. *)
Definition set_reference_price (asset : string) (mon : t) : t :=
  match prices mon !! asset with
  | Some p =>
      {| prices := prices mon;
         price_at_buy := <[asset := p]> (price_at_buy mon);
         price_history := price_history mon |}
  | None => mon
  end.

(** [clear_reference_price]: [self.price_at_buy.pop(asset, None)] *)
Definition clear_reference_price (asset : string) (mon : t) : t :=
  {| prices := prices mon;
     price_at_buy := delete asset (price_at_buy mon);
     price_history := price_history mon |}.

(** [get_change_pct] *)
Definition get_change_pct (asset : string) (mon : t) : option float :=
  match prices mon !! asset, price_at_buy mon !! asset with
  | Some current, Some ref =>
      if (ref =? 0)%float then None else Some ((current - ref) / ref)%float
  | _, _ => None
  end.

(** [_process_tick].  The history keeps the last 120 ticks.  The call of
    [_check_cutloss] that ends it only runs the registered callbacks, and
    nothing in the program registers one: it leaves the monitor as it is. *)
Definition _process_tick (now : float) (asset : string) (price : float)
    (mon : t) : t :=
  let history :=
    (default [] (price_history mon !! asset) ++ [(now, price)])%list in
  let history :=
    if (120 <? List.length history)%nat then tail history else history in
  {| prices := <[asset := price]> (prices mon);
     price_at_buy := price_at_buy mon;
     price_history := <[asset := history]> (price_history mon) |}.

(** [get_1min_trend] *)
Definition get_1min_trend (now : float) (asset : string) (mon : t)
  : option float :=
  let history := default [] (price_history mon !! asset) in
  if (List.length history <? 10)%nat then None
  else
    let one_min_ago := (now - 60)%float in
    let old_ticks :=
      map snd (filter (fun tp => (fst tp <=? one_min_ago)%float = true)
                      history) in
    match last old_ticks with
    | None => None
    | Some old_price =>
        match prices mon !! asset with
        | None => None
        | Some current =>
            if negb (F.truthy current) || (old_price =? 0)%float then None
            else Some ((current - old_price) / old_price)%float
        end
    end.
End BinancePriceMonitor.

(* ===================================================================== *)
(** * polymarket_client.py *)
(* ===================================================================== *)

Module MarketInfo.
(** The attributes of [MarketInfo] the strategy reads. *)
Record t : Type := mk {
  condition_id : string;
  asset : string;
  direction : string;
  market_type : string;
  yes_token_id : string;
  no_token_id : string;
  close_time : float;
  open_time_str : string;
  close_time_str : string
}.

(** [seconds_to_close]: [max(0, self.close_time - time.time())] *)
Definition seconds_to_close (now : float) (m : t) : float :=
  F.max 0%float (close_time m - now)%float.

(** [market_label] *)
Definition market_label (m : t) : string :=
  asset m ++ " Up or Down - " ++
  (if String.eqb (market_type m) "5m" then "5 Minutes" else "15 Minutes").

(** [is_expired] *)
Definition is_expired (now : float) (m : t) : bool :=
  F.geb now (close_time m).
End MarketInfo.

Module PolymarketClient.
(** A level of the JSON of [GET /book], as [float] reads it:
    [float(level["price"])] and [float(level["size"])], [None] where the key
    is missing or [float] raises. *)
Record Level : Type := mkLevel {
  level_price : option float;
  level_size : option float
}.

(** The JSON of one answer to [GET /book]: the levels of each side in the
    order the venue sent them; a side that is missing reads as the empty
    list. *)
Record Book : Type := mkBook {
  book_bids : list Level;
  book_asks : list Level
}.

(** The dictionary [get_orderbook_depth] returns. *)
Record Depth : Type := mkDepth {
  bids : list (float * float);
  asks : list (float * float);
  spread : option float
}.

(** The venue, as the client sees it during one cycle.  [None] stands for
    a call that raised (network error, bad status, malformed payload).
    [get_best_ask] and [get_orderbook_depth] each send their own
    [GET /book], so each has its own answer. *)
Record t : Type := mk {
  (** the answer to the [GET /book?token_id=...] of [get_best_ask] *)
  book_for_ask : string -> option Book;
  (** the answer to the [GET /book?token_id=...] of [get_orderbook_depth] *)
  book_for_depth : string -> option Book;
  (** [check_market_resolved]: [Some] outcome, or [None] while pending *)
  check_market_resolved : string -> option string;
  (** [buy_yes market price size_usdc]: order id and share count *)
  buy_yes : MarketInfo.t -> float -> float -> option (string * float);
  (** [sell_yes] on a token, at a price, for a share count, with an order
      type: the order id *)
  sell_yes : string -> float -> float -> string -> option string;
  (** [scan_markets] *)
  scan_markets : list MarketInfo.t
}.

(** [get_best_ask]: [float(asks[0]["price"])] of its own answer; nothing
    else of the book is read. *)
Definition get_best_ask (venue : t) (token_id : string) : option float :=
  match book_for_ask venue token_id with
  | Some b =>
      match book_asks b with
      | a :: _ => level_price a
      | [] => None
      end
  | None => None
  end.

(** [[(float(l["price"]), float(l["size"])) for l in side]]; [None] when
    one of the conversions raises. *)
Fixpoint levels (side : list Level) : option (list (float * float)) :=
  match side with
  | [] => Some []
  | l :: side' =>
      match level_price l, level_size l, levels side' with
      | Some p, Some s, Some ls => Some ((p, s) :: ls)
      | _, _, _ => None
      end
  end.

(** [get_orderbook_depth]: five levels a side of its own answer and the
    top-of-book spread; empty sides and no spread when anything raises. *)
Definition get_orderbook_depth (venue : t) (token_id : string) : Depth :=
  let failed := {| bids := []; asks := []; spread := None |} in
  match book_for_depth venue token_id with
  | Some b =>
      match levels (take 5 (book_bids b)), levels (take 5 (book_asks b)) with
      | Some bs, Some as_ =>
          {| bids := bs; asks := as_;
             spread :=
               match as_, bs with
               | a :: _, b0 :: _ => Some (fst a - fst b0)%float
               | _, _ => None
               end |}
      | _, _ => failed
      end
  | None => failed
  end.
End PolymarketClient.

(* ===================================================================== *)
(** * polymarket_client.py: market discovery *)
(* ===================================================================== *)

Module Gamma.
(** What the client reads from the JSON of the Gamma API.  A string key
    that is absent reads as the empty string: every [get] of the code has
    the default [""], or yields a [None] that only meets [or] and [not],
    where it counts like [""].  An absent list reads as the empty list. *)

(** What [float(d.get(key, default))] finds under a key. *)
Inductive number : Type :=
  | Missing                 (* no such key: the default is used *)
  | Malformed               (* [float] raises *)
  | Number (x : float).

Record Token : Type := mkToken {
  outcome : string;
  token_id : string;
  price : number
}.

Record Market : Type := mkMarket {
  conditionId : string;
  question : string;
  slug : string;
  tokens : list Token;
  endDate : string;
  end_date_iso : string;
  end_date : string;
  bestAsk : number;
  bestBid : number;
  lastTradePrice : number;
  (** [bool(m.get("closed"))] *)
  closed : bool
}.

(** The library calls of the code, which the development does not look
    into.  [None] stands for a call that raises. *)
Record Runtime : Type := mkRuntime {
  (** [str.upper], [str.lower] *)
  upper : string -> string;
  lower : string -> string;
  (** [datetime.fromisoformat(s).timestamp()] *)
  fromisoformat : string -> option float;
  (** [datetime.fromtimestamp(t, tz=timezone.utc)
        .strftime("%b %d, %I:%M %p ET").replace(" 0", " ")] *)
  open_time_str : float -> option string;
  (** [datetime.fromisoformat(s).strftime("%I:%M %p ET").replace(" 0", " ")] *)
  close_time_str : string -> option string
}.

(** [float(d.get(key, default))] *)
Definition float_of (default : float) (n : number) : option float :=
  match n with
  | Missing => Some default
  | Malformed => None
  | Number x => Some x
  end.

(** [needle in hay] on strings. *)
Fixpoint contains (needle hay : string) : bool :=
  Stdlib.Strings.String.prefix needle hay ||
  match hay with
  | EmptyString => false
  | String _ rest => contains needle rest
  end.

(** [a or b] on strings. *)
Definition or_ (a b : string) : string :=
  match a with EmptyString => b | _ => a end.

(** [s.replace("Z", "+00:00")] *)
Fixpoint replace_Z (s : string) : string :=
  match s with
  | EmptyString => EmptyString
  | String c rest =>
      if Ascii.eqb c "Z"%char then "+00:00" ++ replace_Z rest
      else String c (replace_Z rest)
  end.

(** [MARKET_KEYWORDS.get(mtype, [])] of config.py *)
Definition MARKET_KEYWORDS (mtype : string) : list string :=
  if String.eqb mtype "5m"
  then ["5 minute"; "5-minute"; "5min"; "next 5"]
  else if String.eqb mtype "15m"
  then ["15 minute"; "15-minute"; "15min"; "next 15"]
  else [].

Section Discovery.
Variable py : Runtime.
(** [ASSETS] and [MARKET_TYPES] of config.py *)
Variables ASSETS MARKET_TYPES : list string.
(** [time.time()] *)
Variable now : float.

(** The loop of [MarketInfo.__init__] over the tokens: the ids of the YES
    and of the NO token. *)
Definition token_step (ids : string * string) (t : Token) : string * string :=
  let outcome := upper py (outcome t) in
  if String.eqb outcome "YES" then (token_id t, snd ids)
  else if String.eqb outcome "NO" then (fst ids, token_id t)
  else ids.

Definition token_ids (tokens : list Token) : string * string :=
  fold_left token_step tokens (EmptyString, EmptyString).

(** [MarketInfo.__init__]; [None] when it raises. *)
Definition __init__ (raw : Market) (asset direction market_type : string)
  : option MarketInfo.t :=
  let ids := token_ids (tokens raw) in
  let raw_end := or_ (or_ (endDate raw) (end_date_iso raw)) (end_date raw) in
  let close_dt := fromisoformat py (replace_Z raw_end) in
  let close_time := match close_dt with Some ts => ts | None => 0%float end in
  let dur := if String.eqb market_type "5m" then 300%float else 900%float in
  let labels :=
    match close_dt with
    | Some _ =>
        match open_time_str py (close_time - dur)%float,
              close_time_str py (replace_Z raw_end) with
        | Some o, Some c => Some (o, c)
        | _, _ => None
        end
    | None => Some ("N/A", "N/A")
    end in
  match labels,
        float_of 1%float (bestAsk raw),
        float_of 0%float (bestBid raw),
        float_of 0%float (lastTradePrice raw) with
  | Some (o, c), Some _, Some _, Some _ =>
      Some {| MarketInfo.condition_id := conditionId raw;
              MarketInfo.asset := asset;
              MarketInfo.direction := direction;
              MarketInfo.market_type := market_type;
              MarketInfo.yes_token_id := fst ids;
              MarketInfo.no_token_id := snd ids;
              MarketInfo.close_time := close_time;
              MarketInfo.open_time_str := o;
              MarketInfo.close_time_str := c |}
  | _, _, _, _ => None
  end.

(** The tests of [_classify_market], on the upper-cased question [q] and
    the lower-cased slug. *)
Definition names_asset (q slug asset : string) : bool :=
  contains asset q || contains (lower py asset) slug.

Definition names_type (q slug mtype : string) : bool :=
  existsb
    (fun kw =>
       contains (lower py kw) (lower py q) || contains (lower py kw) slug)
    (MARKET_KEYWORDS mtype).

(** [_classify_market] *)
Definition _classify_market (market : Market)
  : option (string * string * string) :=
  let q := upper py (question market) in
  let slug := lower py (slug market) in
  match find (names_asset q slug) ASSETS with
  | None => None
  | Some EmptyString => None
  | Some matched_asset =>
      match find (names_type q slug) MARKET_TYPES with
      | None => None
      | Some matched_type =>
          if negb (contains "UP" q) && negb (contains "DOWN" q) &&
             negb (contains "up" slug) && negb (contains "down" slug)
          then None
          else
            let raw_end := or_ (endDate market) (end_date_iso market) in
            match raw_end with
            | EmptyString => None
            | _ =>
                match fromisoformat py (replace_Z raw_end) with
                | None => None
                | Some ts =>
                    if (ts - now <=? 0)%float then None
                    else
                      let direction :=
                        if contains "UP" q || contains "up" slug
                        then "UP" else "DOWN" in
                      Some (matched_asset, direction, matched_type)
                end
            end
      end
  end.

(** The loop of [scan_markets] over what [_fetch_active_markets]
    returned. *)
Fixpoint scan_loop (raw_markets : list Market) (seen_conditions : gset string)
    (results : list MarketInfo.t) : list MarketInfo.t :=
  match raw_markets with
  | [] => results
  | m :: rest =>
      match _classify_market m with
      | None => scan_loop rest seen_conditions results
      | Some (asset, direction, market_type) =>
          let cid := conditionId m in
          if decide (cid ∈ seen_conditions)
          then scan_loop rest seen_conditions results
          else
            let seen_conditions := {[cid]} ∪ seen_conditions in
            match __init__ m asset direction market_type with
            | Some info =>
                if F.gtb (MarketInfo.seconds_to_close now info) 0%float &&
                   negb (String.eqb (MarketInfo.yes_token_id info)
                           EmptyString)
                then scan_loop rest seen_conditions (results ++ [info])%list
                else scan_loop rest seen_conditions results
            | None => scan_loop rest seen_conditions results
            end
      end
  end.

(** [scan_markets], given the list [_fetch_active_markets] returned
    (the empty list when the request failed). *)
Definition scan_markets (raw_markets : list Market) : list MarketInfo.t :=
  scan_loop raw_markets ∅ [].

(** The loop of [check_market_resolved] over the tokens; [None] also when
    [float] raises, which the method catches. *)
Fixpoint winner (tokens : list Token) : option string :=
  match tokens with
  | [] => None
  | t :: rest =>
      match float_of 0%float (price t) with
      | None => None
      | Some p =>
          if F.geb p 0.99%float then Some (upper py (outcome t))
          else winner rest
      end
  end.

(** [check_market_resolved], given the markets the request returned
    ([None] when it raised). *)
Definition check_market_resolved (response : option (list Market))
  : option string :=
  match response with
  | Some (m :: _) => if closed m then winner (tokens m) else None
  | _ => None
  end.
End Discovery.
End Gamma.

(* ===================================================================== *)
(** * strategy.py *)
(* ===================================================================== *)

Module Strategy.
(** The second component of what [_should_enter] returns. *)
Inductive entry_reason : Type :=
  | TooEarly (seconds_left window : float)
  | TooLate
  | AlreadyTraded
  | NoOrderBook
  | PriceTooLow (ask threshold : float)
  | PriceAtOne
  | SpreadTooWide (spread : float)
  | BinanceDropping (asset : string) (trend : float)
  | BinanceRising (asset : string) (trend : float)
  | NoBinancePrice (asset : string)
  | EntryOK (ask : float) (asset : string) (trend : option float).

(** What [_check_cutloss] returns when it fires. *)
Inductive cutloss_reason : Type :=
  | PolymarketDropped (ask threshold : float)
  | BinanceDropped (asset : string) (change_pct threshold : float)
  | BinanceRose (asset : string) (change_pct threshold : float).

(** The strategy object, together with the module-level singleton
    [binance_monitor] it reads and writes. *)
Record t : Type := mk {
  tm : TradeManager.t;
  _active_markets : list (string * MarketInfo.t);
  _pending_outcomes : gset string;
  binance_monitor : BinancePriceMonitor.t
}.

(** [Strategy(trade_manager)] *)
Definition __init__ (trade_manager : TradeManager.t)
    (mon : BinancePriceMonitor.t) : t :=
  {| tm := trade_manager; _active_markets := [];
     _pending_outcomes := ∅; binance_monitor := mon |}.

Definition with_tm (x : TradeManager.t) (st : t) : t :=
  {| tm := x; _active_markets := _active_markets st;
     _pending_outcomes := _pending_outcomes st;
     binance_monitor := binance_monitor st |}.
Definition with_active (x : list (string * MarketInfo.t)) (st : t) : t :=
  {| tm := tm st; _active_markets := x;
     _pending_outcomes := _pending_outcomes st;
     binance_monitor := binance_monitor st |}.
Definition with_pending (x : gset string) (st : t) : t :=
  {| tm := tm st; _active_markets := _active_markets st;
     _pending_outcomes := x; binance_monitor := binance_monitor st |}.
Definition with_monitor (x : BinancePriceMonitor.t) (st : t) : t :=
  {| tm := tm st; _active_markets := _active_markets st;
     _pending_outcomes := _pending_outcomes st; binance_monitor := x |}.

(** ** Statements: state passing with exceptions

    A statement runs from a state to a state and either returns or
    raises; what it did before raising stays done. *)
Definition M (A : Type) : Type := t -> result A * t.

Definition ret {A : Type} (a : A) : M A := fun st => (Ok a, st).
Definition bind {A B : Type} (m : M A) (k : A -> M B) : M B :=
  fun st =>
    match m st with
    | (Ok a, st') => k a st'
    | (Raise e, st') => (Raise e, st')
    end.
Definition get : M t := fun st => (Ok st, st).
Definition modify (f : t -> t) : M unit := fun st => (Ok tt, f st).

(** A call of a ledger method on [self.tm]. *)
Definition call_tm {A : Type}
    (f : TradeManager.t -> result (TradeManager.t * A)) : M A :=
  fun st =>
    match f (tm st) with
    | Ok (tm', a) => (Ok a, with_tm tm' st)
    | Raise e => (Raise e, st)
    end.

(** [try: body / except Exception as e: logger.error(...)] *)
Definition try_except (body : M unit) : M unit :=
  fun st => (Ok tt, snd (body st)).

(** [for x in xs: body] *)
Fixpoint for_each {A : Type} (xs : list A) (body : A -> M unit) : M unit :=
  match xs with
  | [] => ret tt
  | x :: xs' => bind (body x) (fun _ => for_each xs' body)
  end.

#[global] Instance M_ret : MRet M := @ret.
#[global] Instance M_bind : MBind M := fun A B k m => bind m k.

Section Engine.
(** The configuration, the venue and the clock of one cycle, and the
    rendering of a cut-loss reason as the string stored in the trade. *)
Variable cfg : Config.t.
Variable venue : PolymarketClient.t.
Variable now : float.
Variable render : cutloss_reason -> string.

(** [_get_entry_window] *)
Definition _get_entry_window (market_type : string) : float :=
  if String.eqb market_type "5m" then Config.ENTRY_SECONDS_5M cfg
  else Config.ENTRY_SECONDS_15M cfg.

(** Step 4 of [_should_enter], [book["spread"] and book["spread"] >
    0.05]: a spread that is [None] or zero is falsy and passes. *)
Definition spread_veto (spread : option float) : option entry_reason :=
  match spread with
  | Some s =>
      if F.truthy s && F.gtb s 0.05%float
      then Some (SpreadTooWide s) else None
  | None => None
  end.

(** Step 5 of [_should_enter]: the reason the trend vetoes the entry,
    if it does. *)
Definition momentum_veto (market : MarketInfo.t) (trend : option float)
  : option entry_reason :=
  match trend with
  | None => None
  | Some tr =>
      if String.eqb (MarketInfo.direction market) "UP"
         && (tr <? - 0.002)%float
      then Some (BinanceDropping (MarketInfo.asset market) tr)
      else if String.eqb (MarketInfo.direction market) "DOWN"
              && F.gtb tr 0.002%float
      then Some (BinanceRising (MarketInfo.asset market) tr)
      else None
  end.

(** [_should_enter] *)
Definition _should_enter (market : MarketInfo.t) (st : t)
  : bool * entry_reason :=
  let seconds_left := MarketInfo.seconds_to_close now market in
  (* 1. time window *)
  let window := _get_entry_window (MarketInfo.market_type market) in
  if F.gtb seconds_left window then (false, TooEarly seconds_left window)
  else if (seconds_left <=? 5)%float then (false, TooLate)
  (* 2. already traded this market? *)
  else if TradeManager.already_traded (MarketInfo.condition_id market)
            (tm st)
  then (false, AlreadyTraded)
  else
    (* 3. price threshold *)
    match PolymarketClient.get_best_ask venue
            (MarketInfo.yes_token_id market) with
    | None => (false, NoOrderBook)
    | Some ask =>
        if (ask <? Config.BUY_THRESHOLD cfg)%float
        then (false, PriceTooLow ask (Config.BUY_THRESHOLD cfg))
        else if F.geb ask 1%float then (false, PriceAtOne)
        else
          (* 4. spread *)
          let book := PolymarketClient.get_orderbook_depth venue
                        (MarketInfo.yes_token_id market) in
          match spread_veto (PolymarketClient.spread book) with
          | Some r => (false, r)
          | None =>
              (* 5. momentum *)
              let trend :=
                BinancePriceMonitor.get_1min_trend now
                  (MarketInfo.asset market) (binance_monitor st) in
              match momentum_veto market trend with
              | Some r => (false, r)
              | None =>
                  (* 6. spot price available? *)
                  match BinancePriceMonitor.get_price
                          (MarketInfo.asset market)
                          (binance_monitor st) with
                  | None =>
                      (false, NoBinancePrice (MarketInfo.asset market))
                  | Some _ =>
                      (true, EntryOK ask (MarketInfo.asset market) trend)
                  end
              end
          end
    end.

(** [_execute_buy] *)
Definition _execute_buy (market : MarketInfo.t) : M unit :=
  match PolymarketClient.get_best_ask venue
          (MarketInfo.yes_token_id market) with
  | None => ret tt
  | Some ask =>
      if (ask <? Config.BUY_THRESHOLD cfg)%float then ret tt
      else
        st ← get;
        (* [binance_monitor.get_price(market.asset) or 0.0] *)
        let binance_price :=
          match BinancePriceMonitor.get_price (MarketInfo.asset market)
                  (binance_monitor st) with
          | Some p => if F.truthy p then p else 0%float
          | None => 0%float
          end in
        match PolymarketClient.buy_yes venue market ask
                (Config.TRADE_SIZE_USDC cfg) with
        | None => ret tt
        | Some (order_id, size) =>
            call_tm (fun x => Ok (TradeManager.open_trade now
              {| OpenParams.condition_id := MarketInfo.condition_id market;
                 OpenParams.order_id := order_id;
                 OpenParams.asset := MarketInfo.asset market;
                 OpenParams.direction := MarketInfo.direction market;
                 OpenParams.market_type := MarketInfo.market_type market;
                 OpenParams.market_label := MarketInfo.market_label market;
                 OpenParams.open_time_str :=
                   MarketInfo.open_time_str market;
                 OpenParams.close_time_str :=
                   MarketInfo.close_time_str market;
                 OpenParams.buy_price := ask;
                 OpenParams.shares := size;
                 OpenParams.size_usdc := Config.TRADE_SIZE_USDC cfg;
                 OpenParams.yes_token_id := MarketInfo.yes_token_id market;
                 OpenParams.no_token_id := MarketInfo.no_token_id market;
                 OpenParams.close_timestamp := MarketInfo.close_time market;
                 OpenParams.binance_entry_price := binance_price |} x));;
            modify (fun st =>
              with_monitor
                (BinancePriceMonitor.set_reference_price
                   (MarketInfo.asset market) (binance_monitor st)) st);;
            modify (fun st =>
              with_pending
                ({[MarketInfo.condition_id market]} ∪ _pending_outcomes st)
                st)
        end
  end.

(** The first test of [_check_cutloss]: the venue's quote against the
    floor. *)
Definition market_side (trade : Trade.t) : option cutloss_reason :=
  match PolymarketClient.get_best_ask venue (Trade.yes_token_id trade) with
  | Some ask =>
      if (ask <? Config.CUTLOSS_PM_PRICE cfg)%float
      then Some (PolymarketDropped ask (Config.CUTLOSS_PM_PRICE cfg))
      else None
  | None => None
  end.

(** The second test of [_check_cutloss]: the spot move since entry
    against the threshold, by direction. *)
Definition feed_side (trade : Trade.t) (change_pct : option float)
  : option cutloss_reason :=
  match change_pct with
  | Some c =>
      if String.eqb (Trade.direction trade) "UP"
         && (c <=? - Config.CUTLOSS_BINANCE_PCT cfg)%float
      then Some (BinanceDropped (Trade.asset trade) c
                   (Config.CUTLOSS_BINANCE_PCT cfg))
      else if String.eqb (Trade.direction trade) "DOWN"
              && F.geb c (Config.CUTLOSS_BINANCE_PCT cfg)
      then Some (BinanceRose (Trade.asset trade) c
                   (Config.CUTLOSS_BINANCE_PCT cfg))
      else None
  | None => None
  end.

(** [_check_cutloss] *)
Definition _check_cutloss (trade : Trade.t) (st : t)
  : option cutloss_reason :=
  match market_side trade with
  | Some r => Some r
  | None =>
      feed_side trade
        (BinancePriceMonitor.get_change_pct (Trade.asset trade)
           (binance_monitor st))
  end.

(** The price [_execute_cutloss] asks for: the first bid, or one cent
    without bids, and never less than one cent. *)
Definition cutloss_sell_price (book : PolymarketClient.Depth) : float :=
  F.max
    (match PolymarketClient.bids book with
     | b :: _ => fst b
     | [] => 0.01%float
     end)
    0.01%float.

(** [_execute_cutloss] *)
Definition _execute_cutloss (trade : Trade.t) (reason : cutloss_reason)
  : M unit :=
  let book :=
    PolymarketClient.get_orderbook_depth venue (Trade.yes_token_id trade) in
  let sell_price := cutloss_sell_price book in
  let sell_price :=
    match PolymarketClient.sell_yes venue (Trade.yes_token_id trade)
            sell_price (Trade.shares trade) "FOK" with
    | Some _ => sell_price
    | None => 0.0%float   (* the sell raised *)
    end in
  call_tm (TradeManager.resolve_cutloss now (Trade.trade_id trade)
             sell_price (render reason));;
  modify (fun st =>
    with_monitor
      (BinancePriceMonitor.clear_reference_price (Trade.asset trade)
         (binance_monitor st)) st);;
  modify (fun st =>
    with_pending (_pending_outcomes st ∖ {[Trade.condition_id trade]}) st).

(** The loop of [_check_outcomes], over the open trades listed when it
    started; it returns [resolved_ids]. *)
Fixpoint _check_outcomes_loop (open_trades : list Trade.t)
    (resolved_ids : gset string) : M (gset string) :=
  match open_trades with
  | [] => ret resolved_ids
  | trade :: rest =>
      st ← get;
      if bool_decide (Trade.condition_id trade ∉ _pending_outcomes st)
      then _check_outcomes_loop rest resolved_ids
      else if (now <? Trade.close_timestamp trade)%float
      then _check_outcomes_loop rest resolved_ids
      else
        match PolymarketClient.check_market_resolved venue
                (Trade.condition_id trade) with
        | None => _check_outcomes_loop rest resolved_ids
        | Some outcome =>
            modify (fun st =>
              with_monitor
                (BinancePriceMonitor.clear_reference_price
                   (Trade.asset trade) (binance_monitor st)) st);;
            (if String.eqb outcome "YES"
             then call_tm (TradeManager.resolve_win now
                             (Trade.trade_id trade))
             else call_tm (TradeManager.resolve_loss now
                             (Trade.trade_id trade)));;
            _check_outcomes_loop rest
              ({[Trade.condition_id trade]} ∪ resolved_ids)
        end
  end.

(** [_check_outcomes] *)
Definition _check_outcomes : M unit :=
  st ← get;
  resolved_ids ←
    _check_outcomes_loop (TradeManager.get_open_trades (tm st)) ∅;
  modify (fun st =>
    with_pending (_pending_outcomes st ∖ resolved_ids) st).

(** One turn of [outcome_checker_loop], before it sleeps. *)
Definition outcome_checker_cycle : M unit :=
  try_except _check_outcomes.

(** The body of the loop of [position_monitor_loop], for one open
    trade.  The reason [_check_cutloss] returns is a non-empty string,
    so [if reason:] is [is not None]. *)
Definition monitor_one (trade : Trade.t) : M unit :=
  if F.geb now (Trade.close_timestamp trade + 30)%float then ret tt
  else
    st ← get;
    match _check_cutloss trade st with
    | Some reason => _execute_cutloss trade reason
    | None => ret tt
    end.

(** One turn of [position_monitor_loop], before it sleeps. *)
Definition position_monitor_cycle : M unit :=
  try_except (
    st ← get;
    for_each (TradeManager.get_open_trades (tm st)) monitor_one).

(** The body of the second loop of [market_scanner_loop], for one
    tracked market. *)
Definition scan_one (market : MarketInfo.t) : M unit :=
  if MarketInfo.is_expired now market
  then modify (fun st =>
         with_active
           (PyDict.pop (_active_markets st)
              (MarketInfo.condition_id market)) st)
  else
    st ← get;
    if TradeManager.already_traded (MarketInfo.condition_id market)
         (tm st)
    then ret tt
    else if fst (_should_enter market st) then _execute_buy market
    else ret tt.

(** One turn of [market_scanner_loop], before it sleeps. *)
Definition market_scanner_cycle : M unit :=
  try_except (
    for_each (PolymarketClient.scan_markets venue) (fun m =>
      modify (fun st =>
        with_active
          (PyDict.setitem (_active_markets st)
             (MarketInfo.condition_id m) m) st));;
    st ← get;
    for_each (PyDict.values (_active_markets st)) scan_one).
End Engine.
End Strategy.

(* ===================================================================== *)
(** * Vocabulary of the properties *)
(* ===================================================================== *)

(** The three terminal transitions of a position, as one call. *)
Inductive resolution : Type :=
  | Win
  | Loss
  | Cutloss (sell_price : float) (reason : string).

Definition resolve (now : float) (trade_id : string) (r : resolution)
    (tm : TradeManager.t) : result (TradeManager.t * Trade.t) :=
  match r with
  | Win => TradeManager.resolve_win now trade_id tm
  | Loss => TradeManager.resolve_loss now trade_id tm
  | Cutloss sell reason =>
      TradeManager.resolve_cutloss now trade_id sell reason tm
  end.

(** What a resolution pays out on a position, in the words of the
    docstrings: [shares × 1.0], nothing, [shares × sell_price]. *)
Definition credited (r : resolution) (tr : Trade.t) (b : float) : float :=
  match r with
  | Win => (b + Trade.shares tr * 1.0)%float
  | Loss => b
  | Cutloss sell _ => (b + Trade.shares tr * sell)%float
  end.

Definition terminal_status (r : resolution) : string :=
  match r with
  | Win => "win"
  | Loss => "loss"
  | Cutloss _ _ => "cutloss"
  end.

Definition recorded_pnl (r : resolution) (tr : Trade.t) : float :=
  match r with
  | Win => (Trade.shares tr * (1 - Trade.buy_price tr))%float
  | Loss => (- Trade.size_usdc tr)%float
  | Cutloss sell _ => (Trade.shares tr * sell - Trade.size_usdc tr)%float
  end.

Definition recorded_sell_price (r : resolution) : float :=
  match r with
  | Win => 1%float
  | Loss => 0%float
  | Cutloss sell _ => sell
  end.

(** The calls a client of the ledger can make, and a restart of the
    process, which builds a new ledger from the file the old one wrote. *)
Inductive op : Type :=
  | OpOpen (now : float) (p : OpenParams.t)
  | OpResolve (now : float) (trade_id : string) (r : resolution)
  | OpSetBalance (b : float)
  | OpRestart (starting_balance : float).

(** A call that raises leaves the ledger as it was. *)
Definition apply_op (tm : TradeManager.t) (o : op) : TradeManager.t :=
  match o with
  | OpOpen now p => fst (TradeManager.open_trade now p tm)
  | OpResolve now trade_id r =>
      match resolve now trade_id r tm with
      | Ok (tm', _) => tm'
      | Raise _ => tm
      end
  | OpSetBalance b => TradeManager.set_balance b tm
  | OpRestart sb => TradeManager.__init__ sb (Some (TradeManager._save tm))
  end.

Definition run (ops : list op) (tm : TradeManager.t) : TradeManager.t :=
  fold_left apply_op ops tm.

(** The ledgers a process can hold: those built from no file by any
    sequence of calls and restarts. *)
Definition reachable (tm : TradeManager.t) : Prop :=
  exists sb ops, tm = run ops (TradeManager.__init__ sb None).

(** Every [open_trade] of the sequence is made for a market the ledger has
    no position on at that moment: the test the scanner and the entry
    evaluator make before they buy. *)
Fixpoint guarded (ops : list op) (tm : TradeManager.t) : Prop :=
  match ops with
  | [] => True
  | o :: ops' =>
      match o with
      | OpOpen _ p =>
          TradeManager.already_traded (OpenParams.condition_id p) tm = false
      | _ => True
      end /\ guarded ops' (apply_op tm o)
  end.

(** No two positions of the ledger are on the same market. *)
Definition unique_markets (tm : TradeManager.t) : Prop :=
  NoDup (map Trade.condition_id (PyDict.values (TradeManager.trades tm))).

(** ** Sample data *)

Definition sample_params : OpenParams.t :=
  {| OpenParams.condition_id := "0xc0ffee";
     OpenParams.order_id := "order-1";
     OpenParams.asset := "BTC";
     OpenParams.direction := "UP";
     OpenParams.market_type := "5m";
     OpenParams.market_label := "BTC Up or Down - 5 Minutes";
     OpenParams.open_time_str := "Feb 26, 11:35 AM ET";
     OpenParams.close_time_str := "11:40 AM ET";
     OpenParams.buy_price := 0.97;
     OpenParams.shares := 10.309;
     OpenParams.size_usdc := 10;
     OpenParams.yes_token_id := "yes-token";
     OpenParams.no_token_id := "no-token";
     OpenParams.close_timestamp := 1000;
     OpenParams.binance_entry_price := 50000 |}%float.

(** A ledger with a balance of 100 USDC and no file, then one position. *)
Definition sample_empty : TradeManager.t :=
  TradeManager.__init__ 100%float None.

Definition sample_open : TradeManager.t :=
  fst (TradeManager.open_trade 900%float sample_params sample_empty).

(** The same ledger once the market has resolved YES. *)
Definition sample_won : TradeManager.t :=
  apply_op sample_open (OpResolve 1010%float "T0001" Win).

(** ** The exit supervisor, in the words of the specification *)



(** The best bid of a token, read as [_execute_cutloss] reads it:
    [bids[0][0]] of the order book. *)
Definition get_best_bid (venue : PolymarketClient.t) (token_id : string)
  : option float :=
  match PolymarketClient.bids
          (PolymarketClient.get_orderbook_depth venue token_id) with
  | b :: _ => Some (fst b)
  | [] => None
  end.

(** The market-side rule as the specification and the docstring of
    [strategy.py] word it: the best bid is below the floor. *)
Definition spec_market_side (cfg : Config.t) (venue : PolymarketClient.t)
    (trade : Trade.t) : bool :=
  match get_best_bid venue (Trade.yes_token_id trade) with
  | Some bid => (bid <? Config.CUTLOSS_PM_PRICE cfg)%float
  | None => false
  end.

(** ** The six entry checks, in the words of the specification *)


Section EntryChecks.
Variable cfg : Config.t.
Variable venue : PolymarketClient.t.
Variable now : float.
Variable market : MarketInfo.t.
Variable st : Strategy.t.









End EntryChecks.



(** ** More sample data: a venue, a price feed, a strategy *)

Definition sample_render (r : Strategy.cutloss_reason) : string :=
  match r with
  | Strategy.PolymarketDropped _ _ => "Polymarket YES dropped"
  | Strategy.BinanceDropped a _ _ => "Binance " ++ a ++ " dropped"
  | Strategy.BinanceRose a _ _ => "Binance " ++ a ++ " rose"
  end.

Definition sample_market : MarketInfo.t :=
  {| MarketInfo.condition_id := "0xc0ffee";
     MarketInfo.asset := "BTC";
     MarketInfo.direction := "UP";
     MarketInfo.market_type := "5m";
     MarketInfo.yes_token_id := "yes-token";
     MarketInfo.no_token_id := "no-token";
     MarketInfo.close_time := 1000%float;
     MarketInfo.open_time_str := "Feb 26, 11:35 AM ET";
     MarketInfo.close_time_str := "11:40 AM ET" |}.

(** A level whose price and size are numbers. *)
Definition level (price size : float) : PolymarketClient.Level :=
  {| PolymarketClient.level_price := Some price;
     PolymarketClient.level_size := Some size |}.

(** A venue that quotes one book for every token, reports every market as
    resolved YES, fills every buy with 10.2 shares, and fills a sell or
    raises on it as [sell_fills] says. *)
Definition sample_venue (b : PolymarketClient.Book) (sell_fills : bool)
  : PolymarketClient.t :=
  {| PolymarketClient.book_for_ask := fun _ => Some b;
     PolymarketClient.book_for_depth := fun _ => Some b;
     PolymarketClient.check_market_resolved := fun _ => Some "YES";
     PolymarketClient.buy_yes := fun _ _ _ => Some ("order-2", 10.2%float);
     PolymarketClient.sell_yes :=
       fun _ _ _ _ => if sell_fills then Some "order-3" else None;
     PolymarketClient.scan_markets := [sample_market] |}.

(** 96 bid, 98 ask. *)
Definition book_tight : PolymarketClient.Book :=
  {| PolymarketClient.book_bids := [level 0.96 200];
     PolymarketClient.book_asks := [level 0.98 150] |}.

(** 70 bid, 85 ask: the bid is under the default floor of 80, the ask is
    not. *)
Definition book_bid_under_floor : PolymarketClient.Book :=
  {| PolymarketClient.book_bids := [level 0.70 200];
     PolymarketClient.book_asks := [level 0.85 150] |}.

(** The feed: BTC at 50000 when the position is entered, then a tick at
    49850, 0.3% lower. *)
Definition feed_at_entry : BinancePriceMonitor.t :=
  BinancePriceMonitor._process_tick 890%float "BTC" 50000%float
    BinancePriceMonitor.__init__.

Definition feed_pinned : BinancePriceMonitor.t :=
  BinancePriceMonitor.set_reference_price "BTC" feed_at_entry.

Definition feed_dropped : BinancePriceMonitor.t :=
  BinancePriceMonitor._process_tick 950%float "BTC" 49850%float feed_pinned.

Definition sample_trade : Trade.t :=
  snd (TradeManager.open_trade 900%float sample_params sample_empty).

(** The strategy before the entry, after it, and after the drop. *)
Definition strategy_idle : Strategy.t :=
  Strategy.__init__ sample_empty feed_at_entry.

Definition strategy_holding (mon : BinancePriceMonitor.t) : Strategy.t :=
  {| Strategy.tm := sample_open; Strategy._active_markets := [];
     Strategy._pending_outcomes := {["0xc0ffee"]};
     Strategy.binance_monitor := mon |}.

(** The process after a restart: the ledger read back from the file
    [sample_open] wrote, a new strategy, a new feed. *)
Definition strategy_restarted : Strategy.t :=
  Strategy.__init__
    (TradeManager.__init__ 90%float (Some (TradeManager._save sample_open)))
    BinancePriceMonitor.__init__.

(** ** The invariant of the ledger *)

(** The markets of the positions of the ledger, in the order of the
    dictionary. *)
Definition markets (tm : TradeManager.t) : list string :=
  map Trade.condition_id (PyDict.values (TradeManager.trades tm)).

(** Every position sits under its own id, and every id was issued by
    [_new_id] from a counter value that is not above the current one. *)
Definition ids_issued (tm : TradeManager.t) : Prop :=
  (0 <= TradeManager._trade_counter tm)%Z /\
  NoDup (PyDict.keys (TradeManager.trades tm)) /\
  forall k tr,
    (k, tr) ∈ TradeManager.trades tm ->
    Trade.trade_id tr = k /\
    exists n, (1 <= n <= TradeManager._trade_counter tm)%Z /\
              k = "T" ++ format_04d n.

(** ** The running system *)

(** What happens to the strategy and the feed: a tick of the price stream,
    or one turn of one of the three loops. *)
Inductive event : Type :=
  | EvTick (now : float) (asset : string) (price : float)
  | EvScan (now : float)
  | EvMonitor (now : float)
  | EvOutcomes (now : float).

Definition step (cfg : Config.t) (render : Strategy.cutloss_reason -> string)
    (venue : PolymarketClient.t) (e : event) (st : Strategy.t) : Strategy.t :=
  match e with
  | EvTick now asset price =>
      Strategy.with_monitor
        (BinancePriceMonitor._process_tick now asset price
           (Strategy.binance_monitor st)) st
  | EvScan now => snd (Strategy.market_scanner_cycle cfg venue now st)
  | EvMonitor now =>
      snd (Strategy.position_monitor_cycle cfg venue now render st)
  | EvOutcomes now => snd (Strategy.outcome_checker_cycle venue now st)
  end.

(** The reference price of an asset, and its spot price. *)
Definition pinned (asset : string) (st : Strategy.t) : option float :=
  BinancePriceMonitor.price_at_buy (Strategy.binance_monitor st) !! asset.

Definition spot (asset : string) (st : Strategy.t) : option float :=
  BinancePriceMonitor.prices (Strategy.binance_monitor st) !! asset.

(** The markets the scanner goes through in one turn: those the venue
    lists and those it already tracks. *)
Definition scanned (venue : PolymarketClient.t) (st : Strategy.t)
  : list MarketInfo.t :=
  (PolymarketClient.scan_markets venue
   ++ PyDict.values (Strategy._active_markets st))%list.

(** Two BTC markets that overlap: a 15-minute one that closes at 1200 and a
    5-minute one that closes at 1100. *)
Definition market_long : MarketInfo.t :=
  {| MarketInfo.condition_id := "0xaaaa";
     MarketInfo.asset := "BTC";
     MarketInfo.direction := "UP";
     MarketInfo.market_type := "15m";
     MarketInfo.yes_token_id := "yes-long";
     MarketInfo.no_token_id := "no-long";
     MarketInfo.close_time := 1200%float;
     MarketInfo.open_time_str := "Feb 26, 11:25 AM ET";
     MarketInfo.close_time_str := "11:40 AM ET" |}.

Definition market_short : MarketInfo.t :=
  {| MarketInfo.condition_id := "0xbbbb";
     MarketInfo.asset := "BTC";
     MarketInfo.direction := "UP";
     MarketInfo.market_type := "5m";
     MarketInfo.yes_token_id := "yes-short";
     MarketInfo.no_token_id := "no-short";
     MarketInfo.close_time := 1100%float;
     MarketInfo.open_time_str := "Feb 26, 11:33 AM ET";
     MarketInfo.close_time_str := "11:38 AM ET" |}.

Definition venue_two_markets : PolymarketClient.t :=
  {| PolymarketClient.book_for_ask := fun _ => Some book_tight;
     PolymarketClient.book_for_depth := fun _ => Some book_tight;
     PolymarketClient.check_market_resolved := fun _ => None;
     PolymarketClient.buy_yes := fun _ _ _ => Some ("order-2", 10.2%float);
     PolymarketClient.sell_yes := fun _ _ _ _ => Some "order-3";
     PolymarketClient.scan_markets := [market_long; market_short] |}.

(** A scan at 950 (the long market is in its window, the short one is
    not), a tick that moves BTC to 50500, a scan at 1000 (now the short
    market is in its window). *)
Definition two_entries : list event :=
  [EvScan 950%float; EvTick 975%float "BTC" 50500%float; EvScan 1000%float].

Definition after_first_entry : Strategy.t :=
  step Config.default sample_render venue_two_markets (EvScan 950%float)
    strategy_idle.

Definition after_second_entry : Strategy.t :=
  fold_left
    (fun st e => step Config.default sample_render venue_two_markets e st)
    two_entries strategy_idle.

(** The position under an id has left the status "open". *)
Definition closed (trade_id : string) (tm : TradeManager.t) : Prop :=
  exists tr,
    PyDict.get (TradeManager.trades tm) trade_id = Some tr /\
    Trade.is_open tr = false.

(** Every position of the ledger is in one of the four statuses. *)
Definition statuses_known (tm : TradeManager.t) : Prop :=
  Forall
    (fun tr =>
       Trade.status tr = "open" \/ Trade.status tr = "win" \/
       Trade.status tr = "loss" \/ Trade.status tr = "cutloss")
    (PyDict.values (TradeManager.trades tm)).

(** ** The price stream *)

(** A tick of the stream: arrival time, asset, price. *)
Definition tick : Type := (float * string * float)%type.

(** The monitor after the ticks of a stream, in order. *)
Definition feed (ticks : list tick) (mon : BinancePriceMonitor.t)
  : BinancePriceMonitor.t :=
  fold_left
    (fun m (t : tick) =>
       BinancePriceMonitor._process_tick (fst (fst t)) (snd (fst t)) (snd t) m)
    ticks mon.

(** How many ticks of a stream are on an asset. *)
Definition ticks_on (asset : string) (ticks : list tick) : nat :=
  List.length (List.filter (fun t : tick => String.eqb (snd (fst t)) asset)
                 ticks).

(** The history the monitor keeps for an asset. *)
Definition history (asset : string) (mon : BinancePriceMonitor.t)
  : list (float * float) :=
  default [] (BinancePriceMonitor.price_history mon !! asset).

(** ** The discipline of the callers *)

(** A sequence of ledger calls in which every [open_trade] is for a market
    not traded so far and every resolution is of a position that is open at
    that moment. *)
Fixpoint disciplined (ops : list op) (tm : TradeManager.t) : Prop :=
  match ops with
  | [] => True
  | o :: ops' =>
      match o with
      | OpOpen _ p =>
          TradeManager.already_traded (OpenParams.condition_id p) tm = false
      | OpResolve _ trade_id _ =>
          exists tr,
            PyDict.get (TradeManager.trades tm) trade_id = Some tr /\
            Trade.is_open tr = true
      | OpSetBalance _ | OpRestart _ => True
      end /\ disciplined ops' (apply_op tm o)
  end.

(** A history of the system: each event with the venue as it is then. *)
Definition steps (cfg : Config.t) (render : Strategy.cutloss_reason -> string)
    (events : list (PolymarketClient.t * event)) (st : Strategy.t)
  : Strategy.t :=
  fold_left (fun s ve => step cfg render (fst ve) (snd ve) s) events st.

(** A strategy that holds the position of [sample_won], already closed. *)
Definition strategy_after_win : Strategy.t :=
  {| Strategy.tm := sample_won; Strategy._active_markets := [];
     Strategy._pending_outcomes := ∅;
     Strategy.binance_monitor := feed_dropped |}.

(** The outcome pass has something to do for a trade: its market is
    pending, its close time has passed, and the venue reports an outcome. *)
Definition due (venue : PolymarketClient.t) (now : float) (st : Strategy.t)
    (trade : Trade.t) : Prop :=
  Trade.condition_id trade ∈ Strategy._pending_outcomes st /\
  (now <? Trade.close_timestamp trade)%float = false /\
  is_Some (PolymarketClient.check_market_resolved venue
             (Trade.condition_id trade)).

(** The resolution the outcome pass makes of an outcome: a win for "YES", a
    loss for anything else. *)
Definition resolution_of (outcome : string) : resolution :=
  if String.eqb outcome "YES" then Win else Loss.

(** ** Market discovery *)

(** Where a market of the scan comes from: the record of the feed it was
    built from is classified, carries its condition id, and is the first
    classified record of the feed with that id. *)
Definition first_record (py : Gamma.Runtime) (ASSETS MARKET_TYPES : list string)
    (now : float) (feed : list Gamma.Market) (info : MarketInfo.t)
    (raw : Gamma.Market) : Prop :=
  exists pre post,
    feed = (pre ++ raw :: post)%list /\
    Gamma.conditionId raw = MarketInfo.condition_id info /\
    Gamma._classify_market py ASSETS MARKET_TYPES now raw
    = Some (MarketInfo.asset info, MarketInfo.direction info,
            MarketInfo.market_type info) /\
    Gamma.__init__ py raw (MarketInfo.asset info) (MarketInfo.direction info)
      (MarketInfo.market_type info) = Some info /\
    forall r,
      r ∈ pre ->
      Gamma._classify_market py ASSETS MARKET_TYPES now r <> None ->
      Gamma.conditionId r <> Gamma.conditionId raw.

(** The token's outcome reads YES, whatever its case. *)
Definition is_yes (py : Gamma.Runtime) (t : Gamma.Token) : Prop :=
  Gamma.upper py (Gamma.outcome t) = "YES".

(** A runtime for the examples: ASCII letters change case, one date is
    known. *)
Definition ascii_upper (c : ascii) : ascii :=
  let n := nat_of_ascii c in
  if Nat.leb 97 n && Nat.leb n 122 then ascii_of_nat (n - 32) else c.

Definition ascii_lower (c : ascii) : ascii :=
  let n := nat_of_ascii c in
  if Nat.leb 65 n && Nat.leb n 90 then ascii_of_nat (n + 32) else c.

Fixpoint string_map (f : ascii -> ascii) (s : string) : string :=
  match s with
  | EmptyString => EmptyString
  | String c rest => String (f c) (string_map f rest)
  end.

Definition sample_runtime : Gamma.Runtime :=
  {| Gamma.upper := string_map ascii_upper;
     Gamma.lower := string_map ascii_lower;
     Gamma.fromisoformat :=
       fun s => if String.eqb s "2026-02-26T16:40:00+00:00"
                then Some 1000%float else None;
     Gamma.open_time_str := fun _ => Some "Feb 26, 11:35 AM ET";
     Gamma.close_time_str := fun _ => Some "11:40 AM ET" |}.

Definition sample_tokens : list Gamma.Token :=
  [ {| Gamma.outcome := "Yes"; Gamma.token_id := "yes-token";
       Gamma.price := Gamma.Number 0.98%float |};
    {| Gamma.outcome := "No"; Gamma.token_id := "no-token";
       Gamma.price := Gamma.Number 0.02%float |} ].

(** A five-minute market titled as the venue titles them. *)
Definition sample_raw : Gamma.Market :=
  {| Gamma.conditionId := "0xc0ffee";
     Gamma.question := "Bitcoin Up or Down - 5 Minutes";
     Gamma.slug := "btc-updown-5min-1000";
     Gamma.tokens := sample_tokens;
     Gamma.endDate := "2026-02-26T16:40:00Z";
     Gamma.end_date_iso := EmptyString;
     Gamma.end_date := EmptyString;
     Gamma.bestAsk := Gamma.Number 0.98%float;
     Gamma.bestBid := Gamma.Number 0.96%float;
     Gamma.lastTradePrice := Gamma.Missing;
     Gamma.closed := false |}.

(** The same market once it is over: closed, the YES token at 1. *)
Definition sample_raw_closed : Gamma.Market :=
  {| Gamma.conditionId := "0xc0ffee";
     Gamma.question := "Bitcoin Up or Down - 5 Minutes";
     Gamma.slug := "btc-updown-5min-1000";
     Gamma.tokens :=
       [ {| Gamma.outcome := "No"; Gamma.token_id := "no-token";
            Gamma.price := Gamma.Number 0%float |};
         {| Gamma.outcome := "Yes"; Gamma.token_id := "yes-token";
            Gamma.price := Gamma.Number 1%float |} ];
     Gamma.endDate := "2026-02-26T16:40:00Z";
     Gamma.end_date_iso := EmptyString;
     Gamma.end_date := EmptyString;
     Gamma.bestAsk := Gamma.Missing;
     Gamma.bestBid := Gamma.Missing;
     Gamma.lastTradePrice := Gamma.Missing;
     Gamma.closed := true |}.

(** ** The order book *)

(** Both conversions of a level go through. *)
Definition readable (l : PolymarketClient.Level) : bool :=
  match PolymarketClient.level_price l, PolymarketClient.level_size l with
  | Some _, Some _ => true
  | _, _ => false
  end.

(** A pair of [get_orderbook_depth] is what [float] made of a level. *)
Definition reads_as (l : PolymarketClient.Level) (ps : float * float) : Prop :=
  PolymarketClient.level_price l = Some (fst ps) /\
  PolymarketClient.level_size l = Some (snd ps).

(** The answer to the request of [get_orderbook_depth] can be used: the
    request returned and the first five levels of each side are readable. *)
Definition depth_answer_ok (venue : PolymarketClient.t) (token_id : string)
  : bool :=
  match PolymarketClient.book_for_depth venue token_id with
  | Some b =>
      forallb readable (take 5 (PolymarketClient.book_bids b)) &&
      forallb readable (take 5 (PolymarketClient.book_asks b))
  | None => false
  end.


(** ** The change since entry, in the words of the specification *)





(* ===================================================================== *)
(** * Facts about floats *)
(* ===================================================================== *)

Module FloatFacts.
Lemma SFcompare_antisym sx sy :
  SFcompare sy sx = option_map CompOpp (SFcompare sx sy).
Proof.
  destruct sx as [[]|[]| |[] m1 e1], sy as [[]|[]| |[] m2 e2];
    simpl; try reflexivity;
    rewrite (Z.compare_antisym e1 e2);
    destruct (e1 ?= e2)%Z; simpl; try reflexivity;
    pose proof (Pos.compare_cont_antisym m1 m2 Eq) as H; simpl in H;
    rewrite <- H; destruct (Pos.compare_cont Eq m1 m2); reflexivity.
Qed.

Lemma is_nan_spec x : PrimFloat.is_nan x = true <-> Prim2SF x = S754_nan.
Proof.
  unfold PrimFloat.is_nan. rewrite FloatAxioms.eqb_spec. unfold SFeqb.
  destruct (Prim2SF x) as [[]|[]| |[] m e] eqn:E; simpl;
    rewrite ?Z.compare_refl, ?Pos.compare_cont_refl; simpl;
    split; congruence.
Qed.

Lemma is_nan_false x : PrimFloat.is_nan x = false <-> Prim2SF x <> S754_nan.
Proof.
  rewrite <- is_nan_spec. destruct (PrimFloat.is_nan x); split; congruence.
Qed.

(** Without NaNs the order is total: [not (x < y)] is [y <= x]. *)
Lemma ltb_negb_leb x y :
  F.nan x = false -> F.nan y = false ->
  negb (PrimFloat.ltb x y) = PrimFloat.leb y x.
Proof.
  unfold F.nan.
  rewrite !is_nan_false, FloatAxioms.ltb_spec, FloatAxioms.leb_spec.
  unfold SFltb, SFleb.
  rewrite (SFcompare_antisym (Prim2SF x) (Prim2SF y)).
  intros Hx Hy.
  destruct (Prim2SF x) as [[]|[]| |[] m1 e1],
           (Prim2SF y) as [[]|[]| |[] m2 e2];
    try congruence; simpl; try reflexivity;
    destruct (e1 ?= e2)%Z; simpl; try reflexivity;
    destruct (Pos.compare_cont Eq m1 m2); reflexivity.
Qed.


Lemma Prim2SF_infinity : Prim2SF infinity = S754_infinity false.
Proof. reflexivity. Qed.

Lemma Prim2SF_zero : Prim2SF 0%float = S754_zero false.
Proof. reflexivity. Qed.

Lemma is_finite_spec x :
  F.finite x = true ->
  (exists s, Prim2SF x = S754_zero s) \/
  (exists s m e, Prim2SF x = S754_finite s m e).
Proof.
  unfold F.finite, PrimFloat.is_finite, PrimFloat.is_infinity.
  destruct (PrimFloat.is_nan x) eqn:En; simpl; [discriminate|].
  apply is_nan_false in En.
  rewrite FloatAxioms.eqb_spec, FloatAxioms.abs_spec, Prim2SF_infinity. unfold SFeqb.
  destruct (Prim2SF x) as [s|s| |s m e]; simpl; try congruence; eauto.
Qed.

Lemma Prim2SF_one :
  Prim2SF 1%float = S754_finite false 4503599627370496 (-52).
Proof. reflexivity. Qed.

(** [x * 1.0] is [x], bit for bit: the product of the mantissas is the
    mantissa of [x] shifted by 52 places, and rounding shifts it back. *)
Lemma mul_one_r x : (x * 1)%float = x.
Proof.
  apply Prim2SF_inj. rewrite FloatAxioms.mul_spec, Prim2SF_one.
  pose proof (Prim2SF_valid x) as Hv.
  destruct (Prim2SF x) as [s|s| |s m e];
    [destruct s; reflexivity | destruct s; reflexivity | reflexivity | ].
  cbv beta iota delta [SF64mul SFmul]. rewrite xorb_false_r.
  cbn [valid_binary] in Hv. unfold bounded, canonical_mantissa in Hv.
  apply andb_prop in Hv as [Hc Hb]. apply Z.eqb_eq in Hc.
  rewrite Pos.mul_comm. cbv beta iota delta [Pos.mul].
  unfold binary_round_aux, shr_fexp at 1.
  cbn [Zdigits2 digits2_pos].
  match goal with |- context [fexp prec emax ?a] =>
    replace a with (Z.pos (digits2_pos m) + e)%Z by lia end.
  rewrite Hc.
  replace (e - (e + -52))%Z with 52%Z by lia.
  cbn [shr shr_record_of_loc SpecFloat.iter_pos shr_1 orb].
  cbn [shr_m loc_of_shr_record round_nearest_even].
  unfold shr_fexp. cbn [Zdigits2].
  replace (e + -52 + 52)%Z with e by lia.
  rewrite Hc, Z.sub_diag. cbn [shr shr_record_of_loc shr_m].
  rewrite Hb. reflexivity.
Qed.



Lemma ltb_leb a b : PrimFloat.ltb a b = true -> PrimFloat.leb a b = true.
Proof.
  rewrite FloatAxioms.ltb_spec, FloatAxioms.leb_spec. unfold SFltb, SFleb.
  destruct (SFcompare _ _) as [[]|]; congruence.
Qed.

(** [x - x] is [+0.0] for a finite [x]. *)
Lemma sub_diag_finite x :
  F.finite x = true -> Prim2SF (x - x)%float = S754_zero false.
Proof.
  intros H. rewrite FloatAxioms.sub_spec.
  destruct (is_finite_spec x H) as [[s ->]|(s & m & e & ->)].
  - now destruct s.
  - cbv beta iota delta [SF64sub SFsub]. cbv zeta.
    now rewrite Z.sub_diag.
Qed.

(** A zero is neither a drop nor a rise of a positive threshold. *)
Lemma zero_is_no_move c s thr :
  Prim2SF c = S754_zero s -> PrimFloat.ltb 0 thr = true ->
  PrimFloat.leb c (- thr) = false /\ PrimFloat.leb thr c = false.
Proof.
  rewrite FloatAxioms.ltb_spec, !FloatAxioms.leb_spec, FloatAxioms.opp_spec,
    Prim2SF_zero.
  intros ->. unfold SFltb, SFleb.
  destruct (Prim2SF thr) as [[]|[]| |[] m1 e1]; simpl;
    try discriminate; auto.
Qed.

(** Zero divided by a finite number that is not zero is a zero. *)
Lemma zero_div_finite z s x :
  Prim2SF z = S754_zero s -> F.finite x = true ->
  PrimFloat.eqb x 0 = false ->
  exists s', Prim2SF (z / x)%float = S754_zero s'.
Proof.
  intros Hz Hx Hnz. rewrite FloatAxioms.div_spec, Hz.
  rewrite FloatAxioms.eqb_spec, Prim2SF_zero in Hnz. unfold SFeqb in Hnz.
  destruct (is_finite_spec x Hx) as [[sx E]|(sx & m & e & E)];
    rewrite E in *; simpl in *; [discriminate | eauto].
Qed.

(** Finite shares sold for nothing pay a zero. *)
Lemma mul_zero_finite x :
  F.finite x = true -> exists s, Prim2SF (x * 0)%float = S754_zero s.
Proof.
  intros H. rewrite FloatAxioms.mul_spec, Prim2SF_zero.
  destruct (is_finite_spec x H) as [[s ->]|(s & m & e & ->)]; simpl; eauto.
Qed.

Lemma add_zero_eqb b z s :
  F.nan b = false -> Prim2SF z = S754_zero s ->
  PrimFloat.eqb (b + z) b = true.
Proof.
  unfold F.nan. rewrite is_nan_false, FloatAxioms.eqb_spec, FloatAxioms.add_spec.
  intros Hb ->. unfold SFeqb, SF64add.
  destruct (Prim2SF b) as [[]|[]| |[] m e], s; simpl; try congruence;
    rewrite ?Z.compare_refl, ?Pos.compare_cont_refl; reflexivity.
Qed.

Lemma zero_sub_eqb z s y :
  Prim2SF z = S754_zero s -> F.nan y = false ->
  PrimFloat.eqb (z - y) (- y) = true.
Proof.
  unfold F.nan.
  rewrite is_nan_false, FloatAxioms.eqb_spec, FloatAxioms.sub_spec, FloatAxioms.opp_spec.
  intros -> Hy. unfold SFeqb, SF64sub.
  destruct (Prim2SF y) as [[]|[]| |[] m e], s; simpl; try congruence;
    rewrite ?Z.compare_refl, ?Pos.compare_cont_refl; reflexivity.
Qed.

(** A strict comparison that holds has numbers on both sides. *)
Lemma ltb_true_not_nan_r a b :
  PrimFloat.ltb a b = true -> F.nan b = false.
Proof.
  unfold F.nan. rewrite FloatAxioms.ltb_spec, is_nan_false. unfold SFltb.
  destruct (Prim2SF a) as [[]|[]| |[] m1 e1],
           (Prim2SF b) as [[]|[]| |[] m2 e2];
    simpl; congruence.
Qed.

End FloatFacts.

(* ===================================================================== *)
(** * Facts about dictionaries *)
(* ===================================================================== *)

Module PyDictFacts.
Section Facts.
Context {V : Type}.
Implicit Types (d : list (string * V)) (k : string) (v : V).

Lemma get_setitem_eq d k v : PyDict.get (PyDict.setitem d k v) k = Some v.
Proof.
  induction d as [|[k' v'] d IH]; simpl.
  - now rewrite String.eqb_refl.
  - destruct (String.eqb k' k) eqn:E; simpl.
    + now rewrite String.eqb_refl.
    + now rewrite E.
Qed.

Lemma get_setitem_ne d k k' v :
  k <> k' -> PyDict.get (PyDict.setitem d k v) k' = PyDict.get d k'.
Proof.
  intros Hne. apply String.eqb_neq in Hne as Hb.
  induction d as [|[k0 v0] d IH]; simpl.
  - now rewrite Hb.
  - destruct (String.eqb k0 k) eqn:E; simpl.
    + apply String.eqb_eq in E as ->. now rewrite Hb.
    + now rewrite IH.
Qed.

Lemma get_None_keys d k : PyDict.get d k = None <-> k ∉ PyDict.keys d.
Proof.
  induction d as [|[k' v'] d IH]; simpl.
  - split; [intros _; apply not_elem_of_nil | reflexivity].
  - rewrite not_elem_of_cons. destruct (String.eqb k' k) eqn:E.
    + apply String.eqb_eq in E as ->. split; [discriminate | tauto].
    + apply String.eqb_neq in E. rewrite IH. split; [auto | tauto].
Qed.

Lemma get_Some_elem d k v : PyDict.get d k = Some v -> (k, v) ∈ d.
Proof.
  induction d as [|[k' v'] d IH]; simpl; [discriminate|].
  destruct (String.eqb k' k) eqn:E.
  - apply String.eqb_eq in E as ->. intros [= ->].
    apply elem_of_cons. now left.
  - intros H. apply elem_of_cons. right. auto.
Qed.

(** A new key goes to the end. *)
Lemma setitem_fresh d k v :
  PyDict.get d k = None -> PyDict.setitem d k v = (d ++ [(k, v)])%list.
Proof.
  induction d as [|[k' v'] d IH]; simpl; [reflexivity|].
  destruct (String.eqb k' k); [discriminate|].
  intros H. now rewrite IH.
Qed.

(** An existing key is rewritten where it stands. *)
Lemma setitem_present d k v v0 :
  PyDict.get d k = Some v0 ->
  exists d1 d2,
    d = (d1 ++ (k, v0) :: d2)%list /\
    PyDict.setitem d k v = (d1 ++ (k, v) :: d2)%list /\
    PyDict.get d1 k = None.
Proof.
  induction d as [|[k' v'] d IH]; simpl; [discriminate|].
  destruct (String.eqb k' k) eqn:E.
  - apply String.eqb_eq in E as ->. intros [= ->].
    exists [], d. auto.
  - intros H. destruct (IH H) as (d1 & d2 & -> & -> & Hn).
    exists ((k', v') :: d1), d2. simpl. now rewrite E.
Qed.

(** With distinct keys, an item of the dictionary is what [get] finds
    under its key. *)
Lemma elem_get d k v :
  NoDup (PyDict.keys d) -> (k, v) ∈ d -> PyDict.get d k = Some v.
Proof.
  induction d as [|[k' v'] d IH]; simpl.
  - intros _ H. apply elem_of_nil in H. contradiction.
  - rewrite NoDup_cons, elem_of_cons. intros [Hni Hnd] [[= -> ->]|Hin].
    + now rewrite String.eqb_refl.
    + destruct (String.eqb k' k) eqn:E; [|auto].
      apply String.eqb_eq in E as ->. exfalso. apply Hni.
      apply list_elem_of_In, in_map_iff. exists (k, v).
      split; [reflexivity|]. now apply list_elem_of_In.
Qed.

Lemma keys_setitem_present d k v :
  is_Some (PyDict.get d k) ->
  PyDict.keys (PyDict.setitem d k v) = PyDict.keys d.
Proof.
  intros [v0 H]. destruct (setitem_present d k v v0 H) as (d1 & d2 & -> & -> & _).
  unfold PyDict.keys. now rewrite !map_app.
Qed.
End Facts.
End PyDictFacts.

(* ===================================================================== *)
(** * The ledger: resolution *)
(* ===================================================================== *)

(** What a resolution does to a position that is in the ledger, whatever
    its status. *)
Lemma resolve_present now trade_id r tm tr :
  PyDict.get (TradeManager.trades tm) trade_id = Some tr ->
  resolve now trade_id r tm =
    Ok ({| TradeManager.trades :=
             PyDict.setitem (TradeManager.trades tm) trade_id
               (Trade.close tr (terminal_status r) (recorded_sell_price r)
                  (recorded_pnl r tr) now
                  (match r with
                   | Cutloss _ reason => Some reason
                   | _ => Trade.cutloss_reason tr
                   end));
           TradeManager.balance := credited r tr (TradeManager.balance tm);
           TradeManager._trade_counter := TradeManager._trade_counter tm |},
        Trade.close tr (terminal_status r) (recorded_sell_price r)
          (recorded_pnl r tr) now
          (match r with
           | Cutloss _ reason => Some reason
           | _ => Trade.cutloss_reason tr
           end)).
Proof.
  intros H. destruct r; simpl;
    unfold TradeManager.resolve_win, TradeManager.resolve_loss,
      TradeManager.resolve_cutloss; rewrite H;
    rewrite ?FloatFacts.mul_one_r; reflexivity.
Qed.

Lemma resolve_absent now trade_id r tm :
  PyDict.get (TradeManager.trades tm) trade_id = None ->
  resolve now trade_id r tm = Raise (KeyError trade_id).
Proof.
  intros H. destruct r; simpl;
    unfold TradeManager.resolve_win, TradeManager.resolve_loss,
      TradeManager.resolve_cutloss; now rewrite H.
Qed.

(** C1, as the claim states it, fails: the position T0001 of [sample_won] is
    in status "win", and a second [resolve_win] on it returns normally and
    credits the 10.309 shares once more. *)
Lemma C1_counterexample :
  Trade.status <$> PyDict.get (TradeManager.trades sample_won) "T0001"
    = Some "win" /\
  exists tm' tr',
    TradeManager.resolve_win 1020%float "T0001" sample_won = Ok (tm', tr') /\
    TradeManager.balance sample_won = 100.309%float /\
    TradeManager.balance tm' = 110.618%float.
Proof.
  split; [reflexivity|]. eexists _, _. split; [reflexivity|].
  split; reflexivity.
Qed.

(** C1 (amended).  The guard of [resolve_win], [resolve_loss] and
    [resolve_cutloss] is the dictionary lookup alone.  On an id that is not a
    key of the ledger each of them raises [KeyError] (the UnknownPosition of
    the specification) and the ledger stays as it was.  On an id that is a
    key, each of them returns normally whatever the status of the position,
    sets the status of the call and credits its payout: nothing stops a
    second resolution. *)
Theorem C1_resolve_guard_is_the_lookup now trade_id r tm :
  match PyDict.get (TradeManager.trades tm) trade_id with
  | None =>
      resolve now trade_id r tm = Raise (KeyError trade_id) /\
      apply_op tm (OpResolve now trade_id r) = tm
  | Some tr =>
      exists tm' tr',
        resolve now trade_id r tm = Ok (tm', tr') /\
        Trade.status tr' = terminal_status r /\
        TradeManager.balance tm' = credited r tr (TradeManager.balance tm)
  end.
Proof.
  destruct (PyDict.get (TradeManager.trades tm) trade_id) as [tr|] eqn:E.
  - eexists _, _. split; [apply (resolve_present _ _ _ _ _ E)|].
    split; reflexivity.
  - pose proof (resolve_absent now trade_id r tm E) as H. split; [exact H|].
    simpl. now rewrite H.
Qed.

(** C4.  [open_trade] followed by one resolution of the position it
    returns: the resolution returns normally, and the balance is the balance
    before the open, minus the committed size, plus the payout ([shares * 1.0]
    for a win, nothing for a loss, [shares * sell_price] for a cut-loss); the
    position records the status, the sell price and the profit of that
    resolution. *)
Theorem C4_open_then_resolve now p tm now' r :
  exists tm2 tr2,
    resolve now' (Trade.trade_id (snd (TradeManager.open_trade now p tm))) r
      (fst (TradeManager.open_trade now p tm)) = Ok (tm2, tr2) /\
    TradeManager.balance (fst (TradeManager.open_trade now p tm))
      = (TradeManager.balance tm - OpenParams.size_usdc p)%float /\
    TradeManager.balance tm2
      = credited r (snd (TradeManager.open_trade now p tm))
          (TradeManager.balance tm - OpenParams.size_usdc p)%float /\
    Trade.shares (snd (TradeManager.open_trade now p tm))
      = OpenParams.shares p /\
    Trade.status tr2 = terminal_status r /\
    Trade.sell_price tr2 = Some (recorded_sell_price r) /\
    Trade.pnl_usdc tr2
      = Some (recorded_pnl r (snd (TradeManager.open_trade now p tm))).
Proof.
  eexists _, _. split.
  - apply resolve_present. unfold TradeManager.open_trade. simpl.
    apply PyDictFacts.get_setitem_eq.
  - repeat split; reflexivity.
Qed.

(** The scenario of the specification: bought at 0.97, 10.309 shares, the
    market resolves YES.  The balance goes up by the shares, the recorded
    profit is [10.309 * (1 - 0.97)]. *)
Example C4_scenario_win :
  exists tm' tr',
    TradeManager.resolve_win 1010%float "T0001" sample_open = Ok (tm', tr') /\
    TradeManager.balance sample_open = 90%float /\
    TradeManager.balance tm' = (90 + 10.309)%float /\
    Trade.pnl_usdc tr' = Some (10.309 * (1 - 0.97))%float.
Proof. eexists _, _. repeat split; reflexivity. Qed.

(* ===================================================================== *)
(** * The outcome pass after a restart *)
(* ===================================================================== *)

Lemma with_pending_same st :
  Strategy.with_pending (Strategy._pending_outcomes st) st = st.
Proof. now destruct st. Qed.

(** With nothing pending the loop of [_check_outcomes] skips every trade. *)
Lemma _check_outcomes_loop_nothing_pending venue now open_trades acc st :
  Strategy._pending_outcomes st = ∅ ->
  Strategy._check_outcomes_loop venue now open_trades acc st = (Ok acc, st).
Proof.
  intros Hp. induction open_trades as [|trade rest IH]; [reflexivity|].
  simpl. unfold mbind, Strategy.M_bind, Strategy.bind, Strategy.get.
  rewrite Hp, bool_decide_eq_true_2 by set_solver. exact IH.
Qed.

(** C2, evaluated on the code.  A strategy built on a ledger that was read
    from a file has an empty [_pending_outcomes], and [_check_outcomes]
    skips every trade that is not in it: whatever the document holds,
    whatever the time and whatever the venue reports, the pass returns
    without a call to [check_market_resolved] and leaves ledger, feed and
    pending set as they were. *)
Theorem C2_reloaded_positions_are_never_polled venue now sb doc mon :
  Strategy._check_outcomes venue now
    (Strategy.__init__ (TradeManager.__init__ sb (Some doc)) mon)
  = (Ok tt, Strategy.__init__ (TradeManager.__init__ sb (Some doc)) mon).
Proof.
  unfold Strategy._check_outcomes.
  unfold mbind, Strategy.M_bind, Strategy.bind, Strategy.get.
  rewrite _check_outcomes_loop_nothing_pending by reflexivity.
  unfold Strategy.modify. f_equal.
Qed.

(** The scenario of the specification: the position of [sample_open] closed
    at 1000, the process restarts, the outcome pass runs at 2000 against a
    venue that reports YES.  The position is still open afterwards. *)
Example C2_scenario :
  Trade.status <$>
    PyDict.get
      (TradeManager.trades
         (Strategy.tm
            (snd (Strategy.outcome_checker_cycle
                    (sample_venue book_tight true) 2000%float
                    strategy_restarted))))
      "T0001"
  = Some "open".
Proof.
  unfold Strategy.outcome_checker_cycle, Strategy.try_except.
  unfold strategy_restarted. rewrite C2_reloaded_positions_are_never_polled.
  reflexivity.
Qed.

(* ===================================================================== *)
(** * The cut-loss check *)
(* ===================================================================== *)

(** The market-side test reads the first ask, not the first bid. *)
Lemma market_side_fires cfg venue trade :
  is_Some (Strategy.market_side cfg venue trade) <->
  exists ask,
    PolymarketClient.get_best_ask venue (Trade.yes_token_id trade) = Some ask /\
    (ask <? Config.CUTLOSS_PM_PRICE cfg)%float = true.
Proof.
  unfold Strategy.market_side.
  destruct (PolymarketClient.get_best_ask _ _) as [ask|].
  - destruct (ask <? _)%float eqn:E.
    + split; [eauto | intros _; eauto].
    + split; [intros [? [=]] | intros (a & [= <-] & H); congruence].
  - split; [intros [? [=]] | intros (a & [=] & _)].
Qed.

(** C3, evaluated on the code.  The book has a best bid of 0.70, under the
    floor of 0.80, and a best ask of 0.85, and the spot has not moved: the
    specification's rule fires, [_check_cutloss] does not. *)
Theorem C3_bid_under_floor_does_not_fire :
  get_best_bid (sample_venue book_bid_under_floor true)
    (Trade.yes_token_id sample_trade) = Some 0.70%float /\
  spec_market_side Config.default (sample_venue book_bid_under_floor true)
    sample_trade = true /\
  Strategy._check_cutloss Config.default
    (sample_venue book_bid_under_floor true) sample_trade
    (strategy_holding feed_pinned) = None.
Proof. repeat split; vm_compute; reflexivity. Qed.




(* ===================================================================== *)
(** * The entry evaluator *)
(* ===================================================================== *)

(** [seconds_to_close] is a number: [max(0, x)] is [0] when [x] is a NaN. *)
Lemma seconds_to_close_not_nan now market :
  F.nan (MarketInfo.seconds_to_close now market) = false.
Proof.
  unfold MarketInfo.seconds_to_close, F.max, F.gtb.
  destruct (0 <? _)%float eqn:E.
  - exact (FloatFacts.ltb_true_not_nan_r _ _ E).
  - reflexivity.
Qed.






(* ===================================================================== *)
(** * The cut-loss exit *)
(* ===================================================================== *)

(** What [_execute_cutloss] does once [resolve_cutloss] has found the
    position: the sell price is zero when the sell raised, the price asked
    otherwise. *)
Lemma _execute_cutloss_present venue now render trade reason st tr :
  PyDict.get (TradeManager.trades (Strategy.tm st)) (Trade.trade_id trade)
    = Some tr ->
  let asked :=
    Strategy.cutloss_sell_price
      (PolymarketClient.get_orderbook_depth venue (Trade.yes_token_id trade)) in
  let sold :=
    match PolymarketClient.sell_yes venue (Trade.yes_token_id trade) asked
            (Trade.shares trade) "FOK" with
    | Some _ => asked
    | None => 0.0%float
    end in
  Strategy._execute_cutloss venue now render trade reason st =
    (Ok tt,
     {| Strategy.tm :=
          {| TradeManager.trades :=
               PyDict.setitem (TradeManager.trades (Strategy.tm st))
                 (Trade.trade_id trade)
                 (Trade.close tr "cutloss" sold
                    (Trade.shares tr * sold - Trade.size_usdc tr)%float now
                    (Some (render reason)));
             TradeManager.balance :=
               (TradeManager.balance (Strategy.tm st)
                + Trade.shares tr * sold)%float;
             TradeManager._trade_counter :=
               TradeManager._trade_counter (Strategy.tm st) |};
        Strategy._active_markets := Strategy._active_markets st;
        Strategy._pending_outcomes :=
          Strategy._pending_outcomes st ∖ {[Trade.condition_id trade]};
        Strategy.binance_monitor :=
          BinancePriceMonitor.clear_reference_price (Trade.asset trade)
            (Strategy.binance_monitor st) |}).
Proof.
  intros H asked sold. unfold Strategy._execute_cutloss.
  unfold mbind, Strategy.M_bind, Strategy.bind, Strategy.call_tm,
    TradeManager.resolve_cutloss.
  fold asked. fold sold. rewrite H. reflexivity.
Qed.

(** C10.  When the sell order of a cut-loss raises, [_execute_cutloss] still
    returns normally and the position, found in the ledger under its id,
    becomes "cutloss" with a sell price of 0.0.  For a finite share count
    the payout is a zero: the balance is numerically what it was, and the
    recorded profit is numerically minus the committed size. *)
Theorem C10_cutloss_recorded_when_sell_fails venue now render trade reason st :
  PolymarketClient.sell_yes venue (Trade.yes_token_id trade)
    (Strategy.cutloss_sell_price
       (PolymarketClient.get_orderbook_depth venue (Trade.yes_token_id trade)))
    (Trade.shares trade) "FOK" = None ->
  PyDict.get (TradeManager.trades (Strategy.tm st)) (Trade.trade_id trade)
    = Some trade ->
  F.finite (Trade.shares trade) = true ->
  F.nan (TradeManager.balance (Strategy.tm st)) = false ->
  F.nan (Trade.size_usdc trade) = false ->
  exists st' tr' pnl,
    Strategy._execute_cutloss venue now render trade reason st = (Ok tt, st') /\
    PyDict.get (TradeManager.trades (Strategy.tm st')) (Trade.trade_id trade)
      = Some tr' /\
    Trade.status tr' = "cutloss" /\
    Trade.sell_price tr' = Some 0.0%float /\
    Trade.pnl_usdc tr' = Some pnl /\
    (pnl =? - Trade.size_usdc trade)%float = true /\
    (TradeManager.balance (Strategy.tm st')
     =? TradeManager.balance (Strategy.tm st))%float = true.
Proof.
  intros Hsell Hget Hfin Hbal Hsize.
  pose proof (_execute_cutloss_present venue now render trade reason st trade
                Hget) as Hrun.
  cbv zeta in Hrun. rewrite Hsell in Hrun.
  destruct (FloatFacts.mul_zero_finite _ Hfin) as [sg Hz].
  eexists _, _, _. split; [exact Hrun|]. simpl.
  split; [apply PyDictFacts.get_setitem_eq|].
  repeat split.
  - exact (FloatFacts.zero_sub_eqb _ _ _ Hz Hsize).
  - exact (FloatFacts.add_zero_eqb _ _ _ Hbal Hz).
Qed.

(** The sample position, the spot 0.3% down, and a venue on which the sell
    raises. *)
Lemma C10_cutloss_recorded_when_sell_fails_witness :
  exists st' tr' pnl,
    Strategy._execute_cutloss (sample_venue book_tight false) 960%float
      sample_render sample_trade
      (Strategy.BinanceDropped "BTC" (-0.003)%float 0.003%float)
      (strategy_holding feed_dropped) = (Ok tt, st') /\
    PyDict.get (TradeManager.trades (Strategy.tm st'))
      (Trade.trade_id sample_trade) = Some tr' /\
    Trade.status tr' = "cutloss" /\
    Trade.sell_price tr' = Some 0.0%float /\
    Trade.pnl_usdc tr' = Some pnl /\
    (pnl =? - Trade.size_usdc sample_trade)%float = true /\
    (TradeManager.balance (Strategy.tm st')
     =? TradeManager.balance (Strategy.tm (strategy_holding feed_dropped)))%float
      = true.
Proof.
  apply (C10_cutloss_recorded_when_sell_fails (sample_venue book_tight false)
           960%float sample_render sample_trade
           (Strategy.BinanceDropped "BTC" (-0.003)%float 0.003%float)
           (strategy_holding feed_dropped));
    vm_compute; reflexivity.
Defined.

(* ===================================================================== *)
(** * The ledger: ids and markets *)
(* ===================================================================== *)

(** ** Ids are not reused *)

Lemma parse_digits_zeros k s :
  parse_digits (zeros k ++ s) = parse_digits s.
Proof.
  induction k as [|k IH]; [reflexivity|].
  simpl. unfold parse_digits in *. simpl.
  destruct (NilEmpty.uint_of_string (zeros k ++ s)) as [d|] eqn:E;
    destruct (NilEmpty.uint_of_string s) as [d'|] eqn:E';
    simpl in *; congruence.
Qed.

Lemma parse_digits_digits n : parse_digits (digits n) = Some n.
Proof.
  unfold parse_digits, digits. rewrite NilEmpty.usu. simpl.
  now rewrite DecimalN.Unsigned.of_to.
Qed.

Lemma parse_digits_zfill w n : parse_digits (zfill w (digits n)) = Some n.
Proof. unfold zfill. now rewrite parse_digits_zeros, parse_digits_digits. Qed.

(** [f"{n:04d}"] tells non-negative counters apart. *)
Lemma format_04d_inj n m :
  (0 <= n)%Z -> (0 <= m)%Z -> format_04d n = format_04d m -> n = m.
Proof.
  intros Hn Hm. unfold format_04d.
  destruct (Z.ltb_spec n 0) as [?|_]; [lia|].
  destruct (Z.ltb_spec m 0) as [?|_]; [lia|].
  intros E. apply (f_equal parse_digits) in E.
  rewrite !parse_digits_zfill in E. injection E as E. lia.
Qed.

(** ** What each call does to the markets of the ledger *)

Lemma already_traded_markets cid tm :
  TradeManager.already_traded cid tm = true <-> In cid (markets tm).
Proof.
  unfold TradeManager.already_traded, markets.
  rewrite existsb_exists, in_map_iff. split.
  - intros (tr & Hin & E). apply String.eqb_eq in E. eauto.
  - intros (tr & E & Hin). exists tr. split; [exact Hin|].
    now apply String.eqb_eq.
Qed.

(** A resolution rewrites one position and keeps its market. *)
Lemma markets_resolve now trade_id r tm tm' tr' :
  resolve now trade_id r tm = Ok (tm', tr') -> markets tm' = markets tm.
Proof.
  destruct (PyDict.get (TradeManager.trades tm) trade_id) as [tr|] eqn:E.
  - rewrite (resolve_present _ _ _ _ _ E). intros [= <- _].
    unfold markets. simpl.
    destruct (PyDictFacts.setitem_present _ _
                (Trade.close tr (terminal_status r) (recorded_sell_price r)
                   (recorded_pnl r tr) now
                   match r with
                   | Cutloss _ reason => Some reason
                   | _ => Trade.cutloss_reason tr
                   end) _ E) as (d1 & d2 & -> & -> & _).
    unfold PyDict.values. now rewrite !map_app.
  - now rewrite (resolve_absent _ _ _ _ E).
Qed.

(** The id [open_trade] issues is not in a ledger that keeps the
    invariant. *)
Lemma new_id_fresh tm :
  ids_issued tm ->
  PyDict.get (TradeManager.trades tm)
    ("T" ++ format_04d (TradeManager._trade_counter tm + 1)) = None.
Proof.
  intros (Hc & _ & Hk). apply PyDictFacts.get_None_keys.
  intros Hin. apply list_elem_of_In, in_map_iff in Hin as ([k tr] & Ek & Hin).
  simpl in Ek. subst k. apply list_elem_of_In in Hin.
  destruct (Hk _ _ Hin) as (_ & n & Hn & E).
  injection E as E. apply format_04d_inj in E; lia.
Qed.

Lemma open_trade_appends now p tm :
  ids_issued tm ->
  TradeManager.trades (fst (TradeManager.open_trade now p tm))
  = (TradeManager.trades tm ++
     [(Trade.trade_id (snd (TradeManager.open_trade now p tm)),
       snd (TradeManager.open_trade now p tm))])%list.
Proof.
  intros Hwf. unfold TradeManager.open_trade. simpl.
  apply PyDictFacts.setitem_fresh, new_id_fresh, Hwf.
Qed.

Lemma markets_open_trade now p tm :
  ids_issued tm ->
  markets (fst (TradeManager.open_trade now p tm))
  = (markets tm ++ [OpenParams.condition_id p])%list.
Proof.
  intros Hwf. unfold markets. rewrite (open_trade_appends now p tm Hwf).
  unfold PyDict.values. now rewrite !map_app.
Qed.

(** ** The invariant holds in every ledger *)

Lemma ids_issued_init sb : ids_issued (TradeManager.__init__ sb None).
Proof.
  repeat split; simpl; try lia.
  - apply NoDup_nil. exact I.
  - apply elem_of_nil in H. contradiction.
  - apply elem_of_nil in H. contradiction.
Qed.

Lemma ids_issued_open_trade now p tm :
  ids_issued tm -> ids_issued (fst (TradeManager.open_trade now p tm)).
Proof.
  intros Hwf. pose proof (new_id_fresh tm Hwf) as Hfresh.
  pose proof (open_trade_appends now p tm Hwf) as Happ.
  destruct Hwf as (Hc & Hnd & Hk).
  split; [|split].
  - unfold TradeManager.open_trade. simpl. lia.
  - rewrite Happ. unfold PyDict.keys. rewrite map_app. simpl.
    apply NoDup_app. split; [exact Hnd|]. split; [|apply NoDup_singleton].
    intros k Hin Hin'. apply list_elem_of_singleton in Hin'. subst k.
    apply PyDictFacts.get_None_keys in Hfresh. exact (Hfresh Hin).
  - intros k tr. rewrite Happ, elem_of_app, list_elem_of_singleton.
    intros [Hin | [= -> ->]].
    + destruct (Hk _ _ Hin) as (Hid & n & Hn & E). split; [exact Hid|].
      exists n. split; [|exact E].
      unfold TradeManager.open_trade. simpl. lia.
    + split; [reflexivity|].
      exists (TradeManager._trade_counter tm + 1)%Z.
      unfold TradeManager.open_trade. simpl. split; [lia | reflexivity].
Qed.

Lemma ids_issued_resolve now trade_id r tm tm' tr' :
  resolve now trade_id r tm = Ok (tm', tr') -> ids_issued tm -> ids_issued tm'.
Proof.
  destruct (PyDict.get (TradeManager.trades tm) trade_id) as [tr|] eqn:E.
  - rewrite (resolve_present _ _ _ _ _ E). intros [= <- _] (Hc & Hnd & Hk).
    split; [exact Hc|]. simpl. split.
    + rewrite PyDictFacts.keys_setitem_present by eauto. exact Hnd.
    + intros k v.
      destruct (PyDictFacts.setitem_present _ _
                  (Trade.close tr (terminal_status r) (recorded_sell_price r)
                     (recorded_pnl r tr) now
                     match r with
                     | Cutloss _ reason => Some reason
                     | _ => Trade.cutloss_reason tr
                     end) _ E) as (d1 & d2 & Hd & -> & _).
      rewrite Hd in Hk. rewrite elem_of_app, elem_of_cons.
      intros [Hin | [[= -> ->] | Hin]].
      * apply Hk. rewrite elem_of_app. now left.
      * apply (Hk trade_id tr). rewrite elem_of_app, elem_of_cons. auto.
      * apply Hk. rewrite elem_of_app, elem_of_cons. auto.
  - now rewrite (resolve_absent _ _ _ _ E).
Qed.

(** Reading back what [_save] wrote gives the dictionary that was saved. *)
Lemma load_saved_trades (d0 d : list (string * Trade.t)) :
  NoDup (PyDict.keys (d0 ++ d)) ->
  (forall k tr, (k, tr) ∈ d -> Trade.trade_id tr = k) ->
  fold_left (fun acc tr => PyDict.setitem acc (Trade.trade_id tr) tr)
    (PyDict.values d) d0
  = (d0 ++ d)%list.
Proof.
  revert d0. induction d as [|[k tr] d IH]; intros d0 Hnd Hid; simpl.
  - now rewrite app_nil_r.
  - assert (Trade.trade_id tr = k) as ->
      by (apply Hid, elem_of_cons; now left).
    rewrite PyDictFacts.setitem_fresh.
    + rewrite IH.
      * now rewrite <- app_assoc.
      * now rewrite <- app_assoc.
      * intros k' tr' Hin. apply Hid, elem_of_cons. now right.
    + apply PyDictFacts.get_None_keys. unfold PyDict.keys in *.
      rewrite map_app in Hnd. apply NoDup_app in Hnd as (_ & Hdis & _).
      intros Hin. apply (Hdis _ Hin). simpl. apply elem_of_cons. now left.
Qed.

(** A restart gives back the ledger that was saved. *)
Lemma restart_same sb tm :
  ids_issued tm -> TradeManager.__init__ sb (Some (TradeManager._save tm)) = tm.
Proof.
  intros (_ & Hnd & Hk). unfold TradeManager.__init__, TradeManager._load.
  simpl. rewrite (load_saved_trades [] (TradeManager.trades tm)).
  - now destruct tm.
  - exact Hnd.
  - intros k tr Hin. now destruct (Hk _ _ Hin).
Qed.

Lemma ids_issued_apply_op tm o : ids_issued tm -> ids_issued (apply_op tm o).
Proof.
  intros Hwf. destruct o as [now p | now trade_id r | b | sb]; cbn [apply_op].
  - now apply ids_issued_open_trade.
  - destruct (resolve now trade_id r tm) as [[tm' tr']|e] eqn:E;
      [exact (ids_issued_resolve _ _ _ _ _ _ E Hwf) | exact Hwf].
  - exact Hwf.
  - now rewrite restart_same.
Qed.

Lemma ids_issued_run ops tm : ids_issued tm -> ids_issued (run ops tm).
Proof.
  revert tm. induction ops as [|o ops IH]; intros tm Hwf; [exact Hwf|].
  simpl. apply IH, ids_issued_apply_op, Hwf.
Qed.

Lemma reachable_ids_issued tm : reachable tm -> ids_issued tm.
Proof. intros (sb & ops & ->). apply ids_issued_run, ids_issued_init. Qed.

(** No call takes a market out of the ledger. *)
Lemma markets_apply_op tm o cid :
  ids_issued tm -> In cid (markets tm) -> In cid (markets (apply_op tm o)).
Proof.
  intros Hwf Hin. destruct o as [now p | now trade_id r | b | sb];
    cbn [apply_op].
  - rewrite markets_open_trade by exact Hwf. apply in_or_app. now left.
  - destruct (resolve now trade_id r tm) as [[tm' tr']|e] eqn:E;
      [now rewrite (markets_resolve _ _ _ _ _ _ E) | exact Hin].
  - exact Hin.
  - now rewrite restart_same.
Qed.

Lemma markets_run ops tm cid :
  ids_issued tm -> In cid (markets tm) -> In cid (markets (run ops tm)).
Proof.
  revert tm. induction ops as [|o ops IH]; intros tm Hwf Hin; [exact Hin|].
  simpl. apply IH; [apply ids_issued_apply_op, Hwf|].
  now apply markets_apply_op.
Qed.

(** ** One position per market *)

(** C8, as the claim states it, fails: [open_trade] does not look at the
    market id.  Two opens for the same market, with nothing else, give a
    ledger with two positions on it. *)
Lemma C8_counterexample :
  reachable
    (run [OpOpen 900%float sample_params; OpOpen 901%float sample_params]
       sample_empty) /\
  markets
    (run [OpOpen 900%float sample_params; OpOpen 901%float sample_params]
       sample_empty) = ["0xc0ffee"; "0xc0ffee"] /\
  ~ unique_markets
      (run [OpOpen 900%float sample_params; OpOpen 901%float sample_params]
         sample_empty).
Proof.
  split; [|split].
  - exists 100%float,
      [OpOpen 900%float sample_params; OpOpen 901%float sample_params].
    reflexivity.
  - reflexivity.
  - unfold unique_markets. fold (markets
      (run [OpOpen 900%float sample_params; OpOpen 901%float sample_params]
         sample_empty)).
    change (markets _) with ["0xc0ffee"; "0xc0ffee"].
    rewrite NoDup_cons. intros [Hni _]. apply Hni, elem_of_cons. now left.
Qed.

Lemma unique_markets_run ops tm :
  ids_issued tm -> unique_markets tm -> guarded ops tm ->
  unique_markets (run ops tm).
Proof.
  revert tm. induction ops as [|o ops IH]; intros tm Hwf Hu Hg; [exact Hu|].
  destruct Hg as [Hg Hrest]. simpl.
  apply IH; [apply ids_issued_apply_op, Hwf | | exact Hrest].
  unfold unique_markets in *. fold (markets tm) in Hu.
  fold (markets (apply_op tm o)).
  destruct o as [now p | now trade_id r | b | sb]; cbn [apply_op].
  - rewrite markets_open_trade by exact Hwf.
    apply NoDup_app. split; [exact Hu|]. split; [|apply NoDup_singleton].
    intros cid Hin Hin'. apply list_elem_of_singleton in Hin'. subst cid.
    apply list_elem_of_In, already_traded_markets in Hin. congruence.
  - destruct (resolve now trade_id r tm) as [[tm' tr']|e] eqn:E;
      [now rewrite (markets_resolve _ _ _ _ _ _ E) | exact Hu].
  - exact Hu.
  - now rewrite restart_same.
Qed.

(** C8 (amended).  The ledger does not enforce it: [open_trade] adds a
    position whatever the market.  What holds is this: in every ledger built
    from no file by calls and restarts in which each [open_trade] is made for
    a market that [already_traded] reports as never traded at that moment
    (the test the scanner loop and the entry evaluator make before a buy),
    no two positions are on the same market. *)
Theorem C8_unique_markets_when_callers_check sb ops :
  guarded ops (TradeManager.__init__ sb None) ->
  unique_markets (run ops (TradeManager.__init__ sb None)).
Proof.
  intros Hg. apply unique_markets_run; [apply ids_issued_init | | exact Hg].
  unfold unique_markets. simpl. apply NoDup_nil. exact I.
Qed.

Lemma C8_unique_markets_when_callers_check_witness :
  unique_markets
    (run [OpOpen 900%float sample_params;
          OpResolve 1010%float "T0001" Win;
          OpRestart 0%float]
       (TradeManager.__init__ 100%float None)).
Proof.
  apply (C8_unique_markets_when_callers_check 100%float
           [OpOpen 900%float sample_params;
            OpResolve 1010%float "T0001" Win;
            OpRestart 0%float]).
  simpl. repeat split; reflexivity.
Defined.

(** ** Once traded, always traded *)

(** C9.  In a ledger of a running process, [already_traded] answers true
    for a market right after [open_trade] was called for it, and after any
    further sequence of opens, resolutions (to any terminal status, whether
    they return or raise), balance updates and restarts: positions are never
    removed, and a new position never takes the id of an old one. *)
Theorem C9_already_traded_is_permanent tm now p ops :
  reachable tm ->
  TradeManager.already_traded (OpenParams.condition_id p)
    (run ops (fst (TradeManager.open_trade now p tm))) = true.
Proof.
  intros Hr. apply reachable_ids_issued in Hr.
  apply already_traded_markets, markets_run.
  - now apply ids_issued_open_trade.
  - rewrite markets_open_trade by exact Hr. apply in_or_app. right.
    now left.
Qed.

Lemma C9_already_traded_is_permanent_witness :
  TradeManager.already_traded "0xc0ffee"
    (run [OpResolve 1010%float "T0001" Win;
          OpResolve 1020%float "T0009" Loss;
          OpRestart 0%float;
          OpOpen 1100%float sample_params]
       (fst (TradeManager.open_trade 900%float sample_params sample_empty)))
  = true.
Proof.
  apply (C9_already_traded_is_permanent sample_empty 900%float sample_params).
  exists 100%float, []. reflexivity.
Defined.

(* ===================================================================== *)
(** * The reference price *)
(* ===================================================================== *)

(** C7, as the claim states it, fails: the reference price is kept per
    asset.  The position on the long BTC market is entered with BTC pinned at
    50000; while it is open (it closes at 1200 and is never resolved here) the
    entry on the short BTC market at 1000 pins BTC again, at 50500. *)
Lemma C7_counterexample :
  pinned "BTC" after_first_entry = Some 50000%float /\
  (Trade.condition_id <$>
     PyDict.get (TradeManager.trades (Strategy.tm after_first_entry)) "T0001")
    = Some "0xaaaa" /\
  (Trade.status <$>
     PyDict.get (TradeManager.trades (Strategy.tm after_second_entry)) "T0001")
    = Some "open" /\
  pinned "BTC" after_second_entry = Some 50500%float.
Proof. repeat split; vm_compute; reflexivity. Qed.

(** ** Loops *)

(** A property every turn of the body keeps is kept by the loop, whether it
    runs to its end or stops on an exception. *)
Lemma for_each_preserves {A : Type} (I : Strategy.t -> Prop) (xs : list A)
    (body : A -> Strategy.M unit) :
  (forall x st, x ∈ xs -> I st -> I (snd (body x st))) ->
  forall st, I st -> I (snd (Strategy.for_each xs body st)).
Proof.
  induction xs as [|x xs IH]; intros Hbody st HI; [exact HI|].
  simpl. unfold Strategy.bind.
  pose proof (Hbody x st ltac:(apply elem_of_cons; now left) HI) as H1.
  destruct (body x st) as [[u|e] st1]; simpl in *; [|exact H1].
  apply IH; [|exact H1].
  intros y st' Hin. apply Hbody, elem_of_cons. now right.
Qed.

(** A loop of plain updates is a fold. *)
Lemma for_each_modify {A : Type} (xs : list A) (f : A -> Strategy.t -> Strategy.t)
    st :
  Strategy.for_each xs (fun x => Strategy.modify (f x)) st
  = (Ok tt, fold_left (fun s x => f x s) xs st).
Proof.
  revert st. induction xs as [|x xs IH]; intros st; [reflexivity|].
  simpl. unfold Strategy.bind, Strategy.modify at 1. apply IH.
Qed.

(** ** Entries pin *)

(** [_execute_buy] either leaves everything as it is, or opens a position on
    the market and pins the spot price of its asset. *)
Lemma _execute_buy_effect cfg venue now market st :
  snd (Strategy._execute_buy cfg venue now market st) = st \/
  exists p,
    OpenParams.condition_id p = MarketInfo.condition_id market /\
    snd (Strategy._execute_buy cfg venue now market st)
    = Strategy.with_pending
        ({[MarketInfo.condition_id market]} ∪ Strategy._pending_outcomes st)
        (Strategy.with_monitor
           (BinancePriceMonitor.set_reference_price (MarketInfo.asset market)
              (Strategy.binance_monitor st))
           (Strategy.with_tm
              (fst (TradeManager.open_trade now p (Strategy.tm st))) st)).
Proof.
  unfold Strategy._execute_buy.
  destruct (PolymarketClient.get_best_ask _ _) as [ask|]; [|now left].
  destruct (ask <? _)%float; [now left|].
  unfold mbind, Strategy.M_bind, Strategy.bind, Strategy.get.
  destruct (PolymarketClient.buy_yes _ _ _ _) as [[order_id size]|];
    [|now left].
  right. eexists. split; [|reflexivity]. reflexivity.
Qed.

Lemma pinned_set_reference_price a asset st tm' pend :
  pinned a
    (Strategy.with_pending pend
       (Strategy.with_monitor
          (BinancePriceMonitor.set_reference_price asset
             (Strategy.binance_monitor st))
          (Strategy.with_tm tm' st)))
  = if decide (asset = a)
    then match spot a st with Some p => Some p | None => pinned a st end
    else pinned a st.
Proof.
  unfold pinned, spot, BinancePriceMonitor.set_reference_price. simpl.
  destruct (decide (asset = a)) as [->|Hne].
  - destruct (BinancePriceMonitor.prices _ !! a) eqn:E; simpl; [|reflexivity].
    apply lookup_insert_eq.
  - destruct (BinancePriceMonitor.prices _ !! asset); simpl; [|reflexivity].
    now apply lookup_insert_ne.
Qed.

Lemma spot_set_reference_price a asset st tm' pend :
  spot a
    (Strategy.with_pending pend
       (Strategy.with_monitor
          (BinancePriceMonitor.set_reference_price asset
             (Strategy.binance_monitor st))
          (Strategy.with_tm tm' st)))
  = spot a st.
Proof.
  unfold spot, BinancePriceMonitor.set_reference_price. simpl.
  now destruct (BinancePriceMonitor.prices _ !! asset).
Qed.

Lemma values_setitem_In {V : Type} (d : list (string * V)) k v x :
  In x (PyDict.values (PyDict.setitem d k v)) -> x = v \/ In x (PyDict.values d).
Proof.
  induction d as [|[k' v'] d IH]; simpl.
  - intros [<-|[]]. now left.
  - destruct (String.eqb k' k); simpl.
    + intros [<-|H]; auto.
    + intros [<-|H]; auto. destruct (IH H); auto.
Qed.

(** The first loop of the scanner only adds the listed markets to the
    tracked ones. *)
Lemma track_markets_effect (ms : list MarketInfo.t) st :
  let st1 :=
    fold_left
      (fun s m =>
         Strategy.with_active
           (PyDict.setitem (Strategy._active_markets s)
              (MarketInfo.condition_id m) m) s) ms st in
  Strategy.tm st1 = Strategy.tm st /\
  Strategy.binance_monitor st1 = Strategy.binance_monitor st /\
  forall m, In m (PyDict.values (Strategy._active_markets st1)) ->
            In m ms \/ In m (PyDict.values (Strategy._active_markets st)).
Proof.
  revert st. induction ms as [|m0 ms IH]; intros st; simpl.
  - auto.
  - destruct (IH (Strategy.with_active
                    (PyDict.setitem (Strategy._active_markets st)
                       (MarketInfo.condition_id m0) m0) st))
      as (Htm & Hmon & Hin).
    split; [exact Htm|]. split; [exact Hmon|].
    intros m H. destruct (Hin m H) as [H'|H']; [auto|].
    simpl in H'. apply values_setitem_In in H' as [->|H']; auto.
Qed.

(** One market of the second loop of the scanner. *)
Lemma scan_one_effect cfg venue now market a st :
  ids_issued (Strategy.tm st) ->
  ids_issued (Strategy.tm (snd (Strategy.scan_one cfg venue now market st))) /\
  spot a (snd (Strategy.scan_one cfg venue now market st)) = spot a st /\
  (forall c,
     In c (markets (Strategy.tm st)) ->
     In c (markets
             (Strategy.tm (snd (Strategy.scan_one cfg venue now market st))))) /\
  (pinned a (snd (Strategy.scan_one cfg venue now market st)) = pinned a st \/
   MarketInfo.asset market = a /\
   pinned a (snd (Strategy.scan_one cfg venue now market st)) = spot a st /\
   In (MarketInfo.condition_id market)
     (markets (Strategy.tm (snd (Strategy.scan_one cfg venue now market st)))) /\
   ~ In (MarketInfo.condition_id market) (markets (Strategy.tm st))).
Proof.
  intros Hwf. unfold Strategy.scan_one.
  destruct (MarketInfo.is_expired now market); [simpl; auto|].
  unfold mbind, Strategy.M_bind, Strategy.bind, Strategy.get.
  destruct (TradeManager.already_traded _ _) eqn:Etraded; [simpl; auto|].
  destruct (fst (Strategy._should_enter cfg venue now market st));
    [|simpl; auto].
  destruct (_execute_buy_effect cfg venue now market st)
    as [-> | (p & Hp & ->)]; [auto|].
  rewrite pinned_set_reference_price, spot_set_reference_price.
  cbn [Strategy.tm Strategy.with_pending Strategy.with_monitor
       Strategy.with_tm].
  rewrite (markets_open_trade now p _ Hwf), Hp.
  split; [now apply ids_issued_open_trade|]. split; [reflexivity|].
  split; [intros c Hc; apply in_or_app; now left|].
  destruct (decide (MarketInfo.asset market = a)) as [Ha|Hne]; [|now left].
  destruct (spot a st) as [price|] eqn:Espot; [|now left].
  right. split; [exact Ha|]. split; [reflexivity|]. split.
  - apply in_or_app. right. now left.
  - intros Hin. apply already_traded_markets in Hin. congruence.
Qed.

(** A turn of the scanner: track the listed markets, then go through the
    tracked ones. *)
Lemma market_scanner_cycle_run cfg venue now st :
  snd (Strategy.market_scanner_cycle cfg venue now st)
  = snd (Strategy.for_each
           (PyDict.values
              (Strategy._active_markets
                 (fold_left
                    (fun s m =>
                       Strategy.with_active
                         (PyDict.setitem (Strategy._active_markets s)
                            (MarketInfo.condition_id m) m) s)
                    (PolymarketClient.scan_markets venue) st)))
           (Strategy.scan_one cfg venue now)
           (fold_left
              (fun s m =>
                 Strategy.with_active
                   (PyDict.setitem (Strategy._active_markets s)
                      (MarketInfo.condition_id m) m) s)
              (PolymarketClient.scan_markets venue) st)).
Proof.
  unfold Strategy.market_scanner_cycle, Strategy.try_except.
  cbn [snd]. unfold mbind, Strategy.M_bind, Strategy.bind at 1.
  now rewrite for_each_modify.
Qed.

(** A turn of the scanner changes the reference price of an asset only by
    entering a market of that asset, and sets it to the spot price. *)
Lemma scan_pin cfg venue now st a :
  ids_issued (Strategy.tm st) ->
  pinned a (snd (Strategy.market_scanner_cycle cfg venue now st)) = pinned a st \/
  pinned a (snd (Strategy.market_scanner_cycle cfg venue now st)) = spot a st /\
  exists market,
    market ∈ scanned venue st /\
    MarketInfo.asset market = a /\
    TradeManager.already_traded (MarketInfo.condition_id market)
      (Strategy.tm (snd (Strategy.market_scanner_cycle cfg venue now st)))
    = true /\
    TradeManager.already_traded (MarketInfo.condition_id market)
      (Strategy.tm st) = false.
Proof.
  intros Hwf. rewrite market_scanner_cycle_run.
  destruct (track_markets_effect (PolymarketClient.scan_markets venue) st)
    as (Htm & Hmon & Hin).
  set (st1 := fold_left _ (PolymarketClient.scan_markets venue) st) in *.
  set (I := fun s : Strategy.t =>
    ids_issued (Strategy.tm s) /\
    spot a s = spot a st /\
    (forall c, In c (markets (Strategy.tm st)) ->
               In c (markets (Strategy.tm s))) /\
    (pinned a s = pinned a st \/
     pinned a s = spot a st /\
     exists market,
       market ∈ scanned venue st /\
       MarketInfo.asset market = a /\
       In (MarketInfo.condition_id market) (markets (Strategy.tm s)) /\
       ~ In (MarketInfo.condition_id market) (markets (Strategy.tm st)))).
  assert (I st1) as H1.
  { unfold I, spot, pinned. rewrite Htm, Hmon. auto. }
  match goal with
  | |- context [Strategy.for_each ?l ?b st1] =>
      pose proof (for_each_preserves I l b) as Hloop;
      set (st2 := snd (Strategy.for_each l b st1)) in *
  end.
  assert (I st2) as (_ & _ & _ & Hpin).
  { apply Hloop; [|exact H1]. clear Hloop H1.
    intros market s Hm (Hwfs & Hspot & Hmono & Hpin).
    destruct (scan_one_effect cfg venue now market a s Hwfs)
      as (Hwf' & Hspot' & Hmono' & Hpin').
    split; [exact Hwf'|]. split; [congruence|]. split; [auto|].
    destruct Hpin' as [Hsame | (Ha & Hp & Hin' & Hnin)].
    - rewrite Hsame.
      destruct Hpin as [Hs | (Hp & market0 & Hm0 & Ha0 & Hin0 & Hnin0)];
        [now left|].
      right. split; [exact Hp|]. exists market0. auto.
    - right. split; [congruence|]. exists market.
      split; [|split; [exact Ha|split; [exact Hin'|]]].
      + unfold scanned. apply list_elem_of_In, in_or_app.
        apply list_elem_of_In in Hm. exact (Hin market Hm).
      + intros Hc. apply Hnin, Hmono, Hc. }
  destruct Hpin as [Hs | (Hp & market & Hm & Ha & Hin' & Hnin)];
    [now left|].
  right. split; [exact Hp|]. exists market.
  split; [exact Hm|]. split; [exact Ha|]. split.
  - now apply already_traded_markets.
  - destruct (TradeManager.already_traded _ (Strategy.tm st)) eqn:E;
      [|reflexivity].
    apply already_traded_markets in E. contradiction.
Qed.

(** ** Resolutions clear *)

Lemma terminal_status_not_open r : String.eqb (terminal_status r) "open" = false.
Proof. now destruct r. Qed.

(** A resolution closes the position it is called on, and reopens none. *)
Lemma closed_resolve now trade_id r tm tm' tr' k :
  resolve now trade_id r tm = Ok (tm', tr') ->
  closed k tm \/ k = trade_id -> closed k tm'.
Proof.
  destruct (PyDict.get (TradeManager.trades tm) trade_id) as [tr|] eqn:E;
    [|now rewrite (resolve_absent _ _ _ _ E)].
  rewrite (resolve_present _ _ _ _ _ E). intros [= <- _] Hk.
  unfold closed. cbn [TradeManager.trades].
  destruct (decide (k = trade_id)) as [->|Hne].
  - rewrite PyDictFacts.get_setitem_eq. eexists. split; [reflexivity|].
    unfold Trade.is_open. simpl. apply terminal_status_not_open.
  - rewrite PyDictFacts.get_setitem_ne by congruence.
    destruct Hk as [Hk|Hk]; [exact Hk | contradiction].
Qed.

Lemma keys_resolve now trade_id r tm tm' tr' k :
  resolve now trade_id r tm = Ok (tm', tr') ->
  is_Some (PyDict.get (TradeManager.trades tm) k) ->
  is_Some (PyDict.get (TradeManager.trades tm') k).
Proof.
  destruct (PyDict.get (TradeManager.trades tm) trade_id) as [tr|] eqn:E;
    [|now rewrite (resolve_absent _ _ _ _ E)].
  rewrite (resolve_present _ _ _ _ _ E). intros [= <- _] Hk.
  cbn [TradeManager.trades].
  destruct (decide (k = trade_id)) as [->|Hne].
  - rewrite PyDictFacts.get_setitem_eq. eauto.
  - now rewrite PyDictFacts.get_setitem_ne by congruence.
Qed.

(** In a ledger that keeps the invariant, an open trade is found under its
    own id. *)
Lemma open_trade_is_key tm trade :
  ids_issued tm ->
  trade ∈ TradeManager.get_open_trades tm ->
  PyDict.get (TradeManager.trades tm) (Trade.trade_id trade) = Some trade.
Proof.
  intros (_ & Hnd & Hk) Hin. unfold TradeManager.get_open_trades in Hin.
  apply list_elem_of_filter in Hin as [_ Hin].
  apply list_elem_of_In, in_map_iff in Hin as ([k tr] & E & Hin).
  simpl in E. subst tr. apply list_elem_of_In in Hin.
  destruct (Hk _ _ Hin) as [-> _]. now apply PyDictFacts.elem_get.
Qed.

(** [_execute_cutloss] on a position of the ledger is [resolve_cutloss],
    then the reference price of the asset is cleared and the market leaves
    the pending set. *)
Lemma _execute_cutloss_effect venue now render trade reason st :
  is_Some (PyDict.get (TradeManager.trades (Strategy.tm st))
             (Trade.trade_id trade)) ->
  exists sold tm' tr',
    resolve now (Trade.trade_id trade) (Cutloss sold (render reason))
      (Strategy.tm st) = Ok (tm', tr') /\
    Strategy._execute_cutloss venue now render trade reason st
    = (Ok tt,
       Strategy.with_pending
         (Strategy._pending_outcomes st ∖ {[Trade.condition_id trade]})
         (Strategy.with_monitor
            (BinancePriceMonitor.clear_reference_price (Trade.asset trade)
               (Strategy.binance_monitor st))
            (Strategy.with_tm tm' st))).
Proof.
  intros [tr Htr].
  pose proof (_execute_cutloss_present venue now render trade reason st tr Htr)
    as Hrun. cbv zeta in Hrun.
  eexists _, _, _. split.
  - apply resolve_present, Htr.
  - rewrite Hrun. reflexivity.
Qed.

Lemma pinned_clear_reference_price a asset st tm' pend :
  pinned a
    (Strategy.with_pending pend
       (Strategy.with_monitor
          (BinancePriceMonitor.clear_reference_price asset
             (Strategy.binance_monitor st))
          (Strategy.with_tm tm' st)))
  = if decide (asset = a) then None else pinned a st.
Proof.
  unfold pinned, BinancePriceMonitor.clear_reference_price. simpl.
  destruct (decide (asset = a)) as [->|Hne].
  - apply lookup_delete_eq.
  - now apply lookup_delete_ne.
Qed.

(** One open trade of the monitor loop. *)
Lemma monitor_one_effect cfg venue now render trade a st :
  is_Some (PyDict.get (TradeManager.trades (Strategy.tm st))
             (Trade.trade_id trade)) ->
  (forall k,
     is_Some (PyDict.get (TradeManager.trades (Strategy.tm st)) k) ->
     is_Some (PyDict.get
                (TradeManager.trades
                   (Strategy.tm
                      (snd (Strategy.monitor_one cfg venue now render trade st))))
                k)) /\
  (forall k,
     closed k (Strategy.tm st) ->
     closed k
       (Strategy.tm (snd (Strategy.monitor_one cfg venue now render trade st)))) /\
  (pinned a (snd (Strategy.monitor_one cfg venue now render trade st))
   = pinned a st \/
   Trade.asset trade = a /\
   pinned a (snd (Strategy.monitor_one cfg venue now render trade st)) = None /\
   closed (Trade.trade_id trade)
     (Strategy.tm (snd (Strategy.monitor_one cfg venue now render trade st)))).
Proof.
  intros Hkey. unfold Strategy.monitor_one.
  destruct (F.geb now _); [simpl; auto|].
  unfold mbind, Strategy.M_bind, Strategy.bind, Strategy.get.
  destruct (Strategy._check_cutloss cfg venue trade st) as [reason|];
    [|simpl; auto].
  destruct (_execute_cutloss_effect venue now render trade reason st Hkey)
    as (sold & tm' & tr' & Hres & ->).
  cbn [snd]. rewrite pinned_clear_reference_price.
  cbn [Strategy.tm Strategy.with_pending Strategy.with_monitor
       Strategy.with_tm].
  split; [intros k; apply (keys_resolve _ _ _ _ _ _ _ Hres)|].
  split; [intros k Hk; apply (closed_resolve _ _ _ _ _ _ _ Hres); now left|].
  destruct (decide (Trade.asset trade = a)) as [Ha|Hne]; [|now left].
  right. split; [exact Ha|]. split; [reflexivity|].
  apply (closed_resolve _ _ _ _ _ _ _ Hres). now right.
Qed.

(** A turn of the monitor changes the reference price of an asset only by
    cutting a position on that asset that was open, and clears it. *)
Lemma monitor_pin cfg venue now render st a :
  ids_issued (Strategy.tm st) ->
  pinned a (snd (Strategy.position_monitor_cycle cfg venue now render st))
  = pinned a st \/
  pinned a (snd (Strategy.position_monitor_cycle cfg venue now render st))
  = None /\
  exists trade,
    trade ∈ TradeManager.get_open_trades (Strategy.tm st) /\
    Trade.asset trade = a /\
    closed (Trade.trade_id trade)
      (Strategy.tm
         (snd (Strategy.position_monitor_cycle cfg venue now render st))).
Proof.
  intros Hwf.
  assert (snd (Strategy.position_monitor_cycle cfg venue now render st)
          = snd (Strategy.for_each
                   (TradeManager.get_open_trades (Strategy.tm st))
                   (Strategy.monitor_one cfg venue now render) st)) as ->
    by reflexivity.
  set (I := fun s : Strategy.t =>
    (forall k,
       is_Some (PyDict.get (TradeManager.trades (Strategy.tm st)) k) ->
       is_Some (PyDict.get (TradeManager.trades (Strategy.tm s)) k)) /\
    (pinned a s = pinned a st \/
     pinned a s = None /\
     exists trade,
       trade ∈ TradeManager.get_open_trades (Strategy.tm st) /\
       Trade.asset trade = a /\
       closed (Trade.trade_id trade) (Strategy.tm s))).
  assert (I (snd (Strategy.for_each
                    (TradeManager.get_open_trades (Strategy.tm st))
                    (Strategy.monitor_one cfg venue now render) st)))
    as [_ H]; [|exact H].
  apply for_each_preserves; [|split; auto].
  intros trade s Hin (Hkeys & Hpin).
  assert (is_Some (PyDict.get (TradeManager.trades (Strategy.tm s))
                     (Trade.trade_id trade))) as Hkey
    by (apply Hkeys; rewrite (open_trade_is_key _ _ Hwf Hin); eauto).
  destruct (monitor_one_effect cfg venue now render trade a s Hkey)
    as (Hkeys' & Hmono & Hpin').
  split; [auto|].
  destruct Hpin' as [Hsame | (Ha & Hp & Hcl)].
  - rewrite Hsame.
    destruct Hpin as [Hs | (Hp & trade0 & Hin0 & Ha0 & Hcl0)]; [now left|].
    right. split; [exact Hp|]. exists trade0. auto.
  - right. split; [exact Hp|]. exists trade. auto.
Qed.

Lemma resolve_key_ok now trade_id r tm :
  is_Some (PyDict.get (TradeManager.trades tm) trade_id) ->
  exists tm' tr', resolve now trade_id r tm = Ok (tm', tr').
Proof. intros [tr E]. rewrite (resolve_present _ _ _ _ _ E). eauto. Qed.

(** The loop of the outcome pass. *)
Lemma _check_outcomes_loop_effect venue now a open_trades :
  forall acc st,
    (forall trade, trade ∈ open_trades ->
       is_Some (PyDict.get (TradeManager.trades (Strategy.tm st))
                  (Trade.trade_id trade))) ->
    (forall k,
       is_Some (PyDict.get (TradeManager.trades (Strategy.tm st)) k) ->
       is_Some (PyDict.get
                  (TradeManager.trades
                     (Strategy.tm
                        (snd (Strategy._check_outcomes_loop venue now
                                open_trades acc st)))) k)) /\
    (forall k,
       closed k (Strategy.tm st) ->
       closed k
         (Strategy.tm
            (snd (Strategy._check_outcomes_loop venue now open_trades acc st)))) /\
    (pinned a (snd (Strategy._check_outcomes_loop venue now open_trades acc st))
     = pinned a st \/
     pinned a (snd (Strategy._check_outcomes_loop venue now open_trades acc st))
     = None /\
     exists trade,
       trade ∈ open_trades /\ Trade.asset trade = a /\
       closed (Trade.trade_id trade)
         (Strategy.tm
            (snd (Strategy._check_outcomes_loop venue now open_trades acc st)))).
Proof.
  induction open_trades as [|trade rest IH]; intros acc st Hkeys;
    [simpl; auto|].
  assert (forall acc' st',
            (forall k,
               is_Some (PyDict.get (TradeManager.trades (Strategy.tm st)) k) ->
               is_Some (PyDict.get (TradeManager.trades (Strategy.tm st')) k)) ->
            (forall k, closed k (Strategy.tm st) -> closed k (Strategy.tm st')) ->
            (pinned a st' = pinned a st \/
             Trade.asset trade = a /\ pinned a st' = None /\
             closed (Trade.trade_id trade) (Strategy.tm st')) ->
            (forall k,
               is_Some (PyDict.get (TradeManager.trades (Strategy.tm st)) k) ->
               is_Some (PyDict.get
                  (TradeManager.trades
                     (Strategy.tm
                        (snd (Strategy._check_outcomes_loop venue now rest
                                acc' st')))) k)) /\
            (forall k,
               closed k (Strategy.tm st) ->
               closed k
                 (Strategy.tm
                    (snd (Strategy._check_outcomes_loop venue now rest acc'
                            st')))) /\
            (pinned a (snd (Strategy._check_outcomes_loop venue now rest acc'
                              st')) = pinned a st \/
             pinned a (snd (Strategy._check_outcomes_loop venue now rest acc'
                              st')) = None /\
             exists trade0,
               trade0 ∈ trade :: rest /\ Trade.asset trade0 = a /\
               closed (Trade.trade_id trade0)
                 (Strategy.tm
                    (snd (Strategy._check_outcomes_loop venue now rest acc'
                            st'))))) as Hnext.
  { intros acc' st' Hk Hc Hp.
    destruct (IH acc' st') as (Hk' & Hc' & Hp').
    { intros t Ht. apply Hk, Hkeys, elem_of_cons. now right. }
    split; [auto|]. split; [auto|].
    destruct Hp' as [Hsame | (Hnone & t & Ht & Ha & Hcl)].
    - rewrite Hsame. destruct Hp as [Hp | (Ha & Hnone & Hcl)]; [now left|].
      right. split; [exact Hnone|]. exists trade.
      split; [apply elem_of_cons; now left|]. auto.
    - right. split; [exact Hnone|]. exists t.
      split; [apply elem_of_cons; now right|]. auto. }
  simpl. unfold mbind, Strategy.M_bind, Strategy.bind, Strategy.get.
  destruct (bool_decide _); [apply Hnext; auto|].
  destruct (now <? _)%float; [apply Hnext; auto|].
  destruct (PolymarketClient.check_market_resolved venue _) as [outcome|];
    [|apply Hnext; auto].
  unfold Strategy.modify, Strategy.call_tm.
  assert (is_Some (PyDict.get (TradeManager.trades (Strategy.tm st))
                     (Trade.trade_id trade))) as Hkey
    by (apply Hkeys, elem_of_cons; now left).
  destruct (resolve_key_ok now (Trade.trade_id trade)
              (if String.eqb outcome "YES" then Win else Loss)
              (Strategy.tm st) Hkey) as (tm' & tr' & Hres).
  pose proof Hres as Hrun.
  destruct (String.eqb outcome "YES"); cbn [resolve] in Hrun; cbv beta;
    cbn [Strategy.tm Strategy.with_monitor]; rewrite Hrun;
    (apply Hnext;
     [ intros k; apply (keys_resolve _ _ _ _ _ _ _ Hres)
     | intros k Hk; apply (closed_resolve _ _ _ _ _ _ _ Hres); now left
     | unfold pinned, BinancePriceMonitor.clear_reference_price; simpl;
       destruct (decide (Trade.asset trade = a)) as [Ha|Hne];
       [ right; split; [exact Ha|]; split;
         [ rewrite Ha; apply lookup_delete_eq
         | apply (closed_resolve _ _ _ _ _ _ _ Hres); now right ]
       | left; now apply lookup_delete_ne ] ]).
Qed.

(** A turn of the outcome checker is the loop, then an update of the
    pending set. *)
Lemma outcome_checker_cycle_run venue now st :
  exists pend,
    snd (Strategy.outcome_checker_cycle venue now st)
    = Strategy.with_pending pend
        (snd (Strategy._check_outcomes_loop venue now
                (TradeManager.get_open_trades (Strategy.tm st)) ∅ st)).
Proof.
  unfold Strategy.outcome_checker_cycle, Strategy.try_except,
    Strategy._check_outcomes.
  unfold mbind, Strategy.M_bind, Strategy.bind, Strategy.get. cbn [snd].
  destruct (Strategy._check_outcomes_loop venue now _ ∅ st) as [[ids|e] st'];
    cbn [snd].
  - eexists. reflexivity.
  - eexists. symmetry. apply with_pending_same.
Qed.

(** A turn of the outcome checker changes the reference price of an asset
    only by resolving a position on that asset that was open, and clears
    it. *)
Lemma outcomes_pin venue now st a :
  ids_issued (Strategy.tm st) ->
  pinned a (snd (Strategy.outcome_checker_cycle venue now st)) = pinned a st \/
  pinned a (snd (Strategy.outcome_checker_cycle venue now st)) = None /\
  exists trade,
    trade ∈ TradeManager.get_open_trades (Strategy.tm st) /\
    Trade.asset trade = a /\
    closed (Trade.trade_id trade)
      (Strategy.tm (snd (Strategy.outcome_checker_cycle venue now st))).
Proof.
  intros Hwf. destruct (outcome_checker_cycle_run venue now st) as [pend ->].
  destruct (_check_outcomes_loop_effect venue now a
              (TradeManager.get_open_trades (Strategy.tm st)) ∅ st)
    as (_ & _ & H).
  - intros trade Hin. rewrite (open_trade_is_key _ _ Hwf Hin). eauto.
  - exact H.
Qed.

(** C7 (amended).  The reference price is kept per asset, not per position.
    In a running process, the reference price of an asset changes only in
    these ways: a turn of the scanner enters a market of that asset, and the
    reference becomes the spot price of that moment; or a turn of the monitor
    or of the outcome checker closes a position on that asset that was open,
    and the reference is cleared.  A price tick never changes it.  (So it is
    pinned once and cleared once for a position as long as no other position
    on the same asset is entered or closed while that position is open.) *)
Theorem C7_reference_price_is_per_asset cfg render venue e st a :
  reachable (Strategy.tm st) ->
  pinned a (step cfg render venue e st) <> pinned a st ->
  match e with
  | EvTick _ _ _ => False
  | EvScan _ =>
      pinned a (step cfg render venue e st) = spot a st /\
      exists market,
        market ∈ scanned venue st /\
        MarketInfo.asset market = a /\
        TradeManager.already_traded (MarketInfo.condition_id market)
          (Strategy.tm (step cfg render venue e st)) = true /\
        TradeManager.already_traded (MarketInfo.condition_id market)
          (Strategy.tm st) = false
  | EvMonitor _ | EvOutcomes _ =>
      pinned a (step cfg render venue e st) = None /\
      exists trade,
        trade ∈ TradeManager.get_open_trades (Strategy.tm st) /\
        Trade.asset trade = a /\
        closed (Trade.trade_id trade)
          (Strategy.tm (step cfg render venue e st))
  end.
Proof.
  intros Hr Hne. apply reachable_ids_issued in Hr.
  destruct e as [now asset price | now | now | now]; cbn [step] in *.
  - apply Hne. reflexivity.
  - destruct (scan_pin cfg venue now st a Hr) as [H|H];
      [contradiction | exact H].
  - destruct (monitor_pin cfg venue now render st a Hr) as [H|H];
      [contradiction | exact H].
  - destruct (outcomes_pin venue now st a Hr) as [H|H];
      [contradiction | exact H].
Qed.

(** The scan at 950 of the two-market scenario: the BTC reference goes from
    nothing to the spot price, and the long market has been entered. *)
Lemma C7_reference_price_is_per_asset_witness :
  pinned "BTC" after_first_entry = spot "BTC" strategy_idle /\
  exists market,
    market ∈ scanned venue_two_markets strategy_idle /\
    MarketInfo.asset market = "BTC" /\
    TradeManager.already_traded (MarketInfo.condition_id market)
      (Strategy.tm after_first_entry) = true /\
    TradeManager.already_traded (MarketInfo.condition_id market)
      (Strategy.tm strategy_idle) = false.
Proof.
  apply (C7_reference_price_is_per_asset Config.default sample_render
           venue_two_markets (EvScan 950%float) strategy_idle "BTC").
  - exists 100%float, []. reflexivity.
  - vm_compute. discriminate.
Defined.

(* ===================================================================== *)
(** * More on the ledger *)
(* ===================================================================== *)

(** X1.  Crash recovery: a ledger built from the file that a ledger of a
    running process wrote is that ledger again, positions in the same order,
    counter and balance included; the starting balance passed to the
    constructor is overridden by the one in the file. *)
Theorem X1_ledger_survives_restart sb tm :
  reachable tm ->
  TradeManager.__init__ sb (Some (TradeManager._save tm)) = tm.
Proof. intros Hr. apply restart_same, reachable_ids_issued, Hr. Qed.

Lemma X1_ledger_survives_restart_witness :
  TradeManager.__init__ 0%float (Some (TradeManager._save sample_won))
  = sample_won.
Proof.
  apply (X1_ledger_survives_restart 0%float sample_won).
  exists 100%float,
    [OpOpen 900%float sample_params; OpResolve 1010%float "T0001" Win].
  reflexivity.
Defined.

(** X2.  In a ledger of a running process, [open_trade] issues an id that
    is not in use, puts the new position last, and leaves every position
    already there as it was. *)
Theorem X2_open_trade_appends_under_a_new_id now p tm :
  reachable tm ->
  PyDict.get (TradeManager.trades tm)
    (Trade.trade_id (snd (TradeManager.open_trade now p tm))) = None /\
  TradeManager.trades (fst (TradeManager.open_trade now p tm))
  = (TradeManager.trades tm ++
     [(Trade.trade_id (snd (TradeManager.open_trade now p tm)),
       snd (TradeManager.open_trade now p tm))])%list /\
  Trade.status (snd (TradeManager.open_trade now p tm)) = "open".
Proof.
  intros Hr. apply reachable_ids_issued in Hr.
  split; [exact (new_id_fresh tm Hr)|].
  split; [exact (open_trade_appends now p tm Hr) | reflexivity].
Qed.

Lemma X2_open_trade_appends_under_a_new_id_witness :
  PyDict.get (TradeManager.trades sample_won)
    (Trade.trade_id (snd (TradeManager.open_trade 1100%float sample_params
                            sample_won))) = None /\
  TradeManager.trades
    (fst (TradeManager.open_trade 1100%float sample_params sample_won))
  = (TradeManager.trades sample_won ++
     [(Trade.trade_id (snd (TradeManager.open_trade 1100%float sample_params
                              sample_won)),
       snd (TradeManager.open_trade 1100%float sample_params sample_won))])%list /\
  Trade.status (snd (TradeManager.open_trade 1100%float sample_params
                       sample_won)) = "open".
Proof.
  apply (X2_open_trade_appends_under_a_new_id 1100%float sample_params
           sample_won).
  exists 100%float,
    [OpOpen 900%float sample_params; OpResolve 1010%float "T0001" Win].
  reflexivity.
Defined.

(** X3.  A resolution that returns rewrites the position under its id and
    nothing else: the ids and their order, the counter and every other
    position stay, and in the rewritten position only status, sell price,
    profit, resolution time and cut-loss reason can differ. *)
Theorem X3_resolve_touches_one_position now trade_id r tm tm' tr' :
  resolve now trade_id r tm = Ok (tm', tr') ->
  PyDict.keys (TradeManager.trades tm') = PyDict.keys (TradeManager.trades tm) /\
  TradeManager._trade_counter tm' = TradeManager._trade_counter tm /\
  (forall k, k <> trade_id ->
     PyDict.get (TradeManager.trades tm') k
     = PyDict.get (TradeManager.trades tm) k) /\
  PyDict.get (TradeManager.trades tm') trade_id = Some tr' /\
  exists tr,
    PyDict.get (TradeManager.trades tm) trade_id = Some tr /\
    tr' = Trade.close tr (Trade.status tr')
            (default 0%float (Trade.sell_price tr'))
            (default 0%float (Trade.pnl_usdc tr')) now
            (Trade.cutloss_reason tr').
Proof.
  destruct (PyDict.get (TradeManager.trades tm) trade_id) as [tr|] eqn:E;
    [|now rewrite (resolve_absent _ _ _ _ E)].
  rewrite (resolve_present _ _ _ _ _ E). intros [= <- <-].
  cbn [TradeManager.trades TradeManager._trade_counter].
  split; [apply PyDictFacts.keys_setitem_present; eauto|].
  split; [reflexivity|].
  split; [intros k Hk; apply PyDictFacts.get_setitem_ne; congruence|].
  split; [apply PyDictFacts.get_setitem_eq|].
  exists tr. split; reflexivity.
Qed.

Lemma X3_resolve_touches_one_position_witness :
  PyDict.keys (TradeManager.trades sample_won)
  = PyDict.keys (TradeManager.trades sample_open).
Proof.
  apply (X3_resolve_touches_one_position 1010%float "T0001" Win sample_open
           sample_won
           (Trade.close sample_trade "win" 1%float
              (10.309 * (1 - 0.97))%float 1010%float None)).
  vm_compute. reflexivity.
Defined.

(** ** Statuses and statistics *)

Lemma statuses_known_apply_op tm o :
  ids_issued tm -> statuses_known tm -> statuses_known (apply_op tm o).
Proof.
  intros Hwf Hs. unfold statuses_known in *.
  destruct o as [now p | now trade_id r | b | sb]; cbn [apply_op].
  - rewrite (open_trade_appends now p tm Hwf).
    unfold PyDict.values. rewrite map_app. apply Forall_app. split; [exact Hs|].
    apply Forall_cons. split; [now left | apply Forall_nil; exact I].
  - destruct (PyDict.get (TradeManager.trades tm) trade_id) as [tr|] eqn:E.
    + rewrite (resolve_present _ _ _ _ _ E). cbn [TradeManager.trades].
      destruct (PyDictFacts.setitem_present _ _
                  (Trade.close tr (terminal_status r) (recorded_sell_price r)
                     (recorded_pnl r tr) now
                     match r with
                     | Cutloss _ reason => Some reason
                     | _ => Trade.cutloss_reason tr
                     end) _ E) as (d1 & d2 & Hd & -> & _).
      rewrite Hd in Hs. unfold PyDict.values in *.
      rewrite map_app, Forall_app in *. cbn [map] in *.
      rewrite Forall_cons in *. destruct Hs as (H1 & _ & H2).
      split; [exact H1|]. split; [|exact H2].
      destruct r; simpl; auto.
    + now rewrite (resolve_absent _ _ _ _ E).
  - exact Hs.
  - now rewrite restart_same.
Qed.

Lemma reachable_statuses_known tm : reachable tm -> statuses_known tm.
Proof.
  intros (sb & ops & ->).
  assert (forall ops tm,
            ids_issued tm -> statuses_known tm -> statuses_known (run ops tm))
    as Hrun.
  { clear. induction ops as [|o ops IH]; intros tm Hwf Hs; [exact Hs|].
    simpl. apply IH; [apply ids_issued_apply_op, Hwf|].
    now apply statuses_known_apply_op. }
  apply Hrun; [apply ids_issued_init|]. apply Forall_nil. exact I.
Qed.

(** X4.  The counts of [get_stats] add up: in a ledger of a running process
    every trade is counted once, as open, as a win, or as a loss (a cut-loss
    counts as a loss). *)
Theorem X4_stats_add_up py_sum tm :
  reachable tm ->
  TradeManager.stat_total_trades (TradeManager.get_stats py_sum tm)
  = (TradeManager.stat_open (TradeManager.get_stats py_sum tm)
     + TradeManager.stat_wins (TradeManager.get_stats py_sum tm)
     + TradeManager.stat_losses (TradeManager.get_stats py_sum tm))%nat.
Proof.
  intros Hr. apply reachable_statuses_known in Hr.
  unfold TradeManager.get_stats, TradeManager.get_open_trades. simpl.
  unfold statuses_known, PyDict.values in *.
  rewrite <- (length_map snd (TradeManager.trades tm)).
  induction (map snd (TradeManager.trades tm)) as [|tr l IH]; [reflexivity|].
  apply Forall_cons in Hr as [Htr Hl]. specialize (IH Hl).
  rewrite !filter_cons. unfold Trade.is_open in *.
  destruct Htr as [E|[E|[E|E]]]; rewrite E; simpl;
    repeat (case_decide; try congruence; try discriminate);
    rewrite ?filter_cons; simpl; rewrite ?E; simpl;
    repeat (case_decide; try congruence; try discriminate);
    simpl; lia.
Qed.

Lemma X4_stats_add_up_witness :
  TradeManager.stat_total_trades
    (TradeManager.get_stats (fun l => fold_left PrimFloat.add l 0%float)
       sample_won)
  = (TradeManager.stat_open
       (TradeManager.get_stats (fun l => fold_left PrimFloat.add l 0%float)
          sample_won)
     + TradeManager.stat_wins
         (TradeManager.get_stats (fun l => fold_left PrimFloat.add l 0%float)
            sample_won)
     + TradeManager.stat_losses
         (TradeManager.get_stats (fun l => fold_left PrimFloat.add l 0%float)
            sample_won))%nat.
Proof.
  apply (X4_stats_add_up (fun l => fold_left PrimFloat.add l 0%float)
           sample_won).
  exists 100%float,
    [OpOpen 900%float sample_params; OpResolve 1010%float "T0001" Win].
  reflexivity.
Defined.

(** X5.  [get_open_by_condition] answers with an open position on the
    market when there is one, and with [None] only when no open position is
    on that market. *)
Theorem X5_get_open_by_condition condition_id tm :
  match TradeManager.get_open_by_condition condition_id tm with
  | Some tr =>
      tr ∈ TradeManager.get_open_trades tm /\
      Trade.condition_id tr = condition_id
  | None =>
      forall tr, tr ∈ TradeManager.get_open_trades tm ->
                 Trade.condition_id tr <> condition_id
  end.
Proof.
  unfold TradeManager.get_open_by_condition, TradeManager.get_open_trades.
  destruct (List.find _ _) as [tr|] eqn:E.
  - apply find_some in E as [Hin Hb]. apply andb_true_iff in Hb as [Hc Ho].
    split; [|now apply String.eqb_eq].
    apply list_elem_of_filter. split; [exact Ho | now apply list_elem_of_In].
  - intros tr Hin Hc. apply list_elem_of_filter in Hin as [Ho Hin].
    apply list_elem_of_In in Hin.
    pose proof (find_none _ _ E tr Hin) as Hb. simpl in Hb.
    rewrite Ho, andb_true_r in Hb. apply String.eqb_neq in Hb. contradiction.
Qed.

(** What [_load] finds under an id: the last trade of the document with
    that id, or what was there before. *)
Lemma load_last_wins (l : list Trade.t) :
  forall d0 k,
    PyDict.get
      (fold_left (fun acc tr => PyDict.setitem acc (Trade.trade_id tr) tr) l d0)
      k
    = match List.find (fun tr => String.eqb (Trade.trade_id tr) k) (rev l) with
      | Some tr => Some tr
      | None => PyDict.get d0 k
      end.
Proof.
  induction l as [|tr l IH] using rev_ind; intros d0 k; [reflexivity|].
  rewrite fold_left_app, rev_app_distr. simpl.
  destruct (String.eqb (Trade.trade_id tr) k) eqn:E.
  - apply String.eqb_eq in E as <-. apply PyDictFacts.get_setitem_eq.
  - apply String.eqb_neq in E.
    rewrite PyDictFacts.get_setitem_ne by exact E. apply IH.
Qed.

(** X6.  Loading a document: the balance and the counter of the file are
    taken when they are there (the starting balance, and zero, when they are
    not), and under each id the ledger holds the last trade of the document
    with that id, later entries overwriting earlier ones. *)
Theorem X6_load_document sb doc k :
  TradeManager.balance (TradeManager.__init__ sb (Some doc))
  = default sb (Document.balance doc) /\
  TradeManager._trade_counter (TradeManager.__init__ sb (Some doc))
  = default 0%Z (Document.counter doc) /\
  PyDict.get (TradeManager.trades (TradeManager.__init__ sb (Some doc))) k
  = List.find (fun tr => String.eqb (Trade.trade_id tr) k)
      (rev (Document.trades doc)).
Proof.
  split; [reflexivity|]. split; [reflexivity|].
  unfold TradeManager.__init__, TradeManager._load.
  cbn [TradeManager.trades]. rewrite load_last_wins.
  now destruct (List.find _ _).
Qed.

(* ===================================================================== *)
(** * More on the price monitor *)
(* ===================================================================== *)

Lemma history_process_tick now asset price mon a :
  history a (BinancePriceMonitor._process_tick now asset price mon)
  = if decide (asset = a)
    then (if (120 <? List.length (history a mon ++ [(now, price)]))%nat
          then tail (history a mon ++ [(now, price)])
          else history a mon ++ [(now, price)])%list
    else history a mon.
Proof.
  unfold history, BinancePriceMonitor._process_tick. simpl.
  destruct (decide (asset = a)) as [->|Hne].
  - now rewrite lookup_insert_eq.
  - now rewrite lookup_insert_ne.
Qed.

Lemma history_length ticks asset :
  List.length (history asset (feed ticks BinancePriceMonitor.__init__))
  = Nat.min (ticks_on asset ticks) 120.
Proof.
  assert (forall ticks mon n,
            List.length (history asset mon) = Nat.min n 120 ->
            List.length (history asset (feed ticks mon))
            = Nat.min (n + ticks_on asset ticks) 120) as H.
  { clear. induction ticks as [|[[now a] price] ticks IH]; intros mon n Hn.
    - unfold ticks_on. simpl. now rewrite Nat.add_0_r.
    - unfold feed in *. simpl.
      unfold ticks_on in *. simpl.
      destruct (String.eqb_spec a asset) as [->|Hne]; simpl.
      + rewrite (IH _ (S n)); [f_equal; lia|].
        rewrite history_process_tick, decide_True by reflexivity.
        rewrite length_app. simpl.
        destruct (Nat.ltb_spec 120 (List.length (history asset mon) + 1)).
        * destruct (history asset mon) as [|x h]; simpl in *; [lia|].
          rewrite length_app. simpl. lia.
        * rewrite length_app. simpl. lia.
      + apply IH. rewrite history_process_tick, decide_False by exact Hne.
        exact Hn. }
  apply (H ticks BinancePriceMonitor.__init__ 0). reflexivity.
Qed.

(** X7.  The history of an asset holds one entry per tick received on it,
    up to 120: older entries are dropped one by one, the list never grows
    past 120 entries. *)
Theorem X7_history_is_bounded ticks asset :
  List.length (history asset (feed ticks BinancePriceMonitor.__init__))
  = Nat.min (ticks_on asset ticks) 120 /\
  (List.length (history asset (feed ticks BinancePriceMonitor.__init__))
   <= 120)%nat.
Proof. rewrite history_length. split; [reflexivity | lia]. Qed.

(** X8.  A tick sets the spot price of its asset and nothing else of what
    the strategy reads: the spot prices and histories of the other assets
    and every reference price stay. *)
Theorem X8_tick_touches_one_asset now asset price mon :
  BinancePriceMonitor.get_price asset
    (BinancePriceMonitor._process_tick now asset price mon) = Some price /\
  BinancePriceMonitor.price_at_buy
    (BinancePriceMonitor._process_tick now asset price mon)
  = BinancePriceMonitor.price_at_buy mon /\
  forall a, a <> asset ->
    BinancePriceMonitor.get_price a
      (BinancePriceMonitor._process_tick now asset price mon)
    = BinancePriceMonitor.get_price a mon /\
    history a (BinancePriceMonitor._process_tick now asset price mon)
    = history a mon.
Proof.
  unfold BinancePriceMonitor.get_price.
  split; [simpl; apply lookup_insert_eq|]. split; [reflexivity|].
  intros a Hne. split.
  - simpl. apply lookup_insert_ne. congruence.
  - rewrite history_process_tick. apply decide_False. congruence.
Qed.

(** X9.  Right after the reference price of an asset is set, and before the
    next tick, the change since entry is zero or unavailable, and the
    feed-side test of a position on that asset does not fire for a positive
    threshold. *)
Theorem X9_no_feed_cutloss_before_the_next_tick cfg trade mon price :
  BinancePriceMonitor.get_price (Trade.asset trade) mon = Some price ->
  F.finite price = true ->
  (0 <? Config.CUTLOSS_BINANCE_PCT cfg)%float = true ->
  Strategy.feed_side cfg trade
    (BinancePriceMonitor.get_change_pct (Trade.asset trade)
       (BinancePriceMonitor.set_reference_price (Trade.asset trade) mon))
  = None.
Proof.
  unfold BinancePriceMonitor.get_price. intros Hp Hfin Hthr.
  unfold BinancePriceMonitor.set_reference_price,
    BinancePriceMonitor.get_change_pct.
  rewrite Hp. simpl. rewrite Hp, lookup_insert_eq.
  destruct (price =? 0)%float eqn:Ez; [reflexivity|].
  destruct (FloatFacts.zero_div_finite _ _ price
              (FloatFacts.sub_diag_finite price Hfin) Hfin Ez) as [s Hs].
  destruct (FloatFacts.zero_is_no_move _ _ _ Hs Hthr) as [Hdrop Hrise].
  unfold Strategy.feed_side, F.geb. rewrite Hdrop, Hrise.
  now rewrite !andb_false_r.
Qed.

Lemma X9_no_feed_cutloss_before_the_next_tick_witness :
  Strategy.feed_side Config.default sample_trade
    (BinancePriceMonitor.get_change_pct (Trade.asset sample_trade)
       (BinancePriceMonitor.set_reference_price (Trade.asset sample_trade)
          feed_at_entry))
  = None.
Proof.
  apply (X9_no_feed_cutloss_before_the_next_tick Config.default sample_trade
           feed_at_entry 50000%float); vm_compute; reflexivity.
Defined.

(** X10.  The one-minute trend is unavailable until ten ticks of the asset
    have come in, whatever the clock. *)
Theorem X10_trend_needs_ten_ticks ticks asset now :
  (ticks_on asset ticks < 10)%nat ->
  BinancePriceMonitor.get_1min_trend now asset
    (feed ticks BinancePriceMonitor.__init__) = None.
Proof.
  intros Hn. unfold BinancePriceMonitor.get_1min_trend.
  fold (history asset (feed ticks BinancePriceMonitor.__init__)).
  rewrite history_length.
  destruct (Nat.ltb_spec (Nat.min (ticks_on asset ticks) 120) 10);
    [reflexivity | lia].
Qed.

Lemma X10_trend_needs_ten_ticks_witness :
  BinancePriceMonitor.get_1min_trend 1000%float "BTC"
    (feed [(890%float, "BTC", 50000%float)] BinancePriceMonitor.__init__)
  = None.
Proof.
  apply (X10_trend_needs_ten_ticks [(890%float, "BTC", 50000%float)] "BTC"
           1000%float).
  vm_compute. lia.
Defined.

(* ===================================================================== *)
(** * More on the venue *)
(* ===================================================================== *)

Lemma levels_Some side ls :
  PolymarketClient.levels side = Some ls <-> Forall2 reads_as side ls.
Proof.
  revert ls. induction side as [|l side IH]; intros ls; cbn [PolymarketClient.levels].
  - split.
    + intros [= <-]. constructor.
    + intros H. apply Forall2_nil_inv_l in H. now subst.
  - split.
    + destruct (PolymarketClient.level_price l) as [p|] eqn:Ep; [|discriminate].
      destruct (PolymarketClient.level_size l) as [sz|] eqn:Es; [|discriminate].
      destruct (PolymarketClient.levels side) as [ls'|]; [|discriminate].
      intros [= <-]. constructor; [now split | now apply IH].
    + intros H. apply Forall2_cons_inv_l in H as ([p sz] & ls' & [Ep Es] & Hls & ->).
      cbn in Ep, Es. rewrite Ep, Es.
      now rewrite (proj2 (IH ls') Hls).
Qed.

Lemma levels_None side :
  PolymarketClient.levels side = None <-> forallb readable side = false.
Proof.
  induction side as [|l side IH]; cbn [PolymarketClient.levels forallb].
  - split; discriminate.
  - unfold readable at 1.
    destruct (PolymarketClient.level_price l), (PolymarketClient.level_size l);
      cbn [andb]; try (split; reflexivity).
    destruct (PolymarketClient.levels side).
    + split; [discriminate|]. intros H. apply IH in H. discriminate.
    + split; [intros _; now apply IH | reflexivity].
Qed.

(** X11.  What [get_orderbook_depth] returns.  Each side has at most five
    levels, and the spread is there exactly when both sides have a level; it
    is then the first ask minus the first bid.  When the request returns and
    the first five levels of both sides are readable, the sides are those
    levels, in order, and levels past the fifth play no part.  When the
    request fails, or the price or the size of one of those levels cannot be
    read, both sides are empty and there is no spread, whatever the other
    levels say. *)
Theorem X11_orderbook_depth venue token_id :
  let depth := PolymarketClient.get_orderbook_depth venue token_id in
  (List.length (PolymarketClient.bids depth) <= 5)%nat /\
  (List.length (PolymarketClient.asks depth) <= 5)%nat /\
  PolymarketClient.spread depth
  = match PolymarketClient.asks depth, PolymarketClient.bids depth with
    | a :: _, b :: _ => Some (fst a - fst b)%float
    | _, _ => None
    end /\
  (forall b,
     PolymarketClient.book_for_depth venue token_id = Some b ->
     depth_answer_ok venue token_id = true ->
     Forall2 reads_as (take 5 (PolymarketClient.book_bids b))
       (PolymarketClient.bids depth) /\
     Forall2 reads_as (take 5 (PolymarketClient.book_asks b))
       (PolymarketClient.asks depth)) /\
  (depth_answer_ok venue token_id = false ->
   depth = {| PolymarketClient.bids := []; PolymarketClient.asks := [];
              PolymarketClient.spread := None |}).
Proof.
  unfold depth_answer_ok, PolymarketClient.get_orderbook_depth. cbv zeta.
  destruct (PolymarketClient.book_for_depth venue token_id) as [b|];
    [|cbn; repeat split; try lia; discriminate].
  destruct (PolymarketClient.levels (take 5 (PolymarketClient.book_bids b)))
    as [bs|] eqn:Eb.
  - destruct (PolymarketClient.levels (take 5 (PolymarketClient.book_asks b)))
      as [as_|] eqn:Ea.
    + apply levels_Some in Eb, Ea.
      pose proof (Forall2_length _ _ _ Eb) as Lb.
      pose proof (Forall2_length _ _ _ Ea) as La.
      rewrite length_take in Lb, La. cbn.
      split; [lia|]. split; [lia|]. split; [reflexivity|]. split.
      * intros b' [= <-] _. now split.
      * intros H. apply andb_false_iff in H as [H | H].
        -- apply levels_None in H. apply levels_Some in Eb. congruence.
        -- apply levels_None in H. apply levels_Some in Ea. congruence.
    + cbn. split; [lia|]. split; [lia|]. split; [reflexivity|]. split.
      * intros b' [= <-] H. apply andb_true_iff in H as [_ H].
        apply levels_None in Ea. congruence.
      * reflexivity.
  - cbn. split; [lia|]. split; [lia|]. split; [reflexivity|]. split.
    + intros b' [= <-] H. apply andb_true_iff in H as [H _].
      apply levels_None in Eb. congruence.
    + reflexivity.
Qed.

(** X12.  The price of a cut-loss.  [_execute_cutloss] asks for the first
    bid of the depth it reads when that bid is at least one cent, and for
    one cent when the bid is lower or when there is no bid, so never for
    less than one cent; the order is sent at that price for the shares of
    the position, fill-or-kill, and when the venue takes it the position is
    recorded as cut at that price. *)
Theorem X12_cutloss_sells_at_the_bid_or_one_cent venue now render trade reason
    st tr order_id :
  let depth :=
    PolymarketClient.get_orderbook_depth venue (Trade.yes_token_id trade) in
  let asked := Strategy.cutloss_sell_price depth in
  match PolymarketClient.bids depth with
  | b :: _ => F.nan (fst b) = false
  | [] => True
  end ->
  PyDict.get (TradeManager.trades (Strategy.tm st)) (Trade.trade_id trade)
    = Some tr ->
  PolymarketClient.sell_yes venue (Trade.yes_token_id trade) asked
    (Trade.shares trade) "FOK" = Some order_id ->
  (0.01 <=? asked)%float = true /\
  match PolymarketClient.bids depth with
  | [] => asked = 0.01%float
  | b :: _ =>
      ((0.01 <=? fst b)%float = true -> asked = fst b) /\
      ((fst b <? 0.01)%float = true -> asked = 0.01%float)
  end /\
  PyDict.get
    (TradeManager.trades
       (Strategy.tm
          (snd (Strategy._execute_cutloss venue now render trade reason st))))
    (Trade.trade_id trade)
  = Some (Trade.close tr "cutloss" asked
            (Trade.shares tr * asked - Trade.size_usdc tr)%float now
            (Some (render reason))).
Proof.
  intros depth asked Hb Hget Hsell.
  split; [|split].
  - subst asked. unfold Strategy.cutloss_sell_price, F.max, F.gtb.
    destruct (PolymarketClient.bids depth) as [|b bs]; [reflexivity|].
    destruct (fst b <? 0.01)%float eqn:E; [reflexivity|].
    rewrite <- (FloatFacts.ltb_negb_leb (fst b) 0.01%float Hb eq_refl).
    now rewrite E.
  - subst asked. unfold Strategy.cutloss_sell_price, F.max, F.gtb.
    destruct (PolymarketClient.bids depth) as [|b bs]; [reflexivity|].
    split.
    + intros Hge.
      rewrite <- (FloatFacts.ltb_negb_leb (fst b) 0.01%float Hb eq_refl) in Hge.
      apply negb_true_iff in Hge. now rewrite Hge.
    + now intros ->.
  - rewrite (_execute_cutloss_present venue now render trade reason st tr Hget).
    fold depth. fold asked. rewrite Hsell. cbn.
    apply PyDictFacts.get_setitem_eq.
Qed.

Lemma X12_cutloss_sells_at_the_bid_or_one_cent_witness :
  let venue := sample_venue book_bid_under_floor true in
  let asked :=
    Strategy.cutloss_sell_price
      (PolymarketClient.get_orderbook_depth venue "yes-token") in
  (0.01 <=? asked)%float = true /\
  (((0.01 <=? 0.70)%float = true -> asked = 0.70%float) /\
   ((0.70 <? 0.01)%float = true -> asked = 0.01%float)) /\
  PyDict.get
    (TradeManager.trades
       (Strategy.tm
          (snd (Strategy._execute_cutloss venue 950%float sample_render
                  sample_trade
                  (Strategy.BinanceDropped "BTC" (-0.003)%float 0.003%float)
                  (strategy_holding feed_dropped)))))
    "T0001"
  = Some (Trade.close sample_trade "cutloss" asked
            (Trade.shares sample_trade * asked
             - Trade.size_usdc sample_trade)%float 950%float
            (Some "Binance BTC dropped")).
Proof.
  apply (X12_cutloss_sells_at_the_bid_or_one_cent
           (sample_venue book_bid_under_floor true) 950%float sample_render
           sample_trade
           (Strategy.BinanceDropped "BTC" (-0.003)%float 0.003%float)
           (strategy_holding feed_dropped) sample_trade "order-3").
  - vm_compute. reflexivity.
  - vm_compute. reflexivity.
  - vm_compute. reflexivity.
Defined.

(** X13.  The time to close of a market is a number and is never negative,
    whatever the clock and the close time (a NaN difference counts as
    zero). *)
Theorem X13_seconds_to_close_is_not_negative now market :
  (0 <=? MarketInfo.seconds_to_close now market)%float = true /\
  F.nan (MarketInfo.seconds_to_close now market) = false.
Proof.
  split; [|apply seconds_to_close_not_nan].
  unfold MarketInfo.seconds_to_close, F.max, F.gtb.
  destruct (0 <? _)%float eqn:E; [|reflexivity].
  now apply FloatFacts.ltb_leb.
Qed.

(* ===================================================================== *)
(** * The loops as callers of the ledger *)
(* ===================================================================== *)

Lemma run_app ops ops' tm : run (ops ++ ops') tm = run ops' (run ops tm).
Proof. unfold run. apply fold_left_app. Qed.

Lemma disciplined_app ops ops' tm :
  disciplined ops tm -> disciplined ops' (run ops tm) ->
  disciplined (ops ++ ops') tm.
Proof.
  revert tm. induction ops as [|o ops IH]; intros tm H H'; [exact H'|].
  destruct H as [Ho H]. simpl. split; [exact Ho|]. now apply IH.
Qed.

Lemma disciplined_guarded ops tm : disciplined ops tm -> guarded ops tm.
Proof.
  revert tm. induction ops as [|o ops IH]; intros tm H; [exact I|].
  destruct H as [Ho H]. simpl. split; [|now apply IH].
  now destruct o.
Qed.

Lemma reachable_run ops tm : reachable tm -> reachable (run ops tm).
Proof.
  intros (sb & ops0 & ->). exists sb, (ops0 ++ ops)%list.
  now rewrite run_app.
Qed.

(** ** Closed positions are final under the discipline *)

Lemma get_apply_op_closed tm o k :
  ids_issued tm ->
  disciplined [o] tm ->
  closed k tm ->
  PyDict.get (TradeManager.trades (apply_op tm o)) k
  = PyDict.get (TradeManager.trades tm) k.
Proof.
  intros Hwf [Ho _] (tr & Hget & Hcl).
  destruct o as [now p | now trade_id r | b | sb]; cbn [apply_op].
  - rewrite (open_trade_appends now p tm Hwf).
    pose proof (new_id_fresh tm Hwf) as Hfresh.
    rewrite <- (PyDictFacts.setitem_fresh _ _ _ Hfresh).
    apply PyDictFacts.get_setitem_ne. intros E.
    unfold TradeManager.open_trade in E. simpl in E. rewrite <- E in Hget.
    congruence.
  - destruct Ho as (tr0 & Hget0 & Hopen).
    rewrite (resolve_present _ _ _ _ _ Hget0). cbn [TradeManager.trades].
    apply PyDictFacts.get_setitem_ne. intros ->. congruence.
  - reflexivity.
  - now rewrite restart_same.
Qed.

Lemma closed_apply_op tm o k :
  ids_issued tm -> disciplined [o] tm -> closed k tm -> closed k (apply_op tm o).
Proof.
  intros Hwf Hd Hcl. unfold closed.
  rewrite (get_apply_op_closed tm o k Hwf Hd Hcl). exact Hcl.
Qed.

Lemma get_run_closed ops tm k :
  ids_issued tm -> disciplined ops tm -> closed k tm ->
  PyDict.get (TradeManager.trades (run ops tm)) k
  = PyDict.get (TradeManager.trades tm) k.
Proof.
  revert tm. induction ops as [|o ops IH]; intros tm Hwf Hd Hcl;
    [reflexivity|].
  destruct Hd as [Ho Hd]. simpl.
  rewrite IH; [| apply ids_issued_apply_op, Hwf | exact Hd
               | apply closed_apply_op; [exact Hwf | now split | exact Hcl] ].
  apply get_apply_op_closed; [exact Hwf | now split | exact Hcl].
Qed.

(** ** Each loop keeps the discipline *)

(** The open trades of a ledger that keeps the invariant have distinct
    ids. *)
Lemma open_trades_distinct tm :
  ids_issued tm ->
  NoDup (map Trade.trade_id (TradeManager.get_open_trades tm)).
Proof.
  intros (_ & Hnd & Hk). unfold TradeManager.get_open_trades.
  revert Hnd Hk. generalize (TradeManager.trades tm) as d.
  induction d as [|[k tr] d IH]; intros Hnd Hk; [apply NoDup_nil; exact I|].
  simpl in *. apply NoDup_cons in Hnd as [Hni Hnd].
  assert (forall k' tr', (k', tr') ∈ d -> Trade.trade_id tr' = k') as Hid
    by (intros k' tr' Hin; apply Hk, elem_of_cons; now right).
  specialize (IH Hnd (fun k' tr' Hin => Hk k' tr' ltac:(apply elem_of_cons;
                                                        now right))).
  rewrite filter_cons. case_decide; [|exact IH].
  simpl. apply NoDup_cons. split; [|exact IH].
  destruct (Hk k tr ltac:(apply elem_of_cons; now left)) as [-> _].
  intros Hin. apply Hni.
  apply list_elem_of_In, in_map_iff in Hin as (tr' & E & Hin).
  apply list_elem_of_In, list_elem_of_filter in Hin as [_ Hin].
  apply list_elem_of_In, in_map_iff in Hin as ([k' tr''] & E' & Hin).
  simpl in E'. subst tr''. apply list_elem_of_In in Hin.
  rewrite <- E, (Hid _ _ Hin).
  apply list_elem_of_In, in_map_iff. exists (k', tr'). split; [reflexivity|].
  now apply list_elem_of_In.
Qed.

Lemma open_trade_is_open tm trade :
  trade ∈ TradeManager.get_open_trades tm -> Trade.is_open trade = true.
Proof.
  unfold TradeManager.get_open_trades. intros H.
  now apply list_elem_of_filter in H as [H _].
Qed.

(** The scanner. *)
Lemma scan_one_refines cfg venue now market st :
  exists ops,
    Strategy.tm (snd (Strategy.scan_one cfg venue now market st))
    = run ops (Strategy.tm st) /\
    disciplined ops (Strategy.tm st).
Proof.
  unfold Strategy.scan_one.
  destruct (MarketInfo.is_expired now market);
    [exists []; split; [reflexivity | exact I]|].
  unfold mbind, Strategy.M_bind, Strategy.bind, Strategy.get.
  destruct (TradeManager.already_traded _ _) eqn:Etraded;
    [exists []; split; [reflexivity | exact I]|].
  destruct (fst (Strategy._should_enter cfg venue now market st));
    [|exists []; split; [reflexivity | exact I]].
  destruct (_execute_buy_effect cfg venue now market st)
    as [-> | (p & Hp & ->)]; [exists []; split; [reflexivity | exact I]|].
  exists [OpOpen now p]. split; [reflexivity|].
  simpl. rewrite Hp. auto.
Qed.

Lemma scan_refines cfg venue now st :
  exists ops,
    Strategy.tm (snd (Strategy.market_scanner_cycle cfg venue now st))
    = run ops (Strategy.tm st) /\
    disciplined ops (Strategy.tm st).
Proof.
  rewrite market_scanner_cycle_run.
  destruct (track_markets_effect (PolymarketClient.scan_markets venue) st)
    as (Htm & _ & _).
  set (st1 := fold_left _ (PolymarketClient.scan_markets venue) st) in *.
  apply (for_each_preserves
           (fun s => exists ops,
              Strategy.tm s = run ops (Strategy.tm st) /\
              disciplined ops (Strategy.tm st))).
  - intros market s _ (ops & Hs & Hd).
    destruct (scan_one_refines cfg venue now market s) as (ops' & Hs' & Hd').
    exists (ops ++ ops')%list. rewrite run_app, <- Hs. split; [exact Hs'|].
    apply disciplined_app; [exact Hd | now rewrite <- Hs].
  - exists []. split; [exact Htm | exact I].
Qed.

(** The monitor. *)
Lemma monitor_loop_refines cfg venue now render (l : list Trade.t) :
  forall st,
    NoDup (map Trade.trade_id l) ->
    (forall t, t ∈ l ->
       PyDict.get (TradeManager.trades (Strategy.tm st)) (Trade.trade_id t)
       = Some t /\ Trade.is_open t = true) ->
    exists ops,
      Strategy.tm
        (snd (Strategy.for_each l (Strategy.monitor_one cfg venue now render)
                st))
      = run ops (Strategy.tm st) /\
      disciplined ops (Strategy.tm st).
Proof.
  induction l as [|t l IH]; intros st Hnd Hl;
    [exists []; split; [reflexivity | exact I]|].
  simpl in Hnd. apply NoDup_cons in Hnd as [Hni Hnd].
  assert (forall t', t' ∈ l ->
            PyDict.get (TradeManager.trades (Strategy.tm st))
              (Trade.trade_id t') = Some t' /\ Trade.is_open t' = true) as Hrest
    by (intros t' Hin; apply Hl, elem_of_cons; now right).
  destruct (Hl t ltac:(apply elem_of_cons; now left)) as [Hget Hopen].
  simpl. unfold Strategy.bind. unfold Strategy.monitor_one at 1.
  destruct (F.geb now _); [exact (IH st Hnd Hrest)|].
  unfold mbind, Strategy.M_bind, Strategy.bind, Strategy.get.
  destruct (Strategy._check_cutloss cfg venue t st) as [reason|];
    [|exact (IH st Hnd Hrest)].
  destruct (_execute_cutloss_effect venue now render t reason st
              ltac:(rewrite Hget; eauto)) as (sold & tm' & tr' & Hres & ->).
  set (st' := Strategy.with_pending _ _).
  destruct (IH st') as (ops & Hrun & Hd); [exact Hnd | |].
  - intros t' Hin. destruct (Hrest t' Hin) as [Hget' Hopen'].
    split; [|exact Hopen']. subst st'.
    cbn [Strategy.tm Strategy.with_pending Strategy.with_monitor
         Strategy.with_tm].
    rewrite (resolve_present _ _ _ _ _ Hget) in Hres.
    injection Hres as <- _. cbn [TradeManager.trades].
    rewrite PyDictFacts.get_setitem_ne; [exact Hget'|].
    intros E. apply Hni. rewrite E.
    apply list_elem_of_In, in_map. now apply list_elem_of_In.
  - exists (OpResolve now (Trade.trade_id t) (Cutloss sold (render reason))
            :: ops).
    subst st'.
    cbn [Strategy.tm Strategy.with_pending Strategy.with_monitor
         Strategy.with_tm] in *.
    cbn [disciplined apply_op run fold_left]. rewrite Hres.
    split; [exact Hrun|]. split; [eauto | exact Hd].
Qed.

Lemma monitor_refines cfg venue now render st :
  ids_issued (Strategy.tm st) ->
  exists ops,
    Strategy.tm (snd (Strategy.position_monitor_cycle cfg venue now render st))
    = run ops (Strategy.tm st) /\
    disciplined ops (Strategy.tm st).
Proof.
  intros Hwf.
  change (snd (Strategy.position_monitor_cycle cfg venue now render st))
    with (snd (Strategy.for_each
                 (TradeManager.get_open_trades (Strategy.tm st))
                 (Strategy.monitor_one cfg venue now render) st)).
  apply monitor_loop_refines; [now apply open_trades_distinct|].
  intros t Hin. split; [now apply open_trade_is_key|].
  exact (open_trade_is_open _ _ Hin).
Qed.

(** The outcome checker. *)
Lemma outcomes_loop_refines venue now (l : list Trade.t) :
  forall acc st,
    NoDup (map Trade.trade_id l) ->
    (forall t, t ∈ l ->
       PyDict.get (TradeManager.trades (Strategy.tm st)) (Trade.trade_id t)
       = Some t /\ Trade.is_open t = true) ->
    exists ops,
      Strategy.tm (snd (Strategy._check_outcomes_loop venue now l acc st))
      = run ops (Strategy.tm st) /\
      disciplined ops (Strategy.tm st).
Proof.
  induction l as [|t l IH]; intros acc st Hnd Hl;
    [exists []; split; [reflexivity | exact I]|].
  simpl in Hnd. apply NoDup_cons in Hnd as [Hni Hnd].
  assert (forall t', t' ∈ l ->
            PyDict.get (TradeManager.trades (Strategy.tm st))
              (Trade.trade_id t') = Some t' /\ Trade.is_open t' = true) as Hrest
    by (intros t' Hin; apply Hl, elem_of_cons; now right).
  destruct (Hl t ltac:(apply elem_of_cons; now left)) as [Hget Hopen].
  simpl. unfold mbind, Strategy.M_bind, Strategy.bind, Strategy.get.
  destruct (bool_decide _); [exact (IH _ st Hnd Hrest)|].
  destruct (now <? _)%float; [exact (IH _ st Hnd Hrest)|].
  destruct (PolymarketClient.check_market_resolved venue _) as [outcome|];
    [|exact (IH _ st Hnd Hrest)].
  unfold Strategy.modify, Strategy.call_tm.
  pose proof (resolve_present now (Trade.trade_id t)
                (if String.eqb outcome "YES" then Win else Loss)
                (Strategy.tm st) t Hget) as Hres.
  pose proof Hres as Hrun.
  destruct (String.eqb outcome "YES"); cbn [resolve] in Hrun; cbv beta;
    cbn [Strategy.tm Strategy.with_monitor]; rewrite Hrun;
    match goal with
    | |- context [Strategy._check_outcomes_loop venue now l ?acc' ?st'] =>
        destruct (IH acc' st') as (ops & Hops & Hd);
        [ exact Hnd
        | intros t' Hin; destruct (Hrest t' Hin) as [Hget' Hopen'];
          split; [|exact Hopen'];
          cbn [Strategy.tm Strategy.with_tm TradeManager.trades];
          rewrite PyDictFacts.get_setitem_ne; [exact Hget'|];
          intros E; apply Hni; rewrite E;
          apply list_elem_of_In, in_map; now apply list_elem_of_In
        | ]
    end;
    [ exists (OpResolve now (Trade.trade_id t) Win :: ops)
    | exists (OpResolve now (Trade.trade_id t) Loss :: ops) ];
    cbn [disciplined apply_op run fold_left]; rewrite Hres;
    (split; [exact Hops|]; split; [eauto | exact Hd]).
Qed.

Lemma outcomes_refines venue now st :
  ids_issued (Strategy.tm st) ->
  exists ops,
    Strategy.tm (snd (Strategy.outcome_checker_cycle venue now st))
    = run ops (Strategy.tm st) /\
    disciplined ops (Strategy.tm st).
Proof.
  intros Hwf. destruct (outcome_checker_cycle_run venue now st) as [pend ->].
  cbn [Strategy.tm Strategy.with_pending].
  apply outcomes_loop_refines; [now apply open_trades_distinct|].
  intros t Hin. split; [now apply open_trade_is_key|].
  exact (open_trade_is_open _ _ Hin).
Qed.

(** Whatever happens, the ledger goes through calls that keep the
    discipline. *)
Lemma step_refines cfg render venue e st :
  ids_issued (Strategy.tm st) ->
  exists ops,
    Strategy.tm (step cfg render venue e st) = run ops (Strategy.tm st) /\
    disciplined ops (Strategy.tm st).
Proof.
  intros Hwf. destruct e as [now asset price | now | now | now]; cbn [step].
  - exists []. split; [reflexivity | exact I].
  - apply scan_refines.
  - now apply monitor_refines.
  - now apply outcomes_refines.
Qed.

Lemma steps_refines cfg render events :
  forall st,
    ids_issued (Strategy.tm st) ->
    exists ops,
      Strategy.tm (steps cfg render events st) = run ops (Strategy.tm st) /\
      disciplined ops (Strategy.tm st).
Proof.
  induction events as [|[venue e] events IH]; intros st Hwf;
    [exists []; split; [reflexivity | exact I]|].
  destruct (step_refines cfg render venue e st Hwf) as (ops1 & H1 & Hd1).
  destruct (IH (step cfg render venue e st)) as (ops2 & H2 & Hd2).
  { rewrite H1. now apply ids_issued_run. }
  exists (ops1 ++ ops2)%list. unfold steps in *. simpl.
  rewrite run_app, <- H1. split; [exact H2|].
  apply disciplined_app; [exact Hd1 | now rewrite <- H1].
Qed.

(** X14.  The running system keeps one position per market: whatever the
    ticks and the turns of the three loops, and whatever the venue answers,
    a strategy started on a ledger of a running process without two positions
    on one market never holds two positions on one market. *)
Theorem X14_system_keeps_one_position_per_market cfg render events st :
  reachable (Strategy.tm st) ->
  unique_markets (Strategy.tm st) ->
  unique_markets (Strategy.tm (steps cfg render events st)).
Proof.
  intros Hr Hu. apply reachable_ids_issued in Hr.
  destruct (steps_refines cfg render events st Hr) as (ops & -> & Hd).
  apply unique_markets_run; [exact Hr | exact Hu|].
  now apply disciplined_guarded.
Qed.

Lemma X14_system_keeps_one_position_per_market_witness :
  unique_markets
    (Strategy.tm
       (steps Config.default sample_render
          [(venue_two_markets, EvScan 950%float);
           (venue_two_markets, EvTick 975%float "BTC" 50500%float);
           (venue_two_markets, EvScan 1000%float);
           (venue_two_markets, EvScan 1020%float)]
          strategy_idle)).
Proof.
  apply (X14_system_keeps_one_position_per_market Config.default sample_render
           [(venue_two_markets, EvScan 950%float);
            (venue_two_markets, EvTick 975%float "BTC" 50500%float);
            (venue_two_markets, EvScan 1000%float);
            (venue_two_markets, EvScan 1020%float)]
           strategy_idle).
  - exists 100%float, []. reflexivity.
  - apply NoDup_nil. exact I.
Defined.

(** X15.  In the running system a closed position is final: the loops only
    resolve positions they find open, so once a position has left the status
    "open", no tick and no turn of a loop changes its record again. *)
Theorem X15_closed_positions_are_final cfg render events st trade_id :
  reachable (Strategy.tm st) ->
  closed trade_id (Strategy.tm st) ->
  PyDict.get
    (TradeManager.trades (Strategy.tm (steps cfg render events st))) trade_id
  = PyDict.get (TradeManager.trades (Strategy.tm st)) trade_id.
Proof.
  intros Hr Hcl. apply reachable_ids_issued in Hr.
  destruct (steps_refines cfg render events st Hr) as (ops & -> & Hd).
  now apply get_run_closed.
Qed.

(** X16.  A market that has a position, open or closed, is never entered
    again: after any history of the system the entry evaluator rejects it,
    whatever the venue quotes. *)
Theorem X16_traded_market_is_never_entered_again
    cfg render events st venue now market :
  reachable (Strategy.tm st) ->
  TradeManager.already_traded (MarketInfo.condition_id market) (Strategy.tm st)
    = true ->
  fst (Strategy._should_enter cfg venue now market
         (steps cfg render events st)) = false.
Proof.
  intros Hr Ht. apply reachable_ids_issued in Hr.
  destruct (steps_refines cfg render events st Hr) as (ops & Hrun & _).
  assert (TradeManager.already_traded (MarketInfo.condition_id market)
            (Strategy.tm (steps cfg render events st)) = true) as Ht'.
  { rewrite Hrun. apply already_traded_markets, markets_run; [exact Hr|].
    now apply already_traded_markets. }
  unfold Strategy._should_enter.
  destruct (F.gtb _ _); [reflexivity|].
  destruct (_ <=? 5)%float; [reflexivity|].
  now rewrite Ht'.
Qed.

Lemma X15_closed_positions_are_final_witness :
  PyDict.get
    (TradeManager.trades
       (Strategy.tm
          (steps Config.default sample_render
             [(sample_venue book_bid_under_floor true, EvMonitor 1015%float);
              (sample_venue book_tight true, EvOutcomes 1020%float);
              (sample_venue book_tight true, EvScan 1030%float)]
             strategy_after_win)))
    "T0001"
  = PyDict.get (TradeManager.trades (Strategy.tm strategy_after_win)) "T0001".
Proof.
  apply (X15_closed_positions_are_final Config.default sample_render
           [(sample_venue book_bid_under_floor true, EvMonitor 1015%float);
            (sample_venue book_tight true, EvOutcomes 1020%float);
            (sample_venue book_tight true, EvScan 1030%float)]
           strategy_after_win "T0001").
  - exists 100%float,
      [OpOpen 900%float sample_params; OpResolve 1010%float "T0001" Win].
    reflexivity.
  - eexists. split; reflexivity.
Defined.

Lemma X16_traded_market_is_never_entered_again_witness :
  fst (Strategy._should_enter Config.default (sample_venue book_tight true)
         905%float sample_market
         (steps Config.default sample_render
            [(sample_venue book_tight true, EvTick 903%float "BTC" 50010%float)]
            (strategy_holding feed_pinned))) = false.
Proof.
  apply (X16_traded_market_is_never_entered_again Config.default sample_render
           [(sample_venue book_tight true, EvTick 903%float "BTC" 50010%float)]
           (strategy_holding feed_pinned)).
  - exists 100%float, [OpOpen 900%float sample_params]. reflexivity.
  - reflexivity.
Defined.

(* ===================================================================== *)
(** * When the loops act *)
(* ===================================================================== *)

(** X17.  The monitor leaves alone the positions whose market closed thirty
    seconds ago or more: when every open position is that old, a turn of the
    monitor changes nothing, whatever the book and the feed say. *)
Theorem X17_monitor_skips_closed_markets cfg venue now render st :
  (forall t, t ∈ TradeManager.get_open_trades (Strategy.tm st) ->
             F.geb now (Trade.close_timestamp t + 30)%float = true) ->
  Strategy.position_monitor_cycle cfg venue now render st = (Ok tt, st).
Proof.
  intros H. unfold Strategy.position_monitor_cycle, Strategy.try_except.
  unfold mbind, Strategy.M_bind, Strategy.bind at 1, Strategy.get.
  f_equal. revert H.
  generalize (TradeManager.get_open_trades (Strategy.tm st)) as l.
  induction l as [|t l IH]; intros H; [reflexivity|].
  simpl. unfold Strategy.bind, Strategy.monitor_one at 1.
  rewrite (H t) by (apply elem_of_cons; now left). simpl.
  apply IH. intros t' Hin. apply H, elem_of_cons. now right.
Qed.

Lemma X17_monitor_skips_closed_markets_witness :
  Strategy.position_monitor_cycle Config.default
    (sample_venue book_bid_under_floor true) 1030%float sample_render
    (strategy_holding feed_dropped)
  = (Ok tt, strategy_holding feed_dropped).
Proof.
  apply (X17_monitor_skips_closed_markets Config.default
           (sample_venue book_bid_under_floor true) 1030%float sample_render
           (strategy_holding feed_dropped)).
  intros t Hin. vm_compute in Hin.
  apply list_elem_of_singleton in Hin. subst t. vm_compute. reflexivity.
Defined.

(** X18.  The outcome pass acts only on what is due: when no open position
    has its market in the pending set, its close time behind it and an
    outcome at the venue, the pass changes nothing. *)
Theorem X18_outcome_pass_waits venue now st :
  (forall t, t ∈ TradeManager.get_open_trades (Strategy.tm st) ->
             ~ due venue now st t) ->
  Strategy._check_outcomes venue now st = (Ok tt, st).
Proof.
  intros H. unfold Strategy._check_outcomes.
  unfold mbind, Strategy.M_bind, Strategy.bind, Strategy.get.
  assert (forall l acc,
            (forall t, t ∈ l -> ~ due venue now st t) ->
            Strategy._check_outcomes_loop venue now l acc st = (Ok acc, st))
    as Hloop.
  { clear H. induction l as [|t l IH]; intros acc H; [reflexivity|].
    assert (~ due venue now st t) as Ht
      by (apply H, elem_of_cons; now left).
    assert (forall t', t' ∈ l -> ~ due venue now st t') as Hl
      by (intros t' Hin; apply H, elem_of_cons; now right).
    simpl. unfold mbind, Strategy.M_bind, Strategy.bind, Strategy.get.
    destruct (bool_decide _) eqn:Ep; [now apply IH|].
    destruct (now <? _)%float eqn:Et; [now apply IH|].
    destruct (PolymarketClient.check_market_resolved venue _) eqn:Er;
      [|now apply IH].
    exfalso. apply Ht. unfold due. rewrite Et, Er.
    apply bool_decide_eq_false in Ep.
    split; [|split; [reflexivity | eauto]].
    destruct (decide (Trade.condition_id t ∈ Strategy._pending_outcomes st));
      [assumption | contradiction]. }
  rewrite (Hloop _ _ H). unfold Strategy.modify. f_equal.
  rewrite difference_empty_L. apply with_pending_same.
Qed.

Lemma X18_outcome_pass_waits_witness :
  Strategy._check_outcomes (sample_venue book_tight true) 990%float
    (strategy_holding feed_dropped)
  = (Ok tt, strategy_holding feed_dropped).
Proof.
  apply (X18_outcome_pass_waits (sample_venue book_tight true) 990%float
           (strategy_holding feed_dropped)).
  intros t Hin. vm_compute in Hin.
  apply list_elem_of_singleton in Hin. subst t.
  intros (_ & Hlate & _). vm_compute in Hlate. discriminate.
Defined.

(** What the loop of the outcome pass does, trade by trade. *)
Lemma outcomes_loop_spec venue now (l : list Trade.t) :
  forall acc st,
    NoDup (map Trade.trade_id l) ->
    (forall t, t ∈ l ->
       PyDict.get (TradeManager.trades (Strategy.tm st)) (Trade.trade_id t)
       = Some t) ->
    exists acc' st',
      Strategy._check_outcomes_loop venue now l acc st = (Ok acc', st') /\
      Strategy._pending_outcomes st' = Strategy._pending_outcomes st /\
      acc ⊆ acc' /\
      (forall k, ~ In k (map Trade.trade_id l) ->
         PyDict.get (TradeManager.trades (Strategy.tm st')) k
         = PyDict.get (TradeManager.trades (Strategy.tm st)) k) /\
      (forall a, pinned a st = None -> pinned a st' = None) /\
      (forall t outcome,
         t ∈ l ->
         Trade.condition_id t ∈ Strategy._pending_outcomes st ->
         (now <? Trade.close_timestamp t)%float = false ->
         PolymarketClient.check_market_resolved venue (Trade.condition_id t)
           = Some outcome ->
         Trade.condition_id t ∈ acc' /\
         pinned (Trade.asset t) st' = None /\
         PyDict.get (TradeManager.trades (Strategy.tm st')) (Trade.trade_id t)
         = Some (Trade.close t (terminal_status (resolution_of outcome))
                   (recorded_sell_price (resolution_of outcome))
                   (recorded_pnl (resolution_of outcome) t) now
                   (Trade.cutloss_reason t))).
Proof.
  induction l as [|t l IH]; intros acc st Hnd Hl.
  { exists acc, st. split; [reflexivity|]. split; [reflexivity|].
    split; [reflexivity|]. split; [auto|]. split; [auto|].
    intros t o Hin. apply elem_of_nil in Hin. contradiction. }
  simpl in Hnd. apply NoDup_cons in Hnd as [Hni Hnd].
  assert (~ In (Trade.trade_id t) (map Trade.trade_id l)) as Hni'
    by (intros Hin; apply Hni, list_elem_of_In, Hin).
  pose proof (Hl t ltac:(apply elem_of_cons; now left)) as Hget.
  assert (forall t', t' ∈ l ->
            PyDict.get (TradeManager.trades (Strategy.tm st))
              (Trade.trade_id t') = Some t') as Hrest
    by (intros t' Hin; apply Hl, elem_of_cons; now right).
  (* the trade at the head is skipped *)
  assert (forall (Hskip : forall outcome,
                     Trade.condition_id t ∈ Strategy._pending_outcomes st ->
                     (now <? Trade.close_timestamp t)%float = false ->
                     PolymarketClient.check_market_resolved venue
                       (Trade.condition_id t) = Some outcome -> False),
            exists acc' st',
              Strategy._check_outcomes_loop venue now l acc st = (Ok acc', st') /\
              Strategy._pending_outcomes st' = Strategy._pending_outcomes st /\
              acc ⊆ acc' /\
              (forall k, ~ In k (map Trade.trade_id (t :: l)) ->
                 PyDict.get (TradeManager.trades (Strategy.tm st')) k
                 = PyDict.get (TradeManager.trades (Strategy.tm st)) k) /\
              (forall a, pinned a st = None -> pinned a st' = None) /\
              (forall t0 outcome,
                 t0 ∈ t :: l ->
                 Trade.condition_id t0 ∈ Strategy._pending_outcomes st ->
                 (now <? Trade.close_timestamp t0)%float = false ->
                 PolymarketClient.check_market_resolved venue
                   (Trade.condition_id t0) = Some outcome ->
                 Trade.condition_id t0 ∈ acc' /\
                 pinned (Trade.asset t0) st' = None /\
                 PyDict.get (TradeManager.trades (Strategy.tm st'))
                   (Trade.trade_id t0)
                 = Some (Trade.close t0
                           (terminal_status (resolution_of outcome))
                           (recorded_sell_price (resolution_of outcome))
                           (recorded_pnl (resolution_of outcome) t0) now
                           (Trade.cutloss_reason t0)))) as Hskipped.
  { intros Hskip.
    destruct (IH acc st Hnd Hrest) as (acc' & st' & Hrun & Hp & Hacc & Hfr & Hpin & Hdue).
    exists acc', st'. split; [exact Hrun|]. split; [exact Hp|].
    split; [exact Hacc|].
    split; [intros k Hk; apply Hfr; intros Hin; apply Hk; now right|].
    split; [exact Hpin|].
    intros t0 o Hin H1 H2 H3. apply elem_of_cons in Hin as [->|Hin].
    - destruct (Hskip o H1 H2 H3).
    - exact (Hdue t0 o Hin H1 H2 H3). }
  simpl. unfold mbind, Strategy.M_bind, Strategy.bind, Strategy.get.
  destruct (bool_decide _) eqn:Ep.
  { apply Hskipped. intros o H1 _ _. apply bool_decide_eq_true in Ep. auto. }
  destruct (now <? _)%float eqn:Et.
  { apply Hskipped. intros o _ H2 _. discriminate. }
  destruct (PolymarketClient.check_market_resolved venue _) as [outcome|] eqn:Er;
    [|apply Hskipped; intros o _ _ H3; discriminate].
  clear Hskipped.
  unfold Strategy.modify, Strategy.call_tm.
  pose proof (resolve_present now (Trade.trade_id t) (resolution_of outcome)
                (Strategy.tm st) t Hget) as Hres.
  assert ((if String.eqb outcome "YES"
           then Strategy.call_tm
                  (TradeManager.resolve_win now (Trade.trade_id t))
           else Strategy.call_tm
                  (TradeManager.resolve_loss now (Trade.trade_id t)))
          = Strategy.call_tm
              (resolve now (Trade.trade_id t) (resolution_of outcome))) as Hcall
    by (unfold resolution_of; now destruct (String.eqb outcome "YES")).
  unfold Strategy.call_tm in Hcall. rewrite Hcall. clear Hcall. cbv beta.
  cbn [Strategy.tm Strategy.with_monitor]. rewrite Hres.
  match goal with
  | |- context [Strategy._check_outcomes_loop venue now l ?acc1 ?st1] =>
      set (acc2 := acc1); set (st2 := st1)
  end.
  destruct (IH acc2 st2 Hnd) as (acc' & st' & Hrun & Hp & Hacc & Hfr & Hpin & Hdue).
  { intros t' Hin. subst st2.
    cbn [Strategy.tm Strategy.with_tm TradeManager.trades].
    rewrite PyDictFacts.get_setitem_ne; [now apply Hrest|].
    intros E. apply Hni. rewrite E.
    apply list_elem_of_In, in_map. now apply list_elem_of_In. }
  assert (forall a, pinned a st = None -> pinned a st2 = None) as Hpin2.
  { intros a Ha. subst st2. unfold pinned in *. simpl.
    destruct (decide (Trade.asset t = a)) as [<-|Hne];
      [apply lookup_delete_eq | now rewrite lookup_delete_ne]. }
  exists acc', st'. split; [exact Hrun|]. split; [exact Hp|].
  split; [subst acc2; set_solver|].
  split.
  { intros k Hk. rewrite Hfr by (intros Hin; apply Hk; now right).
    subst st2. cbn [Strategy.tm Strategy.with_tm TradeManager.trades].
    apply PyDictFacts.get_setitem_ne. intros E. apply Hk. now left. }
  split; [intros a Ha; apply Hpin, Hpin2, Ha|].
  intros t0 o Hin H1 H2 H3. apply elem_of_cons in Hin as [->|Hin].
  - rewrite Er in H3. injection H3 as <-.
    split; [subst acc2; set_solver|]. split.
    + apply Hpin. subst st2. unfold pinned. simpl. apply lookup_delete_eq.
    + rewrite Hfr by exact Hni'. subst st2.
      cbn [Strategy.tm Strategy.with_tm TradeManager.trades].
      rewrite PyDictFacts.get_setitem_eq. unfold resolution_of.
      now destruct (String.eqb outcome "YES").
  - exact (Hdue t0 o Hin H1 H2 H3).
Qed.

(** X19.  The outcome pass resolves what is due.  In a running process, an
    open position whose market is pending, past its close time and resolved
    at the venue is closed by the next pass: as a win when the outcome is
    "YES", as a loss for any other outcome; its market leaves the pending set
    and the reference price of its asset is cleared. *)
Theorem X19_outcome_pass_resolves_what_is_due venue now st trade outcome :
  reachable (Strategy.tm st) ->
  trade ∈ TradeManager.get_open_trades (Strategy.tm st) ->
  Trade.condition_id trade ∈ Strategy._pending_outcomes st ->
  (now <? Trade.close_timestamp trade)%float = false ->
  PolymarketClient.check_market_resolved venue (Trade.condition_id trade)
    = Some outcome ->
  PyDict.get
    (TradeManager.trades
       (Strategy.tm (snd (Strategy.outcome_checker_cycle venue now st))))
    (Trade.trade_id trade)
  = Some (Trade.close trade (if String.eqb outcome "YES" then "win" else "loss")
            (if String.eqb outcome "YES" then 1 else 0)%float
            (if String.eqb outcome "YES"
             then Trade.shares trade * (1 - Trade.buy_price trade)
             else - Trade.size_usdc trade)%float
            now (Trade.cutloss_reason trade)) /\
  Trade.condition_id trade
    ∉ (Strategy._pending_outcomes
         (snd (Strategy.outcome_checker_cycle venue now st))) /\
  pinned (Trade.asset trade) (snd (Strategy.outcome_checker_cycle venue now st))
    = None.
Proof.
  intros Hr Hin Hpend Hlate Hres. apply reachable_ids_issued in Hr.
  destruct (outcomes_loop_spec venue now
              (TradeManager.get_open_trades (Strategy.tm st)) ∅ st
              (open_trades_distinct _ Hr)
              (fun t Ht => open_trade_is_key _ _ Hr Ht))
    as (acc' & st' & Hrun & Hp & _ & _ & _ & Hdue).
  destruct (Hdue trade outcome Hin Hpend Hlate Hres) as (Hacc & Hpin & Hget).
  unfold Strategy.outcome_checker_cycle, Strategy.try_except,
    Strategy._check_outcomes.
  unfold mbind, Strategy.M_bind, Strategy.bind, Strategy.get.
  rewrite Hrun. unfold Strategy.modify.
  cbn [snd Strategy.tm Strategy.with_pending Strategy._pending_outcomes].
  split; [|split; [set_solver | exact Hpin]].
  rewrite Hget. unfold resolution_of.
  now destruct (String.eqb outcome "YES").
Qed.

Lemma X19_outcome_pass_resolves_what_is_due_witness :
  PyDict.get
    (TradeManager.trades
       (Strategy.tm
          (snd (Strategy.outcome_checker_cycle
                  (sample_venue book_tight true) 1010%float
                  (strategy_holding feed_dropped)))))
    (Trade.trade_id sample_trade)
  = Some (Trade.close sample_trade "win" 1%float
            (Trade.shares sample_trade * (1 - Trade.buy_price sample_trade))%float
            1010%float (Trade.cutloss_reason sample_trade)) /\
  Trade.condition_id sample_trade
    ∉ (Strategy._pending_outcomes
         (snd (Strategy.outcome_checker_cycle (sample_venue book_tight true)
                 1010%float (strategy_holding feed_dropped)))) /\
  pinned (Trade.asset sample_trade)
    (snd (Strategy.outcome_checker_cycle (sample_venue book_tight true)
            1010%float (strategy_holding feed_dropped)))
    = None.
Proof.
  apply (X19_outcome_pass_resolves_what_is_due (sample_venue book_tight true)
           1010%float (strategy_holding feed_dropped) sample_trade "YES").
  - exists 100%float, [OpOpen 900%float sample_params]. reflexivity.
  - vm_compute. apply list_elem_of_singleton. reflexivity.
  - vm_compute. reflexivity.
  - reflexivity.
  - reflexivity.
Defined.

(* ===================================================================== *)
(** * The buy *)
(* ===================================================================== *)

(** X20.  A buy that goes through, in a running process: the order is placed
    at the ask read at that moment; one position is added under an id that
    was not in use, open, at that ask, for the share count the venue
    returned; no other position changes; the trade size leaves the balance;
    the market counts as traded and is queued for the outcome pass; and the
    reference price of the asset becomes the spot price, when there is
    one. *)
Theorem X20_buy_records_one_position cfg venue now market st ask order_id size :
  reachable (Strategy.tm st) ->
  PolymarketClient.get_best_ask venue (MarketInfo.yes_token_id market)
    = Some ask ->
  (ask <? Config.BUY_THRESHOLD cfg)%float = false ->
  PolymarketClient.buy_yes venue market ask (Config.TRADE_SIZE_USDC cfg)
    = Some (order_id, size) ->
  let tid := snd (TradeManager._new_id (Strategy.tm st)) in
  let st' := snd (Strategy._execute_buy cfg venue now market st) in
  fst (Strategy._execute_buy cfg venue now market st) = Ok tt /\
  PyDict.get (TradeManager.trades (Strategy.tm st)) tid = None /\
  (exists trade,
     PyDict.get (TradeManager.trades (Strategy.tm st')) tid = Some trade /\
     Trade.is_open trade = true /\
     Trade.condition_id trade = MarketInfo.condition_id market /\
     Trade.order_id trade = order_id /\
     Trade.buy_price trade = ask /\
     Trade.shares trade = size /\
     Trade.size_usdc trade = Config.TRADE_SIZE_USDC cfg /\
     Trade.entry_time trade = now) /\
  (forall k, k <> tid ->
     PyDict.get (TradeManager.trades (Strategy.tm st')) k
     = PyDict.get (TradeManager.trades (Strategy.tm st)) k) /\
  TradeManager.balance (Strategy.tm st')
  = (TradeManager.balance (Strategy.tm st) - Config.TRADE_SIZE_USDC cfg)%float /\
  TradeManager.already_traded (MarketInfo.condition_id market)
    (Strategy.tm st') = true /\
  MarketInfo.condition_id market ∈ Strategy._pending_outcomes st' /\
  pinned (MarketInfo.asset market) st'
  = match spot (MarketInfo.asset market) st with
    | Some p => Some p
    | None => pinned (MarketInfo.asset market) st
    end.
Proof.
  intros Hr Hask Hthr Hbuy tid st'. apply reachable_ids_issued in Hr.
  subst st'. unfold Strategy._execute_buy. rewrite Hask, Hthr.
  unfold mbind, Strategy.M_bind, Strategy.bind, Strategy.get.
  rewrite Hbuy.
  pose proof (new_id_fresh _ Hr) as Hfresh.
  split; [reflexivity|]. split; [exact Hfresh|].
  split; [|split; [|split; [|split; [|split]]]].
  - eexists. split.
    + cbn. apply PyDictFacts.get_setitem_eq.
    + repeat split.
  - intros k Hk. cbn. now apply PyDictFacts.get_setitem_ne.
  - reflexivity.
  - apply already_traded_markets.
    unfold markets. cbn.
    rewrite (PyDictFacts.setitem_fresh _ _ _ Hfresh).
    unfold PyDict.values. rewrite !map_app. apply in_or_app. right.
    now left.
  - cbn. set_solver.
  - unfold pinned, spot, BinancePriceMonitor.set_reference_price. cbn.
    destruct (BinancePriceMonitor.prices _ !! MarketInfo.asset market)
      eqn:E; cbn; [|reflexivity].
    apply lookup_insert_eq.
Qed.

Lemma X20_buy_records_one_position_witness :
  let venue := sample_venue book_tight true in
  let st := strategy_idle in
  let r := Strategy._execute_buy Config.default venue 900%float sample_market
             st in
  fst r = Ok tt /\
  PyDict.get (TradeManager.trades (Strategy.tm st)) "T0001" = None /\
  (exists trade,
     PyDict.get (TradeManager.trades (Strategy.tm (snd r))) "T0001"
       = Some trade /\
     Trade.is_open trade = true /\
     Trade.condition_id trade = "0xc0ffee" /\
     Trade.order_id trade = "order-2" /\
     Trade.buy_price trade = 0.98%float /\
     Trade.shares trade = 10.2%float /\
     Trade.size_usdc trade = Config.TRADE_SIZE_USDC Config.default /\
     Trade.entry_time trade = 900%float) /\
  (forall k, k <> "T0001" ->
     PyDict.get (TradeManager.trades (Strategy.tm (snd r))) k
     = PyDict.get (TradeManager.trades (Strategy.tm st)) k) /\
  TradeManager.balance (Strategy.tm (snd r))
  = (TradeManager.balance (Strategy.tm st)
     - Config.TRADE_SIZE_USDC Config.default)%float /\
  TradeManager.already_traded "0xc0ffee" (Strategy.tm (snd r)) = true /\
  "0xc0ffee" ∈ Strategy._pending_outcomes (snd r) /\
  pinned "BTC" (snd r) = Some 50000%float.
Proof.
  apply (X20_buy_records_one_position Config.default
           (sample_venue book_tight true) 900%float sample_market
           strategy_idle 0.98%float "order-2" 10.2%float).
  - exists 100%float, []. reflexivity.
  - reflexivity.
  - reflexivity.
  - reflexivity.
Defined.

(** X21.  A buy that does not go through leaves no trace: when the ask is
    gone, or has fallen under the threshold since the entry test, or the
    venue refuses the order, [_execute_buy] returns normally with the
    ledger, the feed and the outcome queue as they were. *)
Theorem X21_refused_buy_leaves_no_trace cfg venue now market st :
  (PolymarketClient.get_best_ask venue (MarketInfo.yes_token_id market) = None
   \/ exists ask,
        PolymarketClient.get_best_ask venue (MarketInfo.yes_token_id market)
          = Some ask /\
        ((ask <? Config.BUY_THRESHOLD cfg)%float = true \/
         PolymarketClient.buy_yes venue market ask (Config.TRADE_SIZE_USDC cfg)
           = None)) ->
  Strategy._execute_buy cfg venue now market st = (Ok tt, st).
Proof.
  unfold Strategy._execute_buy.
  intros [-> | (ask & -> & [Hthr | Hbuy])]; [reflexivity | |].
  - now rewrite Hthr.
  - destruct (ask <? _)%float; [reflexivity|].
    unfold mbind, Strategy.M_bind, Strategy.bind, Strategy.get.
    now rewrite Hbuy.
Qed.

Lemma X21_refused_buy_leaves_no_trace_witness :
  Strategy._execute_buy Config.default
    (sample_venue book_bid_under_floor true) 900%float sample_market
    strategy_idle
  = (Ok tt, strategy_idle).
Proof.
  apply (X21_refused_buy_leaves_no_trace Config.default
           (sample_venue book_bid_under_floor true) 900%float sample_market
           strategy_idle).
  right. exists 0.85%float. split; [reflexivity|]. left. reflexivity.
Defined.

(* ===================================================================== *)
(** * Market discovery *)
(* ===================================================================== *)

Lemma __init___fields py raw asset direction market_type info :
  Gamma.__init__ py raw asset direction market_type = Some info ->
  MarketInfo.condition_id info = Gamma.conditionId raw /\
  MarketInfo.asset info = asset /\
  MarketInfo.direction info = direction /\
  MarketInfo.market_type info = market_type /\
  MarketInfo.yes_token_id info = fst (Gamma.token_ids py (Gamma.tokens raw)).
Proof.
  unfold Gamma.__init__. intros H.
  repeat match type of H with
         | match ?x with _ => _ end = Some _ => destruct x; try discriminate
         | (let (_, _) := ?x in _) = Some _ => destruct x
         end.
  injection H as <-. repeat split.
Qed.

(** The YES id the token loop ends with is that of the last token that
    reads YES, or the one it started with when no token does. *)
Lemma token_loop_yes py tokens : forall ids,
  (fst (fold_left (Gamma.token_step py) tokens ids) = fst ids /\
   Forall (fun t => ~ is_yes py t) tokens) \/
  exists pre t post,
    tokens = (pre ++ t :: post)%list /\ is_yes py t /\
    Gamma.token_id t = fst (fold_left (Gamma.token_step py) tokens ids) /\
    Forall (fun t' => ~ is_yes py t') post.
Proof.
  induction tokens as [|t rest IH]; intros ids; cbn [fold_left].
  - left. split; [reflexivity | constructor].
  - destruct (String.eqb (Gamma.upper py (Gamma.outcome t)) "YES") eqn:Ey.
    + assert (Gamma.token_step py ids t = (Gamma.token_id t, snd ids)) as ->
        by (unfold Gamma.token_step; now rewrite Ey).
      apply String.eqb_eq in Ey. right.
      destruct (IH (Gamma.token_id t, snd ids)) as [[E Hall] | Hex].
      * exists [], t, rest. repeat split; [exact Ey | now rewrite E | exact Hall].
      * destruct Hex as (pre & t' & post & -> & Hy & E & Hall).
        exists (t :: pre), t', post. repeat split; assumption.
    + assert (fst (Gamma.token_step py ids t) = fst ids) as Efst.
      { unfold Gamma.token_step. rewrite Ey.
        now destruct (String.eqb (Gamma.upper py (Gamma.outcome t)) "NO"). }
      apply String.eqb_neq in Ey.
      destruct (IH (Gamma.token_step py ids t)) as [[E Hall] | Hex].
      * left. split; [now rewrite E | now constructor].
      * right. destruct Hex as (pre & t' & post & -> & Hy & E & Hall).
        exists (t :: pre), t', post. repeat split; assumption.
Qed.

(** What holds of a market the scan lists. *)
Lemma scan_loop_spec py ASSETS MARKET_TYPES now raw_markets :
  forall done seen results,
    (forall c, c ∈ seen <->
       exists r, r ∈ done /\
         Gamma._classify_market py ASSETS MARKET_TYPES now r <> None /\
         Gamma.conditionId r = c) ->
    NoDup (map MarketInfo.condition_id results) ->
    (forall info, info ∈ results ->
       F.gtb (MarketInfo.seconds_to_close now info) 0%float = true /\
       MarketInfo.yes_token_id info <> EmptyString /\
       exists raw, first_record py ASSETS MARKET_TYPES now done info raw) ->
    let out :=
      Gamma.scan_loop py ASSETS MARKET_TYPES now raw_markets seen results in
    NoDup (map MarketInfo.condition_id out) /\
    forall info, info ∈ out ->
      F.gtb (MarketInfo.seconds_to_close now info) 0%float = true /\
      MarketInfo.yes_token_id info <> EmptyString /\
      exists raw,
        first_record py ASSETS MARKET_TYPES now (done ++ raw_markets)%list
          info raw.
Proof.
  induction raw_markets as [|m rest IH]; intros done seen results Hseen Hnd Hres;
    cbn [Gamma.scan_loop].
  - rewrite app_nil_r. split; assumption.
  - assert (Hgrow : forall info, info ∈ results ->
              F.gtb (MarketInfo.seconds_to_close now info) 0%float = true /\
              MarketInfo.yes_token_id info <> EmptyString /\
              exists raw,
                first_record py ASSETS MARKET_TYPES now (done ++ [m])%list
                  info raw).
    { intros info Hin. destruct (Hres info Hin) as (H1 & H2 & raw & Hf).
      split; [exact H1|]. split; [exact H2|]. exists raw.
      destruct Hf as (pre & post & -> & Hrest).
      exists pre, (post ++ [m])%list. split; [|exact Hrest].
      now rewrite <- app_assoc. }
    assert (Hin_seen : forall info, info ∈ results ->
              MarketInfo.condition_id info ∈ seen).
    { intros info Hin. destruct (Hres info Hin) as (_ & _ & raw & Hf).
      destruct Hf as (pre & post & -> & Hc & Hcl & _).
      apply Hseen. exists raw. split; [|split; [|exact Hc]].
      - apply elem_of_app. right. apply elem_of_cons. now left.
      - now rewrite Hcl. }
    replace (done ++ m :: rest)%list with ((done ++ [m]) ++ rest)%list
      by now rewrite <- app_assoc.
    destruct (Gamma._classify_market py ASSETS MARKET_TYPES now m)
      as [[[asset direction] market_type]|] eqn:Ecl.
    + assert (Hseen' : forall c,
                c ∈ ({[Gamma.conditionId m]} ∪ seen : gset string) <->
                exists r, r ∈ (done ++ [m])%list /\
                  Gamma._classify_market py ASSETS MARKET_TYPES now r <> None /\
                  Gamma.conditionId r = c).
      { intros c. rewrite elem_of_union, elem_of_singleton, Hseen. split.
        - intros [-> | (r & Hr & Hc & E)].
          + exists m. split; [|split; [now rewrite Ecl | reflexivity]].
            apply elem_of_app. right. apply elem_of_cons. now left.
          + exists r. split; [|now split]. apply elem_of_app. now left.
        - intros (r & Hr & Hc & E). apply elem_of_app in Hr as [Hr | Hr].
          + right. exists r. now repeat split.
          + apply list_elem_of_singleton in Hr. subst r. now left. }
      destruct (decide (Gamma.conditionId m ∈ seen)) as [Hdup | Hnew].
      * apply IH; [|exact Hnd | exact Hgrow].
        intros c. rewrite <- Hseen'. split; [set_solver|].
        intros Hc. apply elem_of_union in Hc as [Hc | Hc]; [|exact Hc].
        apply elem_of_singleton in Hc. now subst c.
      * destruct (Gamma.__init__ py m asset direction market_type)
          as [info|] eqn:Einit; [|now apply IH].
        destruct (F.gtb (MarketInfo.seconds_to_close now info) 0%float) eqn:Eo;
          [|now apply IH].
        destruct (String.eqb (MarketInfo.yes_token_id info) EmptyString)
          eqn:Ey; [now apply IH|]. cbn [andb negb].
        destruct (__init___fields _ _ _ _ _ _ Einit)
          as (Hcid & Ha & Hd & Ht & _).
        apply IH; [exact Hseen' | |].
        -- rewrite map_app. apply NoDup_app. split; [exact Hnd|].
           split; [|apply NoDup_singleton].
           intros c Hc Hc'. cbn in Hc'. apply list_elem_of_singleton in Hc'.
           apply list_elem_of_In, in_map_iff in Hc as (i & Ei & Hi).
           apply list_elem_of_In, Hin_seen in Hi.
           apply Hnew. now rewrite <- Hcid, <- Hc', <- Ei.
        -- intros i Hi. apply elem_of_app in Hi as [Hi | Hi];
             [now apply Hgrow|].
           apply list_elem_of_singleton in Hi. subst i.
           split; [exact Eo|]. split; [now apply String.eqb_neq|].
           exists m, done, []. split; [reflexivity|].
           split; [now rewrite Hcid|]. rewrite Ha, Hd, Ht.
           split; [exact Ecl|]. split; [exact Einit|].
           intros r Hr Hc E. apply Hnew, Hseen. exists r. now repeat split.
    + apply IH; [|exact Hnd | exact Hgrow].
      intros c. rewrite Hseen. split.
      * intros (r & Hr & Hc & E). exists r. split; [|now split].
        apply elem_of_app. now left.
      * intros (r & Hr & Hc & E). apply elem_of_app in Hr as [Hr | Hr].
        -- exists r. now repeat split.
        -- apply list_elem_of_singleton in Hr. subst r. now rewrite Ecl in Hc.
Qed.

(** X22.  What [_classify_market] accepts: the asset is a non-empty entry
    of ASSETS that the question or the slug names, the type is an entry of
    MARKET_TYPES among 5m and 15m, the end date parses to a time after now,
    and the direction is DOWN only when neither the question nor the slug
    says up: a market whose title has both words is classified UP. *)
Theorem X22_classified_market py ASSETS MARKET_TYPES now market
    asset direction market_type :
  Gamma._classify_market py ASSETS MARKET_TYPES now market
    = Some (asset, direction, market_type) ->
  let q := Gamma.upper py (Gamma.question market) in
  let slug := Gamma.lower py (Gamma.slug market) in
  asset ∈ ASSETS /\ asset <> EmptyString /\
  Gamma.names_asset py q slug asset = true /\
  market_type ∈ MARKET_TYPES /\
  (market_type = "5m" \/ market_type = "15m") /\
  (exists ts,
     Gamma.fromisoformat py
       (Gamma.replace_Z
          (Gamma.or_ (Gamma.endDate market) (Gamma.end_date_iso market)))
     = Some ts /\
     (ts - now <=? 0)%float = false) /\
  ((direction = "UP" /\
    (Gamma.contains "UP" q || Gamma.contains "up" slug) = true) \/
   (direction = "DOWN" /\
    Gamma.contains "UP" q = false /\ Gamma.contains "up" slug = false /\
    (Gamma.contains "DOWN" q || Gamma.contains "down" slug) = true)).
Proof.
  intros H q slug. unfold Gamma._classify_market in H. fold q slug in H.
  destruct (find (Gamma.names_asset py q slug) ASSETS) as [a|] eqn:Ea;
    [|discriminate].
  apply find_some in Ea as [Ha1 Ha2].
  destruct (find (Gamma.names_type py q slug) MARKET_TYPES) as [t|] eqn:Et;
    [|now destruct a].
  apply find_some in Et as [Ht1 Ht2].
  assert (Ht3 : t = "5m" \/ t = "15m").
  { unfold Gamma.names_type, Gamma.MARKET_KEYWORDS in Ht2.
    destruct (String.eqb t "5m") eqn:E5;
      [left; now apply String.eqb_eq|].
    destruct (String.eqb t "15m") eqn:E15;
      [right; now apply String.eqb_eq | discriminate]. }
  destruct (Gamma.contains "UP" q) eqn:Eup, (Gamma.contains "up" slug) eqn:Eus,
    (Gamma.contains "DOWN" q) eqn:Edn, (Gamma.contains "down" slug) eqn:Eds;
    cbn [negb andb orb] in H;
    destruct a as [|c a']; try discriminate;
    destruct (Gamma.or_ (Gamma.endDate market) (Gamma.end_date_iso market))
      as [|c0 e] eqn:Eend; try discriminate;
    destruct (Gamma.fromisoformat py _) as [ts|] eqn:Ets; try discriminate;
    destruct (ts - now <=? 0)%float eqn:Erem; try discriminate;
    injection H as <- <- <-;
    (split; [now apply list_elem_of_In|]);
    (split; [discriminate|]);
    (split; [exact Ha2|]);
    (split; [now apply list_elem_of_In|]);
    (split; [exact Ht3|]);
    (split; [exists ts; now split|]);
    first [left; now split | right; now repeat split].
Qed.

Lemma X22_classified_market_witness :
  let q := Gamma.upper sample_runtime (Gamma.question sample_raw) in
  let slug := Gamma.lower sample_runtime (Gamma.slug sample_raw) in
  "BTC" ∈ ["BTC"; "ETH"; "SOL"] /\ "BTC" <> EmptyString /\
  Gamma.names_asset sample_runtime q slug "BTC" = true /\
  "5m" ∈ ["5m"; "15m"] /\
  ("5m" = "5m" \/ "5m" = "15m") /\
  (exists ts,
     Gamma.fromisoformat sample_runtime
       (Gamma.replace_Z
          (Gamma.or_ (Gamma.endDate sample_raw)
             (Gamma.end_date_iso sample_raw)))
     = Some ts /\
     (ts - 900 <=? 0)%float = false) /\
  (("UP" = "UP" /\
    (Gamma.contains "UP" q || Gamma.contains "up" slug) = true) \/
   ("UP" = "DOWN" /\
    Gamma.contains "UP" q = false /\ Gamma.contains "up" slug = false /\
    (Gamma.contains "DOWN" q || Gamma.contains "down" slug) = true)).
Proof.
  apply (X22_classified_market sample_runtime ["BTC"; "ETH"; "SOL"]
           ["5m"; "15m"] 900%float sample_raw "BTC" "UP" "5m").
  reflexivity.
Defined.

(** X23.  The list [scan_markets] returns has one market per condition id;
    each is still open and has a YES token id, and was built from the first
    classified record of the feed that carries its condition id, with the
    asset, direction and type the classifier gave that record.  A later
    record with the same id is never used, even when the first one was
    dropped. *)
Theorem X23_scan_lists_each_market_once py ASSETS MARKET_TYPES now feed :
  NoDup (map MarketInfo.condition_id
           (Gamma.scan_markets py ASSETS MARKET_TYPES now feed)) /\
  forall info,
    info ∈ Gamma.scan_markets py ASSETS MARKET_TYPES now feed ->
    F.gtb (MarketInfo.seconds_to_close now info) 0%float = true /\
    MarketInfo.yes_token_id info <> EmptyString /\
    exists raw, first_record py ASSETS MARKET_TYPES now feed info raw.
Proof.
  unfold Gamma.scan_markets.
  apply (scan_loop_spec py ASSETS MARKET_TYPES now feed [] ∅ []).
  - intros c. split; [set_solver|].
    intros (r & Hr & _). now apply elem_of_nil in Hr.
  - constructor.
  - intros info Hin. now apply elem_of_nil in Hin.
Qed.

(** X24.  A market is listed only if the venue labels one of its tokens
    YES, in any case: the YES token id of a listed market is the non-empty
    id of the last token of its record whose outcome reads YES.  A market
    whose outcomes have other names is never listed. *)
Theorem X24_listed_market_has_a_yes_token py ASSETS MARKET_TYPES now feed info :
  info ∈ Gamma.scan_markets py ASSETS MARKET_TYPES now feed ->
  exists raw pre t post,
    raw ∈ feed /\
    Gamma.conditionId raw = MarketInfo.condition_id info /\
    Gamma.tokens raw = (pre ++ t :: post)%list /\
    is_yes py t /\
    Gamma.token_id t = MarketInfo.yes_token_id info /\
    Gamma.token_id t <> EmptyString /\
    Forall (fun t' => ~ is_yes py t') post.
Proof.
  intros Hin. unfold Gamma.scan_markets in Hin.
  destruct (scan_loop_spec py ASSETS MARKET_TYPES now feed [] ∅ []) as [_ H].
  - intros c. split; [set_solver|].
    intros (r & Hr & _). now apply elem_of_nil in Hr.
  - constructor.
  - intros i Hi. now apply elem_of_nil in Hi.
  - destruct (H info Hin) as (_ & Hyes & raw & pre0 & post0 & E & Hc & _ & Hi & _).
    cbn [app] in E.
    destruct (__init___fields _ _ _ _ _ _ Hi) as (_ & _ & _ & _ & Hy).
    unfold Gamma.token_ids in Hy.
    destruct (token_loop_yes py (Gamma.tokens raw) (EmptyString, EmptyString))
      as [[E0 _] | (pre & t & post & Et & Ht & Eid & Hpost)].
    + exfalso. apply Hyes. now rewrite Hy, E0.
    + exists raw, pre, t, post.
      split; [rewrite E; apply elem_of_app; right; apply elem_of_cons; now left|].
      split; [exact Hc|]. split; [exact Et|]. split; [exact Ht|].
      split; [now rewrite Hy|]. split; [|exact Hpost].
      now rewrite Eid, <- Hy.
Qed.

Lemma X24_listed_market_has_a_yes_token_witness :
  exists raw pre t post,
    raw ∈ [sample_raw] /\
    Gamma.conditionId raw = MarketInfo.condition_id sample_market /\
    Gamma.tokens raw = (pre ++ t :: post)%list /\
    is_yes sample_runtime t /\
    Gamma.token_id t = MarketInfo.yes_token_id sample_market /\
    Gamma.token_id t <> EmptyString /\
    Forall (fun t' => ~ is_yes sample_runtime t') post.
Proof.
  apply (X24_listed_market_has_a_yes_token sample_runtime ["BTC"; "ETH"; "SOL"]
           ["5m"; "15m"] 900%float [sample_raw] sample_market).
  vm_compute. apply elem_of_cons. now left.
Defined.

(** What the token loop of [check_market_resolved] returns. *)
Lemma winner_spec py tokens outcome :
  Gamma.winner py tokens = Some outcome ->
  exists pre t post p,
    tokens = (pre ++ t :: post)%list /\
    outcome = Gamma.upper py (Gamma.outcome t) /\
    Gamma.float_of 0%float (Gamma.price t) = Some p /\
    F.geb p 0.99%float = true /\
    Forall (fun t' =>
              exists p', Gamma.float_of 0%float (Gamma.price t') = Some p' /\
                         F.geb p' 0.99%float = false) pre.
Proof.
  induction tokens as [|t rest IH]; cbn [Gamma.winner]; [discriminate|].
  destruct (Gamma.float_of 0%float (Gamma.price t)) as [p|] eqn:Ep;
    [|discriminate].
  destruct (F.geb p 0.99%float) eqn:Eg.
  - intros [= <-]. exists [], t, rest, p. repeat split; [exact Ep | exact Eg |].
    constructor.
  - intros H. destruct (IH H) as (pre & t' & post & p' & -> & Ho & Ep' & Eg' & Hall).
    exists (t :: pre), t', post, p'. repeat split; try assumption.
    constructor; [|exact Hall]. exists p. now split.
Qed.

(** X25.  [check_market_resolved] reports an outcome only for a market the
    venue marks closed, and then the upper-cased outcome of the first token
    of the first market returned whose price is at least 0.99; every token
    before it has a readable price under 0.99.  A request that fails, an
    empty answer, an open market, or a price that cannot be read before a
    winner is found all give None. *)
Theorem X25_outcome_of_a_closed_market py response outcome :
  Gamma.check_market_resolved py response = Some outcome ->
  exists m rest pre t post p,
    response = Some (m :: rest) /\
    Gamma.closed m = true /\
    Gamma.tokens m = (pre ++ t :: post)%list /\
    outcome = Gamma.upper py (Gamma.outcome t) /\
    Gamma.float_of 0%float (Gamma.price t) = Some p /\
    F.geb p 0.99%float = true /\
    Forall (fun t' =>
              exists p', Gamma.float_of 0%float (Gamma.price t') = Some p' /\
                         F.geb p' 0.99%float = false) pre.
Proof.
  unfold Gamma.check_market_resolved.
  destruct response as [[|m rest]|]; try discriminate.
  destruct (Gamma.closed m) eqn:Ec; [|discriminate].
  intros H. destruct (winner_spec py _ _ H) as (pre & t & post & p & Hw).
  exists m, rest, pre, t, post, p. split; [reflexivity|]. split; [exact Ec|].
  exact Hw.
Qed.

Lemma X25_outcome_of_a_closed_market_witness :
  exists m rest pre t post p,
    Some [sample_raw_closed] = Some (m :: rest) /\
    Gamma.closed m = true /\
    Gamma.tokens m = (pre ++ t :: post)%list /\
    "YES" = Gamma.upper sample_runtime (Gamma.outcome t) /\
    Gamma.float_of 0%float (Gamma.price t) = Some p /\
    F.geb p 0.99%float = true /\
    Forall (fun t' =>
              exists p', Gamma.float_of 0%float (Gamma.price t') = Some p' /\
                         F.geb p' 0.99%float = false) pre.
Proof.
  apply (X25_outcome_of_a_closed_market sample_runtime
           (Some [sample_raw_closed]) "YES").
  reflexivity.
Defined.
